(** * Sentient Planner: the stream consumer (processor.py) and the artifact
    worker (worker.py), embedded as executable Rocq definitions.

    The two programs are Python; their values are dynamically typed, their
    functions mutate process globals and remote services, and they raise and
    catch exceptions.  The embedding keeps all three: values are [json]
    terms with Python's run-time type checks written out, every function
    runs in a state-and-exception monad [M] over an explicit [World], and an
    exception leaves the state changes made before it in place. *)

From Stdlib Require Import ZArith NArith List String Ascii Bool Lia Arith.
From Stdlib Require Import Floats.SpecFloat DecimalString.
Import ListNotations.

Set Implicit Arguments.
Set Warnings "-register-all".
Local Open Scope list_scope.

(* ===================================================================== *)
(** * Python strings *)
(* ===================================================================== *)

(** A Python [str] is a sequence of Unicode code points: [len] and slicing
    count code points, not bytes. *)
Definition codepoint := N.
Definition pystr := list codepoint.

(** Source literals are UTF-8 text; [u] decodes a literal into its code
    points.  A continuation byte (10xxxxxx) extends the code point being
    read, any other byte starts a new one. *)
Fixpoint utf8_go (acc : option codepoint) (bs : list N) : pystr :=
  match bs with
  | [] => match acc with Some c => [c] | None => [] end
  | b :: bs' =>
      if (128 <=? b)%N && (b <? 192)%N
      then utf8_go (option_map (fun c => c * 64 + (b - 128))%N acc) bs'
      else
        let start :=
          if (b <? 128)%N then b
          else if (b <? 224)%N then (b - 192)%N
          else if (b <? 240)%N then (b - 224)%N
          else (b - 240)%N in
        match acc with
        | Some c => c :: utf8_go (Some start) bs'
        | None => utf8_go (Some start) bs'
        end
  end.

Definition u (s : string) : pystr :=
  utf8_go None (map N_of_ascii (list_ascii_of_string s)).
Arguments u s%_string : simpl never.

Definition pystr_eqb (a b : pystr) : bool :=
  if list_eq_dec N.eq_dec a b then true else false.

(** [needle in haystack] on two strings: substring search. *)
Fixpoint starts_with (p s : pystr) : bool :=
  match p, s with
  | [], _ => true
  | _ :: _, [] => false
  | a :: p', b :: s' => N.eqb a b && starts_with p' s'
  end.

Fixpoint str_contains (needle hay : pystr) : bool :=
  starts_with needle hay
  || match hay with [] => false | _ :: hay' => str_contains needle hay' end.

(** Decimal digits, zero padded, as [strftime] and [isoformat] print them. *)
Definition digit (n : N) : codepoint := (48 + n mod 10)%N.
Definition pad2 (n : N) : pystr := [digit (n / 10); digit n].
Definition pad4 (n : N) : pystr :=
  [digit (n / 1000); digit (n / 100); digit (n / 10); digit n].
Definition pad6 (n : N) : pystr :=
  [digit (n / 100000); digit (n / 10000); digit (n / 1000);
   digit (n / 100); digit (n / 10); digit n].

(* ===================================================================== *)
(** * Python values *)
(* ===================================================================== *)

(** What [json.loads] can return, which is also every value the two
    programs handle: [None], [bool], [int], [float], [str], [list], [dict].
    A dict is kept as an association list in insertion order; lookup takes
    the first binding of a key. *)
Inductive json : Type :=
| JNull
| JBool (b : bool)
| JInt (z : Z)
| JFloat (f : spec_float)
| JStr (s : pystr)
| JList (l : list json)
| JDict (d : list (pystr * json)).

(** The exception classes the programs raise, catch by name, or can receive
    from a library.  All of them derive from [Exception].
    [JSONDecodeError] is the only subclass relation the code depends on (it
    is caught by name in [parse_kinesis_record]). *)
Inductive exn : Type :=
| ClientError
| BotoCoreError
| KeyError
| ValueError
| JSONDecodeError
| TypeError
| AttributeError
| OverflowError
| OtherException (code : nat).

Inductive outcome (A : Type) : Type :=
| Ret (a : A)
| Raise (e : exn).
Arguments Raise {A} e.

(** [except (ClientError, BotoCoreError)] *)
Definition is_boto_error (e : exn) : bool :=
  match e with ClientError | BotoCoreError => true | _ => false end.

(** [except ClientError] *)
Definition is_client_error (e : exn) : bool :=
  match e with ClientError => true | _ => false end.

(** [except (KeyError, json.JSONDecodeError)] *)
Definition is_key_or_json_error (e : exn) : bool :=
  match e with KeyError | JSONDecodeError => true | _ => false end.

Fixpoint assoc (k : pystr) (d : list (pystr * json)) : option json :=
  match d with
  | [] => None
  | (k', v) :: d' => if pystr_eqb k k' then Some v else assoc k d'
  end.

(** Truth value of an object, as [if not x] tests it. *)
Definition truthy (v : json) : bool :=
  match v with
  | JNull => false
  | JBool b => b
  | JInt z => negb (Z.eqb z 0)
  | JFloat f => match f with S754_zero _ => false | _ => true end
  | JStr s => match s with [] => false | _ => true end
  | JList l => match l with [] => false | _ => true end
  | JDict d => match d with [] => false | _ => true end
  end.

(** [v.get(k, default)]: only a dict has [get]. *)
Definition py_get (v : json) (k : pystr) (default : json) : outcome json :=
  match v with
  | JDict d => Ret match assoc k d with Some x => x | None => default end
  | _ => Raise AttributeError
  end.

(** [v[k]] with a string key. *)
Definition py_getitem (v : json) (k : pystr) : outcome json :=
  match v with
  | JDict d => match assoc k d with Some x => Ret x | None => Raise KeyError end
  | _ => Raise TypeError
  end.

(** [k in v] for a string [k]: key of a dict, element of a list, substring
    of a string; the other types are not iterable. *)
Definition py_contains (k : pystr) (v : json) : outcome bool :=
  match v with
  | JDict d => Ret match assoc k d with Some _ => true | None => false end
  | JList l =>
      Ret (existsb (fun x => match x with JStr s => pystr_eqb k s | _ => false end) l)
  | JStr s => Ret (str_contains k s)
  | _ => Raise TypeError
  end.

(** [len(v)] *)
Definition py_len (v : json) : outcome nat :=
  match v with
  | JStr s => Ret (List.length s)
  | JList l => Ret (List.length l)
  | JDict d => Ret (List.length d)
  | _ => Raise TypeError
  end.

(** [l[:n]] for a literal [n] that is not negative *)
Definition slice_to {A} (n : N) (l : list A) : list A := firstn (N.to_nat n) l.
Arguments slice_to : simpl never.

(** [v[:n]] *)
Definition py_slice_to (n : N) (v : json) : outcome json :=
  match v with
  | JStr s => Ret (JStr (slice_to n s))
  | JList l => Ret (JList (slice_to n l))
  | _ => Raise TypeError
  end.

(** [for x in v] *)
Definition py_iter (v : json) : outcome (list json) :=
  match v with
  | JList l => Ret l
  | JDict d => Ret (map (fun kv => JStr (fst kv)) d)
  | JStr s => Ret (map (fun c => JStr [c]) s)
  | _ => Raise TypeError
  end.

(** [int(f)] for a float: truncation toward zero; infinities and NaN have no
    integer value. *)
Definition int_of_float (f : spec_float) : outcome Z :=
  match f with
  | S754_zero _ => Ret 0%Z
  | S754_infinity _ => Raise OverflowError
  | S754_nan => Raise ValueError
  | S754_finite s m e =>
      let mag := match e with
                 | Z0 => Zpos m
                 | Zpos p => (Zpos m * 2 ^ Zpos p)%Z
                 | Zneg p => (Zpos m / 2 ^ Zpos p)%Z
                 end in
      Ret (if s then (- mag)%Z else mag)
  end.

(** The parts of the Python run time and standard library that the programs
    call and that are not written out here. *)
Class PyLib : Type := {
  (** [str.lower] and [str.strip] (Unicode case mapping and white space) *)
  str_lower : pystr -> pystr;
  str_strip : pystr -> pystr;
  (** [int(s)] for a string, [None] when it raises [ValueError] *)
  int_of_str : pystr -> option Z;
  (** [str(v)] for a value that is not a string, as an f-string renders it *)
  py_str : json -> pystr;
  (** [json.loads], [None] when it raises [JSONDecodeError] *)
  json_loads : pystr -> option json;
  (** [json.dumps] *)
  json_dumps : json -> pystr;
  (** [base64.b64decode(s).decode("utf-8")], [None] when either step raises
      ([binascii.Error] and [UnicodeDecodeError], both [ValueError]s) *)
  b64decode_utf8 : pystr -> option pystr
}.

Section Dynamic.
Context {L : PyLib}.

(** [f"{v}"] *)
Definition py_format (v : json) : pystr :=
  match v with JStr s => s | _ => py_str v end.

(** [int(v)] *)
Definition py_int (v : json) : outcome Z :=
  match v with
  | JInt z => Ret z
  | JBool b => Ret (if b then 1 else 0)%Z
  | JFloat f => int_of_float f
  | JStr s => match int_of_str s with Some z => Ret z | None => Raise ValueError end
  | _ => Raise TypeError
  end.

(** [json.loads(v)]: the argument has to be text. *)
Definition py_json_loads (v : json) : outcome json :=
  match v with
  | JStr s => match json_loads s with Some j => Ret j | None => Raise JSONDecodeError end
  | _ => Raise TypeError
  end.

(** [base64.b64decode(v).decode("utf-8")] *)
Definition py_b64decode_utf8 (v : json) : outcome pystr :=
  match v with
  | JStr s => match b64decode_utf8 s with Some t => Ret t | None => Raise ValueError end
  | _ => Raise TypeError
  end.

End Dynamic.

(** Structural equality of values, as the store compares attribute values. *)
Definition spec_float_eqb (a b : spec_float) : bool :=
  match a, b with
  | S754_zero s, S754_zero s' => Bool.eqb s s'
  | S754_infinity s, S754_infinity s' => Bool.eqb s s'
  | S754_finite s m e, S754_finite s' m' e' =>
      Bool.eqb s s' && Pos.eqb m m' && Z.eqb e e'
  | _, _ => false
  end.

Fixpoint json_eqb (a b : json) {struct a} : bool :=
  match a, b with
  | JNull, JNull => true
  | JBool x, JBool y => Bool.eqb x y
  | JInt x, JInt y => Z.eqb x y
  | JFloat x, JFloat y => spec_float_eqb x y
  | JStr x, JStr y => pystr_eqb x y
  | JList x, JList y =>
      (fix go (x y : list json) {struct x} : bool :=
         match x, y with
         | [], [] => true
         | a' :: x', b' :: y' => json_eqb a' b' && go x' y'
         | _, _ => false
         end) x y
  | JDict x, JDict y =>
      (fix go (x y : list (pystr * json)) {struct x} : bool :=
         match x, y with
         | [], [] => true
         | (k, a') :: x', (k', b') :: y' =>
             pystr_eqb k k' && json_eqb a' b' && go x' y'
         | _, _ => false
         end) x y
  | _, _ => false
  end.

(* ===================================================================== *)
(** * Time *)
(* ===================================================================== *)

(** [datetime.now(timezone.utc)] *)
Record datetime : Type := mkDatetime {
  year : N; month : N; day : N;
  hour : N; minute : N; second : N; microsecond : N
}.

(** [strftime("%Y/%m/%d")] *)
Definition strftime_path (d : datetime) : pystr :=
  pad4 (year d) ++ u "/" ++ pad2 (month d) ++ u "/" ++ pad2 (day d).

(** [strftime("%Y-%m-%d %H:%M:%S UTC")] *)
Definition strftime_stamp (d : datetime) : pystr :=
  pad4 (year d) ++ u "-" ++ pad2 (month d) ++ u "-" ++ pad2 (day d) ++ u " "
  ++ pad2 (hour d) ++ u ":" ++ pad2 (minute d) ++ u ":" ++ pad2 (second d)
  ++ u " UTC".

(** [isoformat()] of an aware UTC datetime; the fraction is printed only
    when the microsecond field is not zero. *)
Definition isoformat (d : datetime) : pystr :=
  pad4 (year d) ++ u "-" ++ pad2 (month d) ++ u "-" ++ pad2 (day d) ++ u "T"
  ++ pad2 (hour d) ++ u ":" ++ pad2 (minute d) ++ u ":" ++ pad2 (second d)
  ++ (if (microsecond d =? 0)%N then [] else u "." ++ pad6 (microsecond d))
  ++ u "+00:00".

(* ===================================================================== *)
(** * The world: remote services, process globals, and the environment *)
(* ===================================================================== *)

(** A stored item is a dict of attributes. *)
Definition item := list (pystr * json).

(** A queue message as [receive_message] returns it; the provider always
    fills both fields. *)
Record sqs_message : Type := mkMessage {
  ReceiptHandle : pystr;
  Body : pystr
}.

(** A stored object; the body is kept as text, before its UTF-8 encoding. *)
Record s3_object : Type := mkObject {
  Key : pystr;
  ObjectBody : pystr;
  ContentType : pystr;
  Metadata : list (pystr * json)
}.

(** Every request the programs send to something outside the process. *)
Inductive request : Type :=
| GetSecretValue (secret_id : pystr)
| GenerateContent (user_text api_key : json)
| PutItem (it : item)
| Query (uid rid : json)
| UpdateItem (uid ts : json) (url generated_at : pystr)
| SendMessage (body : pystr) (group_id : json)
| ReceiveMessage (max_messages wait_time : Z)
| DeleteMessage (receipt_handle : pystr)
| PutObject (obj : s3_object)
| Sleep (seconds : Z).

Inductive level : Type := INFO | WARNING | ERROR.

(** Module-level constants, read from the process environment at import. *)
Record Config : Type := mkConfig {
  IS_LOCAL : bool;
  LOCALSTACK_ENDPOINT : pystr;
  SECRETS_NAME : pystr;
  DYNAMODB_TABLE_NAME : pystr;
  SQS_QUEUE_URL : pystr;
  S3_BUCKET_NAME : pystr;
  GEMINI_AVAILABLE : bool
}.

(** What the outside decides.  Every interaction with the outside happens at
    a tick of a logical clock; the oracles say what the outside does at that
    tick. *)
Class Env : Type := {
  config : Config;
  (** the wall clock *)
  clock : nat -> datetime;
  (** [uuid.uuid4()] *)
  uuid4 : nat -> pystr;
  (** the request sent at this tick raises this exception *)
  fault : nat -> option exn;
  (** the response of [get_secret_value] *)
  secret_response : nat -> json;
  (** [response.text] of the inference call, which can raise by itself *)
  gemini_text : nat -> outcome pystr;
  (** the receipt handle the queue gives a message sent at this tick *)
  new_handle : nat -> pystr;
  (** which queued messages a receive at this tick may deliver *)
  visible : nat -> sqs_message -> bool;
  (** a SIGTERM or SIGINT is delivered at this tick *)
  signal : nat -> bool
}.

Record World : Type := mkWorld {
  tick : nat;
  (** requests sent so far, oldest first *)
  trace : list request;
  (** log records written so far, oldest first *)
  logs : list (level * string);
  (** the store's table, the job queue, the blob bucket *)
  table : list item;
  queue : list sqs_message;
  bucket : list s3_object;
  (** processor.py: the global [_secrets_cache]; [None] is [JNull] *)
  secrets_cache : json;
  (** worker.py: the global [shutdown_requested] *)
  shutdown_requested : bool;
  (** worker.py: the locals [processed_count] and [error_count] of [main] *)
  processed_count : nat;
  error_count : nat
}.

Definition with_tick (w : World) (x : nat) : World :=
  mkWorld x (trace w) (logs w) (table w) (queue w) (bucket w)
          (secrets_cache w) (shutdown_requested w) (processed_count w) (error_count w).
Definition with_shutdown_requested (w : World) (x : bool) : World :=
  mkWorld (tick w) (trace w) (logs w) (table w) (queue w) (bucket w)
          (secrets_cache w) x (processed_count w) (error_count w).
Definition with_trace (w : World) (x : list request) : World :=
  mkWorld (tick w) x (logs w) (table w) (queue w) (bucket w)
          (secrets_cache w) (shutdown_requested w) (processed_count w) (error_count w).
Definition with_logs (w : World) (x : list (level * string)) : World :=
  mkWorld (tick w) (trace w) x (table w) (queue w) (bucket w)
          (secrets_cache w) (shutdown_requested w) (processed_count w) (error_count w).
Definition with_table (w : World) (x : list item) : World :=
  mkWorld (tick w) (trace w) (logs w) x (queue w) (bucket w)
          (secrets_cache w) (shutdown_requested w) (processed_count w) (error_count w).
Definition with_queue (w : World) (x : list sqs_message) : World :=
  mkWorld (tick w) (trace w) (logs w) (table w) x (bucket w)
          (secrets_cache w) (shutdown_requested w) (processed_count w) (error_count w).
Definition with_bucket (w : World) (x : list s3_object) : World :=
  mkWorld (tick w) (trace w) (logs w) (table w) (queue w) x
          (secrets_cache w) (shutdown_requested w) (processed_count w) (error_count w).
Definition with_secrets_cache (w : World) (x : json) : World :=
  mkWorld (tick w) (trace w) (logs w) (table w) (queue w) (bucket w)
          x (shutdown_requested w) (processed_count w) (error_count w).
Definition with_processed_count (w : World) (x : nat) : World :=
  mkWorld (tick w) (trace w) (logs w) (table w) (queue w) (bucket w)
          (secrets_cache w) (shutdown_requested w) x (error_count w).
Definition with_error_count (w : World) (x : nat) : World :=
  mkWorld (tick w) (trace w) (logs w) (table w) (queue w) (bucket w)
          (secrets_cache w) (shutdown_requested w) (processed_count w) x.

(* ===================================================================== *)
(** * The monad of the two programs *)
(* ===================================================================== *)

(** A computation takes the world and gives a value or an exception, and the
    world as it has become: a raised exception does not undo state changes. *)
Definition M (A : Type) : Type := World -> outcome A * World.

Definition ret {A} (a : A) : M A := fun w => (Ret a, w).
Definition raise {A} (e : exn) : M A := fun w => (Raise e, w).
Definition bind {A B} (m : M A) (k : A -> M B) : M B :=
  fun w => match m w with
           | (Ret a, w') => k a w'
           | (Raise e, w') => (Raise e, w')
           end.
(** [try: m  except Exception as e: h e] *)
Definition try_catch {A} (m : M A) (h : exn -> M A) : M A :=
  fun w => match m w with
           | (Ret a, w') => (Ret a, w')
           | (Raise e, w') => h e w'
           end.
Definition lift {A} (o : outcome A) : M A := fun w => (o, w).

Declare Scope py_scope.
Delimit Scope py_scope with py.
Notation "x <- m ;; k" := (bind m (fun x => k))
  (at level 61, m at next level, right associativity) : py_scope.
Notation "m ;; k" := (bind m (fun _ => k))
  (at level 61, right associativity) : py_scope.
Local Open Scope py_scope.

(** [logger.info], [logger.warning], [logger.error]: a log record keeps the
    level and the fixed text of the message, without the values that the
    f-string puts into it. *)
Definition log (l : level) (msg : string) : M unit :=
  fun w => (Ret tt, with_logs w (logs w ++ [(l, msg)])).
Arguments log l msg%_string.

(** [try: m  except (classes) as e: h e]; any other exception goes on. *)
Definition try_except {A} (m : M A) (classes : exn -> bool) (h : exn -> M A) : M A :=
  try_catch m (fun e => if classes e then h e else raise e).

Definition gets {A} (f : World -> A) : M A := fun w => (Ret (f w), w).
Definition modify (f : World -> World) : M unit := fun w => (Ret tt, f w).

(* ===================================================================== *)
(** * The remote services *)
(* ===================================================================== *)

Definition item_has (it : item) (k : pystr) (v : json) : bool :=
  match assoc k it with Some x => json_eqb x v | None => false end.

(** The table's primary key is the pair (UserId, Timestamp). *)
Definition has_key (uid ts : json) (it : item) : bool :=
  item_has it (u "UserId") uid && item_has it (u "Timestamp") ts.

Definition same_key (a b : item) : bool :=
  match assoc (u "UserId") a, assoc (u "Timestamp") a with
  | Some uid, Some ts => has_key uid ts b
  | _, _ => false
  end.

(** [put_item]: a new item, or a replacement of the item with its key. *)
Definition ddb_put (it : item) (tbl : list item) : list item :=
  filter (fun x => negb (same_key it x)) tbl ++ [it].

(** [query] by partition key [UserId] with the filter [RecordId = :rid]. *)
Definition ddb_query (uid rid : json) (tbl : list item) : list item :=
  filter (fun x => item_has x (u "UserId") uid && item_has x (u "RecordId") rid) tbl.

Fixpoint set_attr (k : pystr) (v : json) (it : item) : item :=
  match it with
  | [] => [(k, v)]
  | (k', v') :: it' =>
      if pystr_eqb k k' then (k, v) :: it' else (k', v') :: set_attr k v it'
  end.

Definition set_attrs (sets : list (pystr * json)) (it : item) : item :=
  fold_left (fun acc kv => set_attr (fst kv) (snd kv) acc) sets it.

(** [update_item] with a SET expression: the item with that key is changed;
    where there is none the store creates one. *)
Definition ddb_update (uid ts : json) (sets : list (pystr * json))
           (tbl : list item) : list item :=
  if existsb (has_key uid ts) tbl
  then map (fun x => if has_key uid ts x then set_attrs sets x else x) tbl
  else tbl ++ [set_attrs sets [(u "UserId", uid); (u "Timestamp", ts)]].

(** [delete_message] *)
Definition sqs_delete (h : pystr) (q : list sqs_message) : list sqs_message :=
  filter (fun m => negb (pystr_eqb (ReceiptHandle m) h)) q.

(** [put_object]: the object at that key is replaced. *)
Definition s3_put (o : s3_object) (b : list s3_object) : list s3_object :=
  filter (fun x => negb (pystr_eqb (Key x) (Key o))) b ++ [o].

Section Programs.
Context {L : PyLib} {E : Env}.

(* ===================================================================== *)
(** * worker.py: signal_handler, and the clock of the model *)
(* ===================================================================== *)

(** [signal_handler]: log, then set the global flag. *)
Definition signal_handler (w : World) : World :=
  with_shutdown_requested
    (with_logs w (logs w ++ [(INFO, "Received signal, initiating graceful shutdown..."%string)]))
    true.

(** One tick.  The interpreter runs a pending signal handler between two
    instructions, so a signal can land at any tick. *)
Definition tock (w : World) : World :=
  let w1 := with_tick w (S (tick w)) in
  if signal (tick w) then signal_handler w1 else w1.

Definition touch : M nat := fun w => (Ret (tick w), tock w).

(** Send a request that cannot fail ([time.sleep]). *)
Definition step (r : request) : M nat :=
  t <- touch;;
  modify (fun w => with_trace w (trace w ++ [r]));;
  ret t.

(** Send a request; the outside may answer with an exception. *)
Definition call (r : request) : M nat :=
  t <- step r;;
  match fault t with
  | Some e => raise e
  | None => ret t
  end.

(** [datetime.now(timezone.utc)] *)
Definition now : M datetime := t <- touch;; ret (clock t).

(* ===================================================================== *)
(** * processor.py *)
(* ===================================================================== *)

(** [get_secrets] *)
Definition get_secrets : M json :=
  cache <- gets secrets_cache;;
  match cache with
  | JNull =>
      try_except
        (t <- call (GetSecretValue (SECRETS_NAME config));;
         secret_string <- lift (py_getitem (secret_response t) (u "SecretString"));;
         secrets <- lift (py_json_loads secret_string);;
         modify (fun w => with_secrets_cache w secrets);;
         log INFO "Secrets retrieved and cached successfully";;
         ret secrets)
        is_client_error
        (fun e => log ERROR "Failed to retrieve secrets";; raise e)
  | _ => ret cache
  end.

(** The [try] block of [parse_kinesis_record]; it touches nothing outside
    its argument. *)
Definition decode_record (record : json) : outcome json :=
  match py_getitem record (u "kinesis") with
  | Raise e => Raise e
  | Ret kinesis =>
      match py_getitem kinesis (u "data") with
      | Raise e => Raise e
      | Ret encoded =>
          match py_b64decode_utf8 encoded with
          | Raise e => Raise e
          | Ret data => py_json_loads (JStr data)
          end
      end
  end.

(** [parse_kinesis_record] *)
Definition parse_kinesis_record (record : json) : M json :=
  try_except
    (lift (decode_record record))
    is_key_or_json_error
    (fun e => log ERROR "Failed to parse Kinesis record";; raise ValueError).

Definition day_entry (d t1 t2 t3 focus self_care : string) : json :=
  JDict [(u "day", JStr (u d));
         (u "tasks", JList [JStr (u t1); JStr (u t2); JStr (u t3)]);
         (u "focus", JStr (u focus));
         (u "self_care", JStr (u self_care))].

(** The dict literal that [get_fallback_response] returns. *)
Definition fallback_weekly_plan : list json :=
  [day_entry "Monday"
     "Review weekly goals" "Organize workspace" "Plan the week ahead"
     "Organization and clarity" "Take a 15-minute walk";
   day_entry "Tuesday"
     "Focus on priority tasks" "Respond to pending messages" "Document progress"
     "Productivity" "Practice deep breathing exercises";
   day_entry "Wednesday"
     "Midweek review" "Adjust plans if needed" "Connect with a colleague"
     "Adaptation and connection" "Enjoy a healthy lunch mindfully";
   day_entry "Thursday"
     "Continue priority work" "Prepare for end of week" "Learn something new"
     "Growth and momentum" "Listen to calming music";
   day_entry "Friday"
     "Complete weekly tasks" "Review accomplishments" "Set intentions for next week"
     "Completion and reflection" "Celebrate small wins";
   day_entry "Saturday"
     "Rest and recharge" "Pursue a hobby" "Spend time with loved ones"
     "Personal time" "Sleep in if needed";
   day_entry "Sunday"
     "Gentle preparation for the week" "Meal prep" "Relaxation"
     "Renewal" "Practice gratitude journaling"].

Definition fallback_payload : json :=
  JDict [(u "emotion", JStr (u "neutral"));
         (u "sentiment_score", JInt 50);
         (u "weekly_plan", JList fallback_weekly_plan);
         (u "_fallback", JBool true)].

(** [get_fallback_response] *)
Definition get_fallback_response : M json :=
  log WARNING "Using fallback response";;
  ret fallback_payload.

Definition required_fields : list pystr :=
  [u "emotion"; u "sentiment_score"; u "weekly_plan"].

(** The validation loop of [call_gemini_api]. *)
Fixpoint check_required (fields : list pystr) (result : json) : M unit :=
  match fields with
  | [] => ret tt
  | field :: rest =>
      present <- lift (py_contains field result);;
      if present then check_required rest result else raise ValueError
  end.

(** [call_gemini_api] *)
Definition call_gemini_api (user_text api_key : json) : M json :=
  if negb (GEMINI_AVAILABLE config) then
    log WARNING "Gemini SDK not available, returning fallback response";;
    get_fallback_response
  else
    try_catch
      (t <- call (GenerateContent user_text api_key);;
       text <- lift (gemini_text t);;
       result <- lift (py_json_loads (JStr text));;
       check_required required_fields result;;
       _ <- lift (py_getitem result (u "emotion"));;
       _ <- lift (py_getitem result (u "sentiment_score"));;
       log INFO "Gemini analysis complete";;
       ret result)
      (fun e => log ERROR "Gemini API call failed";; get_fallback_response).

(** The item that [save_to_dynamodb] builds. *)
Definition plan_record (user_id timestamp record_id user_text emotion : json)
           (score : Z) (weekly_plan is_fallback : json) : item :=
  [(u "UserId", user_id);
   (u "Timestamp", timestamp);
   (u "RecordId", record_id);
   (u "UserText", user_text);
   (u "Emotion", emotion);
   (u "SentimentScore", JInt score);
   (u "WeeklyPlan", weekly_plan);
   (u "AsciiUrl", JNull);
   (u "AsciiStatus", JStr (u "pending"));
   (u "CreatedAt", timestamp);
   (u "IsFallback", is_fallback)].

(** [save_to_dynamodb] *)
Definition save_to_dynamodb (user_id record_id user_text analysis_result : json)
  : M unit :=
  try_except
    (d <- now;;
     let timestamp := JStr (isoformat d) in
     text <- lift (py_slice_to 10000 user_text);;
     emotion <- lift (py_get analysis_result (u "emotion") (JStr (u "unknown")));;
     raw_score <- lift (py_get analysis_result (u "sentiment_score") (JInt 50));;
     score <- lift (py_int raw_score);;
     weekly_plan <- lift (py_get analysis_result (u "weekly_plan") (JList []));;
     is_fallback <- lift (py_get analysis_result (u "_fallback") (JBool false));;
     let it := plan_record user_id timestamp record_id text emotion score
                           weekly_plan is_fallback in
     _ <- call (PutItem it);;
     modify (fun w => with_table w (ddb_put it (table w)));;
     log INFO "Saved record to DynamoDB")
    is_boto_error
    (fun e => log ERROR "Failed to save to DynamoDB";; raise e).

(** [push_to_sqs].  [send_message] is always given the keyword
    [MessageGroupId]: the user on a queue whose URL contains ".fifo",
    [None] on any other.  The client checks the parameters against the
    service model before it sends anything, and [MessageGroupId] has to be
    text: for [None], and for a user that is not text, it raises
    [ParamValidationError], a [BotoCoreError], and no request leaves the
    process. *)
Definition push_to_sqs (record_id emotion user_id : json) : M bool :=
  if negb (truthy (JStr (SQS_QUEUE_URL config))) then
    log WARNING "SQS_QUEUE_URL not configured, skipping ASCII generation";;
    ret false
  else
    try_except
      (d <- now;;
       let message := JDict [(u "record_id", record_id);
                             (u "user_id", user_id);
                             (u "emotion", emotion);
                             (u "timestamp", JStr (isoformat d))] in
       let body := json_dumps message in
       let group := if str_contains (u ".fifo") (SQS_QUEUE_URL config)
                    then user_id else JNull in
       match group with
       | JStr _ =>
           t <- call (SendMessage body group);;
           modify (fun w => with_queue w (queue w ++ [mkMessage (new_handle t) body]));;
           log INFO "SQS message sent for ASCII generation";;
           ret true
       | _ => raise BotoCoreError
       end)
      is_boto_error
      (fun e => log ERROR "Failed to push to SQS (graceful degradation)";; ret false).

(** How one pass through the body of [handler]'s loop ends: at the bottom of
    the [try], at the [continue] of the empty-text test, or in the
    [except]. *)
Inductive record_exit : Type := Processed | Skipped | Failed.

(** The body of the [for] loop of [handler]. *)
Definition handler_record (record : json) : M (record_exit * json) :=
  t <- touch;;
  let record_id := JStr (uuid4 t) in
  try_catch
    (input_data <- parse_kinesis_record record;;
     user_text <- lift (py_get input_data (u "text") (JStr (u "")));;
     user_id <- lift (py_get input_data (u "userId") (JStr (u "anonymous")));;
     if negb (truthy user_text) then
       log WARNING "Empty text in record, skipping";;
       ret (Skipped, record_id)
     else
       _ <- lift (py_len user_text);;
       log INFO "Processing record for user";;
       secrets <- get_secrets;;
       gemini_key <- lift (py_get secrets (u "GEMINI_KEY") (JStr (u "")));;
       analysis_result <- call_gemini_api user_text gemini_key;;
       save_to_dynamodb user_id record_id user_text analysis_result;;
       emotion <- lift (py_get analysis_result (u "emotion") (JStr (u "neutral")));;
       _ <- push_to_sqs record_id emotion user_id;;
       log INFO "Successfully processed record";;
       ret (Processed, record_id))
    (fun e => log ERROR "Failed to process record";; ret (Failed, record_id)).

(** The [for] loop of [handler], with its two counters. *)
Fixpoint handler_loop (records : list json) (processed_count error_count : nat)
  : M (nat * nat) :=
  match records with
  | [] => ret (processed_count, error_count)
  | record :: rest =>
      x <- handler_record record;;
      match fst x with
      | Processed => handler_loop rest (S processed_count) error_count
      | Skipped => handler_loop rest processed_count error_count
      | Failed => handler_loop rest processed_count (S error_count)
      end
  end.

Definition batch_response (processed_count error_count : nat) : json :=
  JDict [(u "statusCode", JInt 200);
         (u "body",
          JStr (json_dumps
                  (JDict [(u "message", JStr (u "Processing complete"));
                          (u "processed", JInt (Z.of_nat processed_count));
                          (u "errors", JInt (Z.of_nat error_count))])))].

(** [handler] *)
Definition handler (event : json) : M json :=
  records <- lift (py_get event (u "Records") (JList []));;
  _ <- lift (py_len records);;
  log INFO "Processing Kinesis records";;
  records <- lift (py_get event (u "Records") (JList []));;
  records <- lift (py_iter records);;
  counts <- handler_loop records 0 0;;
  log INFO "Batch processing complete";;
  ret (batch_response (fst counts) (snd counts)).

End Programs.

(* ===================================================================== *)
(** * worker.py *)
(* ===================================================================== *)

(** The raw string literals of [EMOTION_ASCII_MAP], one per canonical
    emotion, decoded once into their code points. *)
Definition art_happy : pystr := Eval vm_compute in u "
    ╔══════════════════════════════════════╗
    ║                                      ║
    ║           ╰(*´︶`*)╯                 ║
    ║                                      ║
    ║     ♪ ♫ HAPPINESS DETECTED ♫ ♪      ║
    ║                                      ║
    ║   ☆ﾟ.*･｡ﾟ✧*:..｡✧*:..｡✧.*･ﾟ☆       ║
    ║                                      ║
    ║   Your energy radiates positivity!   ║
    ║   Keep spreading those good vibes    ║
    ║                                      ║
    ╚══════════════════════════════════════╝
    ".

Definition art_excited : pystr := Eval vm_compute in u "
    ╔══════════════════════════════════════╗
    ║                                      ║
    ║        ＼(◎o◎)／ EXCITEMENT!        ║
    ║                                      ║
    ║    ★━━━━━━━━★━━━━━━━━★              ║
    ║    ┊ ☆ ┊ ☆ ┊ ☆ ┊ ☆ ┊ ☆ ┊           ║
    ║    ★━━━━━━━━★━━━━━━━━★              ║
    ║                                      ║
    ║   Your enthusiasm is contagious!     ║
    ║   Channel this energy wisely!        ║
    ║                                      ║
    ╚══════════════════════════════════════╝
    ".

Definition art_hopeful : pystr := Eval vm_compute in u "
    ╔══════════════════════════════════════╗
    ║                                      ║
    ║              ☀️                       ║
    ║           ／｜＼                      ║
    ║          ／ ｜ ＼                     ║
    ║             🌱                       ║
    ║                                      ║
    ║      ♡ HOPE BLOOMS WITHIN ♡         ║
    ║                                      ║
    ║   The seeds of tomorrow are          ║
    ║   planted in today's hope            ║
    ║                                      ║
    ╚══════════════════════════════════════╝
    ".

Definition art_anxious : pystr := Eval vm_compute in u "
    ╔══════════════════════════════════════╗
    ║                                      ║
    ║           (・_・;)                   ║
    ║          ／|  |＼                    ║
    ║         ～～～～～～                  ║
    ║                                      ║
    ║      ◈ ANXIETY DETECTED ◈           ║
    ║                                      ║
    ║   Take a deep breath...              ║
    ║   ▓▓▓▓▓▓▓▓▓▓▓                        ║
    ║   One step at a time                 ║
    ║                                      ║
    ╚══════════════════════════════════════╝
    ".

Definition art_stressed : pystr := Eval vm_compute in u "
    ╔══════════════════════════════════════╗
    ║                                      ║
    ║         (╯°□°)╯︵ ┻━┻               ║
    ║                                      ║
    ║     ▓▓▓  STRESS LEVEL: HIGH  ▓▓▓    ║
    ║     ████████████████████████████     ║
    ║                                      ║
    ║   Remember:                          ║
    ║   ┏━━━━━━━━━━━━━━━━━━━━━━┓          ║
    ║   ┃ This too shall pass  ┃          ║
    ║   ┗━━━━━━━━━━━━━━━━━━━━━━┛          ║
    ║                                      ║
    ╚══════════════════════════════════════╝
    ".

Definition art_sad : pystr := Eval vm_compute in u "
    ╔══════════════════════════════════════╗
    ║                                      ║
    ║            (｡•́︿•̀｡)                 ║
    ║                                      ║
    ║          ｡ﾟ(ﾟ´ω`ﾟ)ﾟ｡                ║
    ║                                      ║
    ║      ♡ SADNESS ACKNOWLEDGED ♡        ║
    ║                                      ║
    ║   It's okay to feel this way         ║
    ║   Healing takes time                 ║
    ║   You are not alone ❤️               ║
    ║                                      ║
    ╚══════════════════════════════════════╝
    ".

Definition art_angry : pystr := Eval vm_compute in u "
    ╔══════════════════════════════════════╗
    ║                                      ║
    ║          (╬ಠ益ಠ)                     ║
    ║         ／|  |＼                     ║
    ║        🔥    🔥                      ║
    ║                                      ║
    ║      ⚠ ANGER DETECTED ⚠             ║
    ║                                      ║
    ║   Channel this energy:               ║
    ║   ┌─────────────────────────┐        ║
    ║   │ Breathe → Process → Act │        ║
    ║   └─────────────────────────┘        ║
    ║                                      ║
    ╚══════════════════════════════════════╝
    ".

Definition art_neutral : pystr := Eval vm_compute in u "
    ╔══════════════════════════════════════╗
    ║                                      ║
    ║           (・_・)                    ║
    ║                                      ║
    ║      ━━━━━ NEUTRAL ━━━━━            ║
    ║                                      ║
    ║   ┌────────────────────────┐         ║
    ║   │   Balanced & Present   │         ║
    ║   │        ≋≋≋≋≋≋          │         ║
    ║   │     Mindful Moment     │         ║
    ║   └────────────────────────┘         ║
    ║                                      ║
    ╚══════════════════════════════════════╝
    ".

Definition art_tired : pystr := Eval vm_compute in u "
    ╔══════════════════════════════════════╗
    ║                                      ║
    ║          (－_－) zzZ                 ║
    ║                                      ║
    ║      ～～ FATIGUE MODE ～～          ║
    ║                                      ║
    ║   ▓▒░░░░░░░░░░░░░░░░░░░░░▒▓         ║
    ║            Energy: Low               ║
    ║                                      ║
    ║   Rest is productive too!            ║
    ║   Recharge to come back stronger     ║
    ║                                      ║
    ╚══════════════════════════════════════╝
    ".

Definition art_grateful : pystr := Eval vm_compute in u "
    ╔══════════════════════════════════════╗
    ║                                      ║
    ║         (◕‿◕)♡                       ║
    ║                                      ║
    ║      ✿ GRATITUDE FLOWING ✿          ║
    ║                                      ║
    ║   ♡━━━━━━━━━━━━━━━━━━━━━━━━━♡        ║
    ║   │  Thank you for this moment  │   ║
    ║   ♡━━━━━━━━━━━━━━━━━━━━━━━━━♡        ║
    ║                                      ║
    ║   Gratitude transforms everything    ║
    ║                                      ║
    ╚══════════════════════════════════════╝
    ".

(** [EMOTION_ASCII_MAP] *)
Definition EMOTION_ASCII_MAP : list (pystr * pystr) :=
  [(u "happy", art_happy);
   (u "excited", art_excited);
   (u "hopeful", art_hopeful);
   (u "anxious", art_anxious);
   (u "stressed", art_stressed);
   (u "sad", art_sad);
   (u "angry", art_angry);
   (u "neutral", art_neutral);
   (u "tired", art_tired);
   (u "grateful", art_grateful)].

(** The dict [emotion_mapping] of [generate]: synonyms of the canonical emotions. *)
Definition emotion_mapping : list (pystr * pystr) :=
  [(u "joyful", u "happy");
   (u "elated", u "excited");
   (u "enthusiastic", u "excited");
   (u "optimistic", u "hopeful");
   (u "worried", u "anxious");
   (u "nervous", u "anxious");
   (u "overwhelmed", u "stressed");
   (u "depressed", u "sad");
   (u "melancholic", u "sad");
   (u "furious", u "angry");
   (u "irritated", u "angry");
   (u "exhausted", u "tired");
   (u "fatigued", u "tired");
   (u "thankful", u "grateful");
   (u "appreciative", u "grateful")].

(** The three literal pieces of the footer f-string of [generate]. *)
Definition footer_head : pystr := Eval vm_compute in u "
    ╔══════════════════════════════════════╗
    ║  Sentient Planner - Emotion Canvas   ║
    ║  ID: ".

Definition footer_mid : pystr := Eval vm_compute in u "                          ║
    ║  Generated: ".

Definition footer_tail : pystr := Eval vm_compute in u "   ║
    ╚══════════════════════════════════════╝
        ".

Fixpoint str_assoc (k : pystr) (d : list (pystr * pystr)) : option pystr :=
  match d with
  | [] => None
  | (k', v) :: d' => if pystr_eqb k k' then Some v else str_assoc k d'
  end.

(** [d.get(k, default)] on a dict of strings *)
Definition str_get (d : list (pystr * pystr)) (k default : pystr) : pystr :=
  match str_assoc k d with Some v => v | None => default end.

Section Worker.
Context {L : PyLib} {E : Env}.

(** [emotion.lower().strip()]: only a string has these methods. *)
Definition py_lower_strip (v : json) : outcome pystr :=
  match v with
  | JStr s => Ret (str_strip (str_lower s))
  | _ => Raise AttributeError
  end.

(** [ASCIIGenerator.generate].  The constructor leaves [self.model] at
    [None] and [generate] does not read it. *)
Definition generate (emotion record_id : json) : M pystr :=
  emotion_lower <- lift (py_lower_strip emotion);;
  let mapped_emotion := str_get emotion_mapping emotion_lower emotion_lower in
  neutral <- lift (match str_assoc (u "neutral") EMOTION_ASCII_MAP with
                   | Some art => Ret art
                   | None => Raise KeyError
                   end);;
  let ascii_art := str_get EMOTION_ASCII_MAP mapped_emotion neutral in
  d <- now;;
  let timestamp := strftime_stamp d in
  short_id <- lift (py_slice_to 8 record_id);;
  let footer := footer_head ++ py_format short_id ++ footer_mid
                ++ timestamp ++ footer_tail in
  ret (ascii_art ++ footer).

(** [poll_sqs_messages]: the queue delivers at most [max_messages] of the
    messages it holds and currently shows. *)
Definition poll_sqs_messages (max_messages wait_time : Z) : M (list sqs_message) :=
  try_except
    (t <- call (ReceiveMessage max_messages wait_time);;
     messages <- gets (fun w => firstn (Z.to_nat max_messages)
                                       (filter (visible t) (queue w)));;
     match messages with
     | [] => ret tt
     | _ :: _ => log INFO "Received messages from SQS"
     end;;
     ret messages)
    is_boto_error
    (fun e => log ERROR "Failed to poll SQS";; ret []).

(** [delete_sqs_message] *)
Definition delete_sqs_message (receipt_handle : pystr) : M unit :=
  try_except
    (_ <- call (DeleteMessage receipt_handle);;
     modify (fun w => with_queue w (sqs_delete receipt_handle (queue w)));;
     log INFO "Message deleted from SQS")
    is_boto_error
    (fun e => log ERROR "Failed to delete SQS message").

(** The object key that [upload_to_s3] builds. *)
Definition artifact_key (user_id : json) (d : datetime) (record_id : json) : pystr :=
  u "ascii-art/" ++ py_format user_id ++ u "/" ++ strftime_path d ++ u "/"
  ++ py_format record_id ++ u ".txt".

Definition artifact_url (key : pystr) : pystr :=
  if IS_LOCAL config
  then LOCALSTACK_ENDPOINT config ++ u "/" ++ S3_BUCKET_NAME config ++ u "/" ++ key
  else u "https://" ++ S3_BUCKET_NAME config ++ u ".s3.amazonaws.com/" ++ key.

(** [upload_to_s3] *)
Definition upload_to_s3 (ascii_art : pystr) (record_id user_id : json) : M pystr :=
  try_except
    (d <- now;;
     let key := artifact_key user_id d record_id in
     generated_at <- now;;
     let obj := mkObject key ascii_art (u "text/plain; charset=utf-8")
                         [(u "record_id", record_id);
                          (u "user_id", user_id);
                          (u "generated_at", JStr (isoformat generated_at))] in
     _ <- call (PutObject obj);;
     modify (fun w => with_bucket w (s3_put obj (bucket w)));;
     let url := artifact_url key in
     log INFO "Uploaded ASCII art to S3";;
     ret url)
    is_boto_error
    (fun e => log ERROR "Failed to upload to S3";; raise e).

(** The SET expression of [update_dynamodb]. *)
Definition backfill (ascii_url generated_at : pystr) : list (pystr * json) :=
  [(u "AsciiUrl", JStr ascii_url);
   (u "AsciiStatus", JStr (u "completed"));
   (u "AsciiGeneratedAt", JStr generated_at)].

(** [update_dynamodb] *)
Definition update_dynamodb (user_id timestamp record_id : json) (ascii_url : pystr)
  : M unit :=
  try_except
    (_ <- call (Query user_id record_id);;
     items <- gets (fun w => ddb_query user_id record_id (table w));;
     match items with
     | it :: _ =>
         uid <- lift (py_getitem (JDict it) (u "UserId"));;
         ts <- lift (py_getitem (JDict it) (u "Timestamp"));;
         d <- now;;
         _ <- call (UpdateItem uid ts ascii_url (isoformat d));;
         modify (fun w => with_table w
                   (ddb_update uid ts (backfill ascii_url (isoformat d)) (table w)));;
         log INFO "Updated DynamoDB record"
     | [] => log WARNING "Record not found in DynamoDB"
     end)
    is_boto_error
    (fun e => log ERROR "Failed to update DynamoDB";; raise e).

(** The [try] block of [process_message]. *)
Definition process_message_body (message : sqs_message) : M bool :=
  body <- lift (py_json_loads (JStr (Body message)));;
  record_id <- lift (py_get body (u "record_id") JNull);;
  emotion <- lift (py_get body (u "emotion") (JStr (u "neutral")));;
  user_id <- lift (py_get body (u "user_id") (JStr (u "anonymous")));;
  timestamp <- lift (py_get body (u "timestamp") JNull);;
  if negb (truthy record_id) then
    log ERROR "Message missing record_id, skipping";;
    ret false
  else
    log INFO "Processing";;
    ascii_art <- generate emotion record_id;;
    ascii_url <- upload_to_s3 ascii_art record_id user_id;;
    update_dynamodb user_id timestamp record_id ascii_url;;
    log INFO "Successfully processed message";;
    ret true.

(** [process_message] *)
Definition process_message (message : sqs_message) : M bool :=
  try_catch
    (process_message_body message)
    (fun e => log ERROR "Failed to process message";; ret false).

(** Reading the global [shutdown_requested] at a checkpoint of [main]. *)
Definition read_shutdown_requested : M bool :=
  _ <- touch;;
  gets shutdown_requested.

(** What [main] does with one message once the shutdown test has passed. *)
Definition handle_message (message : sqs_message) : M unit :=
  success <- process_message message;;
  if success then
    delete_sqs_message (ReceiptHandle message);;
    modify (fun w => with_processed_count w (S (processed_count w)))
  else
    modify (fun w => with_error_count w (S (error_count w))).

(** The [for message in messages] loop of [main]; [break] ends it. *)
Fixpoint for_messages (messages : list sqs_message) : M unit :=
  match messages with
  | [] => ret tt
  | message :: rest =>
      stop <- read_shutdown_requested;;
      if stop then
        log INFO "Shutdown requested, stopping processing"
      else
        handle_message message;;
        for_messages rest
  end.

(** The body of the [while] loop of [main]: one poll cycle. *)
Definition poll_cycle : M unit :=
  try_catch
    (messages <- poll_sqs_messages 10 10;;
     for_messages messages;;
     match messages with
     | [] => _ <- step (Sleep 1);; ret tt
     | _ :: _ => ret tt
     end)
    (fun e => log ERROR "Error in main loop";; _ <- step (Sleep 5);; ret tt).

(** The [while not shutdown_requested] loop of [main].  The loop need not
    end, so the model counts poll cycles: [true] when the loop has ended,
    [false] when it is still running after [fuel] cycles. *)
Fixpoint worker_loop (fuel : nat) : M bool :=
  match fuel with
  | O => ret false
  | S fuel' =>
      stop <- read_shutdown_requested;;
      if stop then ret true
      else poll_cycle;; worker_loop fuel'
  end.

(** How a run of [main] is left. *)
Inductive main_exit : Type :=
| SysExit (status : Z)      (** [sys.exit(1)] *)
| Returned                  (** the loop ended and [main] returned *)
| Running.                  (** still polling *)

(** [main].  The clients are made and the generator is constructed before
    the loop; neither sends a request, and what the constructor logs depends
    on the file system only. *)
Definition main (fuel : nat) : M main_exit :=
  log INFO "====";;
  log INFO "Sentient Planner - ASCII Worker Starting";;
  log INFO "====";;
  log INFO "Environment";;
  log INFO "SQS Queue";;
  log INFO "S3 Bucket";;
  log INFO "DynamoDB Table";;
  log INFO "====";;
  if negb (truthy (JStr (SQS_QUEUE_URL config))) then
    log ERROR "SQS_QUEUE_URL is not configured. Exiting.";;
    ret (SysExit 1)
  else
    log INFO "Worker initialized. Starting polling loop...";;
    modify (fun w => with_error_count (with_processed_count w 0) 0);;
    ended <- worker_loop fuel;;
    if ended then
      log INFO "====";;
      log INFO "Worker shutting down gracefully";;
      log INFO "Total processed";;
      log INFO "Total errors";;
      log INFO "====";;
      ret Returned
    else ret Running.

End Worker.

(* ===================================================================== *)
(** * A run time and an outside to execute the programs on *)
(* ===================================================================== *)

(** The library functions below agree with CPython on ASCII text without
    quotes or backslashes, which is all the executed examples use. *)
Module Run.

Definition lower (s : pystr) : pystr :=
  map (fun c => if (65 <=? c)%N && (c <=? 90)%N then (c + 32)%N else c) s.

Definition is_space (c : codepoint) : bool :=
  ((9 <=? c)%N && (c <=? 13)%N) || ((28 <=? c)%N && (c <=? 32)%N).

Fixpoint lstrip (s : pystr) : pystr :=
  match s with
  | c :: s' => if is_space c then lstrip s' else s
  | [] => []
  end.

Definition strip (s : pystr) : pystr := rev (lstrip (rev (lstrip s))).

Definition decimal (z : Z) : pystr := u (NilZero.string_of_int (Z.to_int z)).

Definition parse_int (s : pystr) : option Z :=
  match s with
  | [] => None
  | _ :: _ =>
      fold_left
        (fun acc c =>
           match acc with
           | Some z => if (48 <=? c)%N && (c <=? 57)%N
                       then Some (z * 10 + Z.of_N (c - 48))%Z else None
           | None => None
           end) s (Some 0%Z)
  end.

Fixpoint join (sep : pystr) (parts : list pystr) : pystr :=
  match parts with
  | [] => []
  | [p] => p
  | p :: rest => p ++ sep ++ join sep rest
  end.

Definition quoted (q : codepoint) (s : pystr) : pystr := [q] ++ s ++ [q].

(** [json.dumps] with its default separators. *)
Fixpoint dumps (v : json) : pystr :=
  match v with
  | JNull => u "null"
  | JBool b => if b then u "true" else u "false"
  | JInt z => decimal z
  | JFloat _ => u "NaN"
  | JStr s => quoted 34%N s
  | JList l =>
      u "[" ++ join (u ", ")
                 ((fix go (l : list json) : list pystr :=
                     match l with [] => [] | x :: l' => dumps x :: go l' end) l)
      ++ u "]"
  | JDict d =>
      u "{" ++ join (u ", ")
                 ((fix go (d : list (pystr * json)) : list pystr :=
                     match d with
                     | [] => []
                     | (k, x) :: d' => (quoted 34%N k ++ u ": " ++ dumps x) :: go d'
                     end) d)
      ++ u "}"
  end.

(** [repr]; on a value that is not a string [str] is [repr]. *)
Fixpoint repr (v : json) : pystr :=
  match v with
  | JNull => u "None"
  | JBool b => if b then u "True" else u "False"
  | JInt z => decimal z
  | JFloat _ => u "nan"
  | JStr s => quoted 39%N s
  | JList l =>
      u "[" ++ join (u ", ")
                 ((fix go (l : list json) : list pystr :=
                     match l with [] => [] | x :: l' => repr x :: go l' end) l)
      ++ u "]"
  | JDict d =>
      u "{" ++ join (u ", ")
                 ((fix go (d : list (pystr * json)) : list pystr :=
                     match d with
                     | [] => []
                     | (k, x) :: d' => (quoted 39%N k ++ u ": " ++ repr x) :: go d'
                     end) d)
      ++ u "}"
  end.

(** [json.loads] on the documents of a run: the document whose text it is
    given, [None] for any other text.  A run therefore lists every JSON
    text that its programs parse; the only other texts the runs parse are
    not JSON. *)
Definition loads (documents : list json) (s : pystr) : option json :=
  find (fun d => pystr_eqb (dumps d) s) documents.

(** Base64: the value of a digit of the alphabet. *)
Definition sextet (c : codepoint) : option N :=
  if (65 <=? c)%N && (c <=? 90)%N then Some (c - 65)%N
  else if (97 <=? c)%N && (c <=? 122)%N then Some (c - 71)%N
  else if (48 <=? c)%N && (c <=? 57)%N then Some (c + 4)%N
  else if (c =? 43)%N then Some 62%N
  else if (c =? 47)%N then Some 63%N
  else None.

Fixpoint sextets (s : pystr) : option (list N) :=
  match s with
  | [] => Some []
  | c :: s' =>
      if (c =? 61)%N then Some []
      else match sextet c, sextets s' with
           | Some x, Some xs => Some (x :: xs)
           | _, _ => None
           end
  end.

Fixpoint octets (fuel : nat) (xs : list N) : list N :=
  match fuel with
  | O => []
  | S fuel' =>
      match xs with
      | a :: b :: c :: d :: xs' =>
          (a * 4 + b / 16)%N :: ((b mod 16) * 16 + c / 4)%N
          :: ((c mod 4) * 64 + d)%N :: octets fuel' xs'
      | [a; b; c] => [(a * 4 + b / 16)%N; ((b mod 16) * 16 + c / 4)%N]
      | [a; b] => [(a * 4 + b / 16)%N]
      | _ => []
      end
  end.

Definition b64decode (s : pystr) : option pystr :=
  match sextets s with
  | Some xs => Some (utf8_go None (octets (List.length xs) xs))
  | None => None
  end.

Definition lib (documents : list json) : PyLib :=
  Build_PyLib lower strip parse_int repr (loads documents) dumps b64decode.

Definition local_config (queue_url : pystr) (gemini_available : bool) : Config :=
  mkConfig true (u "http://localhost:4566") (u "app-secrets")
           (u "sentient-planner-table") queue_url
           (u "sentient-planner-bucket") gemini_available.

Definition queue_url : pystr := u "http://localhost:4566/000000000000/ascii-jobs.fifo".

(** The clock advances one second per tick from 2026-11-03 08:00:00 UTC. *)
Definition clock (t : nat) : datetime :=
  let n := N.of_nat t in
  mkDatetime 2026 11 3 8 ((n / 60) mod 60) (n mod 60) 0.

Definition the_secret : json := JDict [(u "GEMINI_KEY", JStr (u "key-1"))].

(** An outside that differs from run to run in its configuration, in the
    requests it refuses, in the inference reply and in the signals. *)
Definition env (cfg : Config) (fault : nat -> option exn)
           (reply : nat -> outcome pystr) (signal : nat -> bool) : Env :=
  Build_Env cfg clock
            (fun t => u "rec-" ++ decimal (Z.of_nat t))
            fault
            (fun _ => JDict [(u "SecretString", JStr (dumps the_secret))])
            reply
            (fun t => u "rh-" ++ decimal (Z.of_nat t))
            (fun _ _ => true)
            signal.

Definition no_fault : nat -> option exn := fun _ => None.
Definition no_signal : nat -> bool := fun _ => false.
Definition no_reply : nat -> outcome pystr := fun _ => Raise (OtherException 0).

Definition initial (tbl : list item) (q : list sqs_message) : World :=
  mkWorld 0 [] [] tbl q [] JNull false 0 0.

(** A stream record whose data is the Base64 text of
    [{text: "I'm overwhelmed but hopeful", userId: "u1"}]. *)
Definition input_u1 : json :=
  JDict [(u "text", JStr (u "I'm overwhelmed but hopeful")); (u "userId", JStr (u "u1"))].

Definition record_u1 : json :=
  JDict [(u "kinesis",
          JDict [(u "data",
                  JStr (u "eyJ0ZXh0IjogIkknbSBvdmVyd2hlbG1lZCBidXQgaG9wZWZ1bCIsICJ1c2VySWQiOiAidTEifQ=="))])].

Definition event_of (records : list json) : json :=
  JDict [(u "Records", JList records)].

(** Jobs as [push_to_sqs] writes them, and one without a record
    identifier. *)
Definition job (record_id emotion : string) : json :=
  JDict [(u "record_id", JStr (u record_id));
         (u "user_id", JStr (u "u1"));
         (u "emotion", JStr (u emotion));
         (u "timestamp", JStr (u "2026-11-03T08:00:04+00:00"))].

Definition job_without_id : json :=
  JDict [(u "user_id", JStr (u "u1")); (u "emotion", JStr (u "neutral"))].

Definition message (handle : string) (body : json) : sqs_message :=
  mkMessage (u handle) (dumps body).

(** A PlanRecord as the stream consumer leaves it. *)
Definition stored_record (record_id : string) : item :=
  [(u "UserId", JStr (u "u1"));
   (u "Timestamp", JStr (u "2026-11-03T08:00:02+00:00"));
   (u "RecordId", JStr (u record_id));
   (u "AsciiUrl", JNull);
   (u "AsciiStatus", JStr (u "pending"))].

Definition worker_env (fault : nat -> option exn) (signal : nat -> bool) : Env :=
  env (local_config queue_url false) fault no_reply signal.

(** A polled batch of ten jobs, for the records "rec-0" to "rec-9". *)
Definition ten_jobs : list json :=
  [job "rec-0" "neutral"; job "rec-1" "happy"; job "rec-2" "sad";
   job "rec-3" "worried"; job "rec-4" "tired"; job "rec-5" "angry";
   job "rec-6" "hopeful"; job "rec-7" "grateful"; job "rec-8" "stressed";
   job "rec-9" "excited"].

Definition ten_messages : list sqs_message :=
  [message "rh-0" (job "rec-0" "neutral"); message "rh-1" (job "rec-1" "happy");
   message "rh-2" (job "rec-2" "sad"); message "rh-3" (job "rec-3" "worried");
   message "rh-4" (job "rec-4" "tired"); message "rh-5" (job "rec-5" "angry");
   message "rh-6" (job "rec-6" "hopeful"); message "rh-7" (job "rec-7" "grateful");
   message "rh-8" (job "rec-8" "stressed"); message "rh-9" (job "rec-9" "excited")].

End Run.

(* ===================================================================== *)
(** * Vocabulary of the properties *)
(* ===================================================================== *)

(** The receipt handles of the delete requests in a trace, oldest first:
    the jobs the worker has deleted, that is, acknowledged to the queue. *)
Fixpoint delete_requests (tr : list request) : list pystr :=
  match tr with
  | [] => []
  | DeleteMessage h :: tr' => h :: delete_requests tr'
  | _ :: tr' => delete_requests tr'
  end.

Definition deleted (w : World) : list pystr := delete_requests (trace w).

(** A computation does not look at the shutdown flag: with the flag set at
    its start it does what it does otherwise, and leaves the flag set. *)
Definition flag_blind {A} (c : M A) : Prop :=
  forall w,
    c (with_shutdown_requested w true)
    = (fst (c w), with_shutdown_requested (snd (c w)) true).

(** A computation leaves an observation of the world as it was. *)
Definition preserves {X A} (f : World -> X) (m : M A) : Prop :=
  forall w, f (snd (m w)) = f w.

(** An observation that does not look at the clock, the log or the
    shutdown flag, *)
Definition ignores_clock {X} (f : World -> X) : Prop :=
  (forall w t, f (with_tick w t) = f w)
  /\ (forall w x, f (with_logs w x) = f w)
  /\ (forall w b, f (with_shutdown_requested w b) = f w).

(** and one that does not change when a request joins the trace. *)
Definition ignores_request {X} (f : World -> X) (r : request) : Prop :=
  forall w, f (with_trace w (trace w ++ [r])) = f w.

(** A computation keeps a property of the world. *)
Definition keeps {A} (P : World -> Prop) (c : M A) : Prop :=
  forall w, P w -> P (snd (c w)).

(** The queue still holds [m], and holds nothing that [held] does not. *)
Definition still_queued (m : sqs_message) (held q : list sqs_message) : Prop :=
  In m q /\ incl q held.

Section Vocabulary.
Context {L : PyLib} {E : Env}.

(** What the inference call of [call_gemini_api] meets in a given world. *)
Inductive inference_reply : Type :=
| SdkUnavailable                 (** the import of the SDK failed *)
| CallRaised (e : exn)           (** [generate_content] raised *)
| TextRaised (e : exn)           (** [response.text] raised *)
| Malformed (text : pystr)       (** the reply is not JSON *)
| Decoded (result : json).       (** the reply is this JSON value *)

Definition inference_reply_at (w : World) : inference_reply :=
  if GEMINI_AVAILABLE config then
    match fault (tick w) with
    | Some e => CallRaised e
    | None =>
        match gemini_text (tick w) with
        | Raise e => TextRaised e
        | Ret text =>
            match json_loads text with
            | None => Malformed text
            | Some result => Decoded result
            end
        end
    end
  else SdkUnavailable.

(** A JSON object with the three required top-level fields. *)
Definition has_required_fields (result : json) : bool :=
  match result with
  | JDict d =>
      forallb (fun f => match assoc f d with Some _ => true | None => false end)
              required_fields
  | _ => false
  end.

(** The inference call fails: no SDK, an exception, a reply that is not
    JSON, or a reply without one of the required fields. *)
Definition inference_fails (w : World) : Prop :=
  match inference_reply_at w with
  | Decoded result => has_required_fields result = false
  | _ => True
  end.

(** The world in which [handler] runs [get_secrets] for a record that
    decoded to non-empty text: the record identifier has been drawn and the
    text length logged. *)
Definition at_get_secrets (w : World) : World :=
  snd (log INFO "Processing record for user" (snd (touch w))).

(** Processing a record whose text is [text] persists exactly one
    PlanRecord: the table receives one item, with status "pending", no URL,
    and the text cut to 10000 characters. *)
Definition persists_one_pending_record (record : json) (text : pystr) (w : World)
  : Prop :=
  exists it : item,
    table (snd (handler_record record w)) = ddb_put it (table w)
    /\ assoc (u "AsciiStatus") it = Some (JStr (u "pending"))
    /\ assoc (u "AsciiUrl") it = Some JNull
    /\ assoc (u "UserText") it = Some (JStr (slice_to 10000 text))
    /\ (N.of_nat (List.length (slice_to 10000 text)) <= 10000)%N.

(** The label that [generate] looks up: lower case, stripped. *)
Definition normalize (emotion : pystr) : pystr := str_strip (str_lower emotion).

(** The template that [generate] picks for a label. *)
Definition template_of (emotion : pystr) : pystr :=
  let label := normalize emotion in
  str_get EMOTION_ASCII_MAP (str_get emotion_mapping label label) art_neutral.

(** The footer that [generate] stamps on the template. *)
Definition footer_of (record_id : pystr) (d : datetime) : pystr :=
  footer_head ++ py_format (JStr (slice_to 8 record_id)) ++ footer_mid
  ++ strftime_stamp d ++ footer_tail.

(** A run of the [try] block of [process_message] on a job, from the world
    [w], up to the store update: the fields read from the body, the canvas,
    the URL that the upload returned, and the worlds between the steps. *)
Definition job_until_update (m : sqs_message) (w : World)
           (body record_id emotion user_id timestamp : json)
           (ascii_art ascii_url : pystr) (w2 w3 : World) : Prop :=
  py_json_loads (JStr (Body m)) = Ret body
  /\ py_get body (u "record_id") JNull = Ret record_id
  /\ py_get body (u "emotion") (JStr (u "neutral")) = Ret emotion
  /\ py_get body (u "user_id") (JStr (u "anonymous")) = Ret user_id
  /\ py_get body (u "timestamp") JNull = Ret timestamp
  /\ truthy record_id = true
  /\ generate emotion record_id (snd (log INFO "Processing" w)) = (Ret ascii_art, w2)
  /\ upload_to_s3 ascii_art record_id user_id w2 = (Ret ascii_url, w3).

(** One complete run: the store update has returned too. *)
Definition job_run (m : sqs_message) (w : World)
           (body record_id emotion user_id timestamp : json)
           (ascii_art ascii_url : pystr) (w2 w3 w4 : World) : Prop :=
  job_until_update m w body record_id emotion user_id timestamp ascii_art
                   ascii_url w2 w3
  /\ update_dynamodb user_id timestamp record_id ascii_url w3 = (Ret tt, w4).

(** For this job, in this run, both the blob upload and the store update
    completed without raising. *)
Definition upload_and_update_completed (m : sqs_message) (w : World) : Prop :=
  exists body record_id emotion user_id timestamp ascii_art ascii_url w2 w3 w4,
    job_run m w body record_id emotion user_id timestamp ascii_art ascii_url
            w2 w3 w4.

(** After the job has been processed the bucket holds the artifact of the
    job: an object whose body is the canvas that [generate] returned in
    this run (for a label and an identifier that are text, the template of
    the label with the footer stamped at the clock reading of [generate]),
    and whose key is [prefix], the user, the date as yyyy/mm/dd and the
    record identifier with the suffix ".txt", joined by slashes.  The date
    is the one that [upload_to_s3] reads from the clock as soon as the
    canvas has been generated: the reading that follows the one of
    [generate]. *)
Definition stores_artifact_under (prefix : pystr) (m : sqs_message) (w : World)
  : Prop :=
  exists (body user_id record_id emotion : json) (ascii_art : pystr)
         (w2 : World) (obj : s3_object),
    py_json_loads (JStr (Body m)) = Ret body
    /\ py_get body (u "user_id") (JStr (u "anonymous")) = Ret user_id
    /\ py_get body (u "record_id") JNull = Ret record_id
    /\ py_get body (u "emotion") (JStr (u "neutral")) = Ret emotion
    /\ generate emotion record_id (snd (log INFO "Processing" w)) = (Ret ascii_art, w2)
    /\ (forall label rid : pystr,
           emotion = JStr label -> record_id = JStr rid ->
           ascii_art = template_of label ++ footer_of rid (clock (tick w)))
    /\ In obj (bucket (snd (process_message m w)))
    /\ ObjectBody obj = ascii_art
    /\ let generated := clock (S (tick w)) in
       Key obj =
       prefix ++ py_format user_id ++ u "/"
       ++ pad4 (year generated) ++ u "/" ++ pad2 (month generated) ++ u "/"
       ++ pad2 (day generated) ++ u "/" ++ py_format record_id ++ u ".txt".

(** The batch loop of [main] has handled every job of [done]: before each
    of them the flag was read unset, and handling it raised nothing.  The
    result is the world reached. *)
Fixpoint handled_all (done : list sqs_message) (w : World) : option World :=
  match done with
  | [] => Some w
  | m :: rest =>
      match read_shutdown_requested w with
      | (Ret false, w1) =>
          match handle_message m w1 with
          | (Ret _, w2) => handled_all rest w2
          | (Raise _, _) => None
          end
      | _ => None
      end
  end.

(** The jobs of [done] that the loop completed, that is, for which
    [process_message] returned [True], in the order of the batch. *)
Fixpoint completed_jobs (done : list sqs_message) (w : World) : list sqs_message :=
  match done with
  | [] => []
  | m :: rest =>
      let w1 := snd (read_shutdown_requested w) in
      match fst (process_message m w1) with
      | Ret true => m :: completed_jobs rest (snd (handle_message m w1))
      | _ => completed_jobs rest (snd (handle_message m w1))
      end
  end.

End Vocabulary.

(* ===================================================================== *)
(** * plan_api.py and auth.py: the pure functions *)
(* ===================================================================== *)

(** [v == s] for a string literal [s] *)
Definition py_eq_str (v : json) (s : pystr) : bool :=
  match v with JStr x => pystr_eqb x s | _ => false end.

(** plan_api.py, [format_plan_response].  The dict [ascii_info] is built
    with a [None] warning, which the test replaces. *)
Definition format_plan_response (plan : json) : outcome json :=
  match plan with
  | JDict d =>
      let get k default := match assoc k d with Some x => x | None => default end in
      let ascii_status := get (u "AsciiStatus") (JStr (u "pending")) in
      let ascii_url := get (u "AsciiUrl") JNull in
      let warning :=
        if py_eq_str ascii_status (u "pending") || negb (truthy ascii_url)
        then JStr (u "Visual generation pending. Your plan is ready below.")
        else JNull in
      Ret (JDict [(u "recordId", get (u "RecordId") JNull);
                  (u "userId", get (u "UserId") JNull);
                  (u "createdAt", get (u "CreatedAt") JNull);
                  (u "emotion", get (u "Emotion") JNull);
                  (u "sentimentScore", get (u "SentimentScore") JNull);
                  (u "weeklyPlan", get (u "WeeklyPlan") (JList []));
                  (u "ascii", JDict [(u "status", ascii_status);
                                     (u "url", ascii_url);
                                     (u "warning", warning)]);
                  (u "isFallback", get (u "IsFallback") (JBool false))])
  | _ => Raise AttributeError
  end.

(** [s.split(sep)] for a separator of one character *)
Fixpoint split_on (sep : codepoint) (s : pystr) : list pystr :=
  match s with
  | [] => [[]]
  | c :: s' =>
      if N.eqb c sep then [] :: split_on sep s'
      else match split_on sep s' with
           | part :: parts => (c :: part) :: parts
           | [] => [[c]]
           end
  end.

Section Auth.
Context {L : PyLib}.

(** auth.py, [extract_token] *)
Definition extract_token (auth_header : pystr) : outcome pystr :=
  match auth_header with
  | [] => Raise ValueError
  | _ :: _ =>
      match split_on 32%N auth_header with
      | [scheme; token] =>
          if pystr_eqb (str_lower scheme) (u "bearer") then Ret token
          else Raise ValueError
      | _ => Raise ValueError
      end
  end.

End Auth.

(* ===================================================================== *)
(** * Vocabulary of the further properties *)
(* ===================================================================== *)

(** Every record marked "completed" carries a URL that is not empty. *)
Definition completed_has_url (tbl : list item) : Prop :=
  forall it, In it tbl ->
    assoc (u "AsciiStatus") it = Some (JStr (u "completed")) ->
    exists url, url <> [] /\ assoc (u "AsciiUrl") it = Some (JStr url).

(** The table has stayed as it was, or it has received one item, written
    with status "pending", no URL, and the given record identifier. *)
Definition one_pending_write (record_id : json) (before after : list item) : Prop :=
  after = before
  \/ exists it : item,
       after = ddb_put it before
       /\ assoc (u "AsciiStatus") it = Some (JStr (u "pending"))
       /\ assoc (u "AsciiUrl") it = Some JNull
       /\ assoc (u "RecordId") it = Some record_id.

(** A computation that writes the table at most once, in this way. *)
Definition writes_once {A} (record_id : json) (c : M A) : Prop :=
  forall w, one_pending_write record_id (table w) (table (snd (c w))).

(** The processed counter, up to the two offsets, stays within the number
    of delete requests sent. *)
Definition counts_within (a b : nat) (w : World) : Prop :=
  processed_count w + a <= List.length (deleted w) + b.

Section FurtherVocabulary.
Context {L : PyLib} {E : Env}.

(** The test of [handler] that skips a record: it decodes to an object
    whose text is empty (or missing, or any other false value). *)
Definition is_skipped (record : json) : bool :=
  match decode_record record with
  | Ret input =>
      match py_get input (u "text") (JStr (u "")) with
      | Ret user_text => negb (truthy user_text)
      | Raise _ => false
      end
  | Raise _ => false
  end.

(** The message that [push_to_sqs] writes at a given time. *)
Definition job_message (record_id emotion user_id : json) (d : datetime) : json :=
  JDict [(u "record_id", record_id);
         (u "user_id", user_id);
         (u "emotion", emotion);
         (u "timestamp", JStr (isoformat d))].

(** Between two worlds no job has joined the queue, or one has, and it
    names a record that has been written to the table in between. *)
Definition job_only_if_stored (record_id : json) (w w' : World) : Prop :=
  queue w' = queue w
  \/ exists (it : item) (m : sqs_message) (emotion user_id : json) (d : datetime),
       table w' = ddb_put it (table w)
       /\ assoc (u "RecordId") it = Some record_id
       /\ assoc (u "AsciiStatus") it = Some (JStr (u "pending"))
       /\ queue w' = queue w ++ [m]
       /\ Body m = json_dumps (job_message record_id emotion user_id d).

(** Between two worlds the table has not changed, or it has received the
    update that marks a record with the URL of an object that the bucket
    holds. *)
Definition marked_only_if_uploaded (w w' : World) : Prop :=
  table w' = table w
  \/ exists (obj : s3_object) (uid ts : json) (generated_at : pystr),
       In obj (bucket w')
       /\ table w'
          = ddb_update uid ts (backfill (artifact_url (Key obj)) generated_at)
                       (table w).

End FurtherVocabulary.

(* ===================================================================== *)
(** * Running the monad *)
(* ===================================================================== *)

Lemma pystr_eqb_eq (a b : pystr) : pystr_eqb a b = true <-> a = b.
Proof.
  unfold pystr_eqb. destruct (list_eq_dec N.eq_dec a b); split; congruence.
Qed.

Lemma pystr_eqb_refl (a : pystr) : pystr_eqb a a = true.
Proof. apply pystr_eqb_eq. reflexivity. Qed.

Ltac unfold_monad :=
  unfold call, now in *; unfold step in *; unfold touch in *;
  unfold try_except in *;
  unfold try_catch, bind, ret, raise, lift, gets, modify, log in *.

Arguments tock : simpl never.

(** Running a sequence whose first part has a known outcome. *)
Lemma bind_run {A B} (m : M A) (k : A -> M B) (w w1 : World) (a : A) :
  m w = (Ret a, w1) -> bind m k w = k a w1.
Proof. intro H. unfold bind. rewrite H. reflexivity. Qed.

Lemma bind_run_raise {A B} (m : M A) (k : A -> M B) (w w1 : World) (e : exn) :
  m w = (Raise e, w1) -> bind m k w = (Raise e, w1).
Proof. intro H. unfold bind. rewrite H. reflexivity. Qed.

Arguments bind_run {A B m} k {w w1 a} _.
Arguments bind_run_raise {A B m} k {w w1 e} _.

Lemma snd_run {A} (m : M A) (w w' : World) (o : outcome A) :
  m w = (o, w') -> snd (m w) = w'.
Proof. intro H. rewrite H. reflexivity. Qed.

Arguments snd_run {A m w w' o} _.


(* ===================================================================== *)
(** * The enrichment client *)
(* ===================================================================== *)

Section Enrichment.
Context {L : PyLib} {E : Env}.

Lemma get_fallback_response_value (w : World) :
  fst (get_fallback_response w) = Ret fallback_payload.
Proof. reflexivity. Qed.

(** The value of [call_gemini_api], case by case on what the call meets:
    the reply itself when it is an object with the three fields, the
    fallback payload in every other case. *)
Lemma call_gemini_api_value (user_text api_key : json) (w : World) :
  fst (call_gemini_api user_text api_key w) =
  Ret match inference_reply_at w with
      | Decoded result =>
          if has_required_fields result then result else fallback_payload
      | _ => fallback_payload
      end.
Proof.
  unfold call_gemini_api, inference_reply_at.
  destruct (GEMINI_AVAILABLE config); [| reflexivity].
  unfold_monad. simpl.
  destruct (fault (tick w)) as [e |]; [reflexivity |].
  destruct (gemini_text (tick w)) as [text | e]; [| reflexivity].
  simpl. destruct (json_loads text) as [result |]; [| reflexivity].
  destruct result as [| b | z | f | s | l | d]; try reflexivity.
  - (* a string: the three membership tests are substring tests *)
    simpl. unfold_monad. simpl.
    repeat (match goal with
            | |- context [str_contains ?k ?s] => destruct (str_contains k s)
            end; simpl; try reflexivity).
  - (* a list *)
    simpl. unfold_monad. simpl.
    repeat (match goal with
            | |- context [existsb ?f ?l] => destruct (existsb f l)
            end; simpl; try reflexivity).
  - (* an object *)
    simpl. unfold_monad. simpl.
    destruct (assoc (u "emotion") d); simpl; [| reflexivity].
    destruct (assoc (u "sentiment_score") d); simpl; [| reflexivity].
    destruct (assoc (u "weekly_plan") d); simpl; reflexivity.
Qed.

End Enrichment.

(** C1. Whenever the inference call fails (the SDK is unavailable, the call
    or the reading of its reply raises any exception, the reply is not
    JSON, or the reply lacks one of the three required top-level fields),
    [call_gemini_api] returns exactly the fallback payload: emotion
    "neutral", sentiment score 50, the fixed plan of seven days (Monday to
    Sunday) and the fallback flag set.  The payload is one closed value: it
    is the same for every run time, outside, argument and world. *)
Theorem call_gemini_api_fallback :
  forall (L : PyLib) (E : Env) (user_text api_key : json) (w : World),
    inference_fails w ->
    fst (call_gemini_api user_text api_key w) = Ret fallback_payload
    /\ py_getitem fallback_payload (u "emotion") = Ret (JStr (u "neutral"))
    /\ py_getitem fallback_payload (u "sentiment_score") = Ret (JInt 50)
    /\ py_getitem fallback_payload (u "weekly_plan") = Ret (JList fallback_weekly_plan)
    /\ List.length fallback_weekly_plan = 7
    /\ map (fun entry => py_getitem entry (u "day")) fallback_weekly_plan
       = map (fun d => Ret (JStr d))
             [u "Monday"; u "Tuesday"; u "Wednesday"; u "Thursday";
              u "Friday"; u "Saturday"; u "Sunday"]
    /\ py_getitem fallback_payload (u "_fallback") = Ret (JBool true).
Proof.
  intros L E user_text api_key w Hfail.
  split; [| repeat split; reflexivity].
  rewrite call_gemini_api_value.
  unfold inference_fails in Hfail.
  destruct (inference_reply_at w); try reflexivity.
  rewrite Hfail. reflexivity.
Qed.

(** A reply that is JSON but has only the field "emotion". *)
Lemma call_gemini_api_fallback_witness :
  let reply := JDict [(u "emotion", JStr (u "sad"))] in
  let L := Run.lib [reply] in
  let E := Run.env (Run.local_config Run.queue_url true) Run.no_fault
                   (fun _ => Ret (Run.dumps reply)) Run.no_signal in
  @inference_fails L E (Run.initial [] [])
  /\ fst (@call_gemini_api L E (JStr (u "a long day")) (JStr (u "key-1"))
                           (Run.initial [] []))
     = Ret fallback_payload.
Proof.
  intros reply L E. split.
  - vm_compute. reflexivity.
  - apply (@call_gemini_api_fallback L E). vm_compute. reflexivity.
Defined.

(* ===================================================================== *)
(** * Frame lemmas: what a computation leaves alone *)
(* ===================================================================== *)

Section Frame.
Context {X : Type} (f : World -> X).

Lemma preserves_ret {A} (a : A) : preserves f (ret a).
Proof. intro w. reflexivity. Qed.

Lemma preserves_raise {A} (e : exn) : preserves f (@raise A e).
Proof. intro w. reflexivity. Qed.

Lemma preserves_lift {A} (o : outcome A) : preserves f (lift o).
Proof. intro w. reflexivity. Qed.

Lemma preserves_gets {A} (g : World -> A) : preserves f (gets g).
Proof. intro w. reflexivity. Qed.

Lemma preserves_bind {A B} (m : M A) (k : A -> M B) :
  preserves f m -> (forall a, preserves f (k a)) -> preserves f (bind m k).
Proof.
  intros Hm Hk w. unfold bind.
  specialize (Hm w). destruct (m w) as [[a | e] w1]; simpl in *.
  - rewrite Hk. exact Hm.
  - exact Hm.
Qed.

Lemma preserves_try_catch {A} (m : M A) (h : exn -> M A) :
  preserves f m -> (forall e, preserves f (h e)) -> preserves f (try_catch m h).
Proof.
  intros Hm Hh w. unfold try_catch.
  specialize (Hm w). destruct (m w) as [[a | e] w1]; simpl in *.
  - exact Hm.
  - rewrite Hh. exact Hm.
Qed.

Lemma preserves_try_except {A} (m : M A) (c : exn -> bool) (h : exn -> M A) :
  preserves f m -> (forall e, preserves f (h e)) -> preserves f (try_except m c h).
Proof.
  intros Hm Hh. apply preserves_try_catch; [exact Hm |].
  intro e. destruct (c e); [apply Hh | apply preserves_raise].
Qed.

Lemma preserves_modify (g : World -> World) :
  (forall w, f (g w) = f w) -> preserves f (modify g).
Proof. intros Hg w. apply Hg. Qed.

Lemma preserves_log (l : level) (msg : string) :
  ignores_clock f -> preserves f (log l msg).
Proof. intros (_ & Hlogs & _) w. apply Hlogs. Qed.

Context {E : Env}.

Lemma preserves_tock : ignores_clock f -> forall w, f (tock w) = f w.
Proof.
  intros (Htick & Hlogs & Hflag) w. unfold tock; simpl.
  destruct (signal (tick w)); [| apply Htick].
  unfold signal_handler. rewrite Hflag, Hlogs. apply Htick.
Qed.

Lemma preserves_touch : ignores_clock f -> preserves f touch.
Proof. intros H w. apply preserves_tock, H. Qed.

Lemma preserves_now : ignores_clock f -> preserves f now.
Proof.
  intro H. apply preserves_bind; [apply preserves_touch, H |].
  intro t. apply preserves_ret.
Qed.

Lemma preserves_step (r : request) :
  ignores_clock f -> ignores_request f r -> preserves f (step r).
Proof.
  intros H Hr. unfold step.
  apply preserves_bind; [apply preserves_touch, H | intro t].
  apply preserves_bind; [apply preserves_modify, Hr | intros _].
  apply preserves_ret.
Qed.

Lemma preserves_call (r : request) :
  ignores_clock f -> ignores_request f r -> preserves f (call r).
Proof.
  intros H Hr. unfold call.
  apply preserves_bind; [apply preserves_step; assumption | intro t].
  destruct (fault t); [apply preserves_raise | apply preserves_ret].
Qed.

End Frame.

Lemma delete_requests_app (a b : list request) :
  delete_requests (a ++ b) = delete_requests a ++ delete_requests b.
Proof.
  induction a as [| r a IH]; [reflexivity |].
  destruct r; simpl; rewrite IH; reflexivity.
Qed.

Lemma ignores_clock_table : ignores_clock table.
Proof. repeat split. Qed.
Lemma ignores_clock_queue : ignores_clock queue.
Proof. repeat split. Qed.
Lemma ignores_clock_bucket : ignores_clock bucket.
Proof. repeat split. Qed.
Lemma ignores_clock_deleted : ignores_clock deleted.
Proof. repeat split. Qed.
Lemma ignores_clock_trace : ignores_clock trace.
Proof. repeat split. Qed.
Lemma ignores_clock_processed_count : ignores_clock processed_count.
Proof. repeat split. Qed.
Lemma ignores_clock_error_count : ignores_clock error_count.
Proof. repeat split. Qed.

Lemma ignores_request_table (r : request) : ignores_request table r.
Proof. intro w. reflexivity. Qed.
Lemma ignores_request_queue (r : request) : ignores_request queue r.
Proof. intro w. reflexivity. Qed.
Lemma ignores_request_bucket (r : request) : ignores_request bucket r.
Proof. intro w. reflexivity. Qed.
Lemma ignores_request_processed_count (r : request) :
  ignores_request processed_count r.
Proof. intro w. reflexivity. Qed.
Lemma ignores_request_error_count (r : request) : ignores_request error_count r.
Proof. intro w. reflexivity. Qed.

(** Only a delete request changes the list of deleted jobs. *)
Lemma ignores_request_deleted (r : request) :
  delete_requests [r] = [] -> ignores_request deleted r.
Proof.
  intros Hr w. unfold deleted; simpl.
  rewrite delete_requests_app, Hr. apply app_nil_r.
Qed.

Lemma tick_tock {E : Env} (w : World) : tick (tock w) = S (tick w).
Proof. unfold tock; simpl. destruct (signal (tick w)); reflexivity. Qed.

Lemma trace_tock {E : Env} (w : World) : trace (tock w) = trace w.
Proof. apply (preserves_tock ignores_clock_trace). Qed.

Lemma table_tock {E : Env} (w : World) : table (tock w) = table w.
Proof. apply (preserves_tock ignores_clock_table). Qed.

Lemma queue_tock {E : Env} (w : World) : queue (tock w) = queue w.
Proof. apply (preserves_tock ignores_clock_queue). Qed.

Lemma bucket_tock {E : Env} (w : World) : bucket (tock w) = bucket w.
Proof. apply (preserves_tock ignores_clock_bucket). Qed.

Lemma processed_count_tock {E : Env} (w : World) :
  processed_count (tock w) = processed_count w.
Proof. apply (preserves_tock ignores_clock_processed_count). Qed.

Lemma error_count_tock {E : Env} (w : World) :
  error_count (tock w) = error_count w.
Proof. apply (preserves_tock ignores_clock_error_count). Qed.

Lemma secrets_cache_tock {E : Env} (w : World) :
  secrets_cache (tock w) = secrets_cache w.
Proof. unfold tock; simpl. destruct (signal (tick w)); reflexivity. Qed.

(** The flag latches: a tick sets it when a signal lands and never clears
    it. *)
Lemma shutdown_requested_tock {E : Env} (w : World) :
  shutdown_requested (tock w) = shutdown_requested w || signal (tick w).
Proof.
  unfold tock; simpl. destruct (signal (tick w)); simpl.
  - symmetry. apply orb_true_r.
  - symmetry. apply orb_false_r.
Qed.

Create Rewrite HintDb world.
#[export] Hint Rewrite @tick_tock @trace_tock @table_tock @queue_tock
  @bucket_tock @processed_count_tock @error_count_tock @secrets_cache_tock
  @shutdown_requested_tock : world.

Create HintDb frame.
#[export] Hint Resolve
  preserves_ret preserves_raise preserves_lift preserves_gets preserves_log
  preserves_touch preserves_now preserves_step preserves_call
  ignores_clock_table ignores_clock_queue ignores_clock_bucket
  ignores_clock_deleted ignores_clock_trace
  ignores_clock_processed_count ignores_clock_error_count
  ignores_request_table ignores_request_queue ignores_request_bucket
  ignores_request_processed_count ignores_request_error_count : frame.
#[export] Hint Extern 1 (ignores_request deleted _) =>
  apply ignores_request_deleted; reflexivity : frame.
#[export] Hint Extern 1 (preserves _ (modify _)) =>
  apply preserves_modify; intro; reflexivity : frame.

(** Walk through a computation: split binds and handlers, take the cases of
    every test, and close the leaves from the hint database. *)
Ltac frame :=
  repeat first
    [ solve [auto with frame]
    | apply preserves_bind; [| intro]
    | apply preserves_try_except; [| intro]
    | apply preserves_try_catch; [| intro]
    | match goal with
      | |- preserves _ (match ?x with _ => _ end) => destruct x
      | |- preserves _ (if ?b then _ else _) => destruct b
      end ].

Ltac split_run H :=
  repeat (match type of H with
          | context [match ?o with Ret _ => _ | Raise _ => _ end] =>
              destruct o eqn:?
          | context [match ?o with Some _ => _ | None => _ end] =>
              destruct o eqn:?
          | context [if ?b then _ else _] => destruct b eqn:?
          end; simpl in H);
  try discriminate.

(* ===================================================================== *)
(** * The stream consumer *)
(* ===================================================================== *)

Section StreamConsumer.
Context {L : PyLib} {E : Env}.

Lemma get_secrets_table : preserves table get_secrets.
Proof. unfold get_secrets. frame. Qed.

Lemma parse_kinesis_record_table (record : json) :
  preserves table (parse_kinesis_record record).
Proof. unfold parse_kinesis_record. frame. Qed.

Lemma check_required_preserves {X} (f : World -> X) fields result :
  preserves f (check_required fields result).
Proof.
  induction fields as [| field rest IH]; simpl; frame.
Qed.

Lemma call_gemini_api_table (user_text api_key : json) :
  preserves table (call_gemini_api user_text api_key).
Proof.
  unfold call_gemini_api, get_fallback_response.
  frame; apply check_required_preserves.
Qed.

Lemma push_to_sqs_table (record_id emotion user_id : json) :
  preserves table (push_to_sqs record_id emotion user_id).
Proof. unfold push_to_sqs. frame. Qed.


Lemma handler_record_run (record input user_id : json) (text : pystr) (w : World) :
  decode_record record = Ret input ->
  py_get input (u "text") (JStr (u "")) = Ret (JStr text) ->
  py_get input (u "userId") (JStr (u "anonymous")) = Ret user_id ->
  text <> [] ->
  let record_id := JStr (uuid4 (tick w)) in
  let w1 := snd (log INFO "Processing record for user" (snd (touch w))) in
  handler_record record w =
  try_catch
    (secrets <- get_secrets;;
     gemini_key <- lift (py_get secrets (u "GEMINI_KEY") (JStr (u "")));;
     analysis_result <- call_gemini_api (JStr text) gemini_key;;
     save_to_dynamodb user_id record_id (JStr text) analysis_result;;
     emotion <- lift (py_get analysis_result (u "emotion") (JStr (u "neutral")));;
     _ <- push_to_sqs record_id emotion user_id;;
     log INFO "Successfully processed record";;
     ret (Processed, record_id))
    (fun e => log ERROR "Failed to process record";; ret (Failed, record_id))
    w1.
Proof.
  intros Hdec Htext Huid Hne record_id w1.
  unfold handler_record, parse_kinesis_record.
  unfold try_except, try_catch, bind, lift.
  cbv beta. simpl (touch w). rewrite Hdec. cbv beta iota.
  rewrite Htext, Huid.
  destruct text as [| c text]; [contradiction |].
  reflexivity.
Qed.

Lemma slice_to_length {A} (n : N) (l : list A) :
  List.length (slice_to n l) <= N.to_nat n.
Proof. unfold slice_to. apply firstn_le_length. Qed.

(** When [save_to_dynamodb] returns, the table has received one item, built
    from the arguments, with status "pending" and no URL. *)
Lemma save_to_dynamodb_returns (user_id record_id user_text analysis : json)
      (w w' : World) :
  save_to_dynamodb user_id record_id user_text analysis w = (Ret tt, w') ->
  exists text emotion score weekly_plan is_fallback,
    py_slice_to 10000 user_text = Ret text
    /\ table w' =
       ddb_put (plan_record user_id (JStr (isoformat (clock (tick w)))) record_id
                            text emotion score weekly_plan is_fallback)
               (table w).
Proof.
  unfold save_to_dynamodb. unfold_monad. simpl. intro H.
  split_run H.
  inversion H; subst; clear H. simpl.
  autorewrite with world. eauto 10.
Qed.

(** When it raises, the table is as it was. *)
Lemma save_to_dynamodb_raises (user_id record_id user_text analysis : json)
      (w w' : World) (e : exn) :
  save_to_dynamodb user_id record_id user_text analysis w = (Raise e, w') ->
  table w' = table w.
Proof.
  unfold save_to_dynamodb. unfold_monad. simpl. intro H.
  split_run H; inversion H; subst; clear H; simpl;
    autorewrite with world; reflexivity.
Qed.

Lemma table_at_get_secrets (w : World) : table (at_get_secrets w) = table w.
Proof. unfold at_get_secrets. simpl. apply table_tock. Qed.

End StreamConsumer.

#[export] Hint Resolve get_secrets_table parse_kinesis_record_table
  call_gemini_api_table push_to_sqs_table : frame.

Section PlanRecords.
Context {L : PyLib} {E : Env}.

(** [save_to_dynamodb] returns only for an analysis that is a dict. *)
Lemma save_to_dynamodb_needs_dict (user_id record_id user_text analysis : json)
      (w w' : World) :
  save_to_dynamodb user_id record_id user_text analysis w = (Ret tt, w') ->
  exists d, analysis = JDict d.
Proof.
  intro H. destruct analysis; try (exists d; reflexivity);
    unfold save_to_dynamodb in H; unfold_monad; simpl in H;
    split_run H.
Qed.

Lemma slice_to_length_N {A} (n : N) (l : list A) :
  (N.of_nat (List.length (slice_to n l)) <= n)%N.
Proof. pose proof (slice_to_length n l). lia. Qed.

End PlanRecords.

(** C2, amended.  For every stream record that decodes to an input with
    non-empty text, if fetching the secrets and the store write
    ([save_to_dynamodb]) both complete without raising, the stage persists
    exactly one PlanRecord: the table receives one item, whose status is
    "pending", whose URL is null and whose text is the input text cut to at
    most 10000 characters.  Nothing that follows the write (the dispatch of
    the job, whatever its outcome) changes the table. *)
Theorem handler_record_persists_pending :
  forall (L : PyLib) (E : Env) (record input user_id : json) (text : pystr)
         (w : World) (secrets gemini_key analysis : json) (w2 w3 w4 : World),
    decode_record record = Ret input ->
    py_get input (u "text") (JStr (u "")) = Ret (JStr text) ->
    py_get input (u "userId") (JStr (u "anonymous")) = Ret user_id ->
    text <> [] ->
    get_secrets (at_get_secrets w) = (Ret secrets, w2) ->
    py_get secrets (u "GEMINI_KEY") (JStr (u "")) = Ret gemini_key ->
    call_gemini_api (JStr text) gemini_key w2 = (Ret analysis, w3) ->
    save_to_dynamodb user_id (JStr (uuid4 (tick w))) (JStr text) analysis w3
    = (Ret tt, w4) ->
    persists_one_pending_record record text w.
Proof.
  intros L E record input user_id text w secrets gemini_key analysis w2 w3 w4
         Hdec Htext Huid Hne Hsec Hkey Hgem Hsave.
  destruct (save_to_dynamodb_needs_dict _ _ _ _ _ Hsave) as [d ->].
  destruct (save_to_dynamodb_returns _ _ _ _ _ Hsave)
    as (text' & emotion & score & plan & fb & Hslice & Htable).
  simpl in Hslice. injection Hslice as <-.
  assert (Hframe : table w3 = table w).
  { rewrite <- (snd_run Hgem), call_gemini_api_table.
    rewrite <- (snd_run Hsec), get_secrets_table.
    apply table_at_get_secrets. }
  exists (plan_record user_id (JStr (isoformat (clock (tick w3))))
                      (JStr (uuid4 (tick w))) (JStr (slice_to 10000 text))
                      emotion score plan fb).
  split; [| repeat split; try reflexivity; apply slice_to_length_N].
  rewrite (handler_record_run _ w Hdec Htext Huid Hne).
  unfold try_catch.
  fold (at_get_secrets w).
  rewrite (bind_run _ Hsec). unfold lift at 1. rewrite Hkey.
  rewrite (bind_run (m := fun w0 => (Ret gemini_key, w0)) _ (w := w2) eq_refl).
  rewrite (bind_run _ Hgem).
  rewrite (bind_run _ Hsave).
  rewrite <- Hframe, <- Htable.
  assert (Hrest : preserves table
            (try_catch
               (emotion0 <- lift (py_get (JDict d) (u "emotion") (JStr (u "neutral")));;
                _ <- push_to_sqs (JStr (uuid4 (tick w))) emotion0 user_id;;
                log INFO "Successfully processed record";;
                ret (Processed, JStr (uuid4 (tick w))))
               (fun _ => log ERROR "Failed to process record";;
                         ret (Failed, JStr (uuid4 (tick w)))))).
  { frame. }
  apply (Hrest w4).
Qed.

(** The store refuses the write (the fourth tick is the [put_item]
    request): the record decodes, its text is not empty, and the table stays
    empty. *)
Lemma handler_record_store_refusal :
  ~ (forall (L : PyLib) (E : Env) (record input : json) (text : pystr) (w : World),
        decode_record record = Ret input ->
        py_get input (u "text") (JStr (u "")) = Ret (JStr text) ->
        text <> [] ->
        persists_one_pending_record record text w).
Proof.
  intro H.
  specialize (H (Run.lib [Run.input_u1; Run.the_secret])
                (Run.env (Run.local_config Run.queue_url false)
                         (fun t => if Nat.eqb t 3 then Some ClientError else None)
                         Run.no_reply Run.no_signal)
                Run.record_u1 Run.input_u1
                (u "I'm overwhelmed but hopeful")
                (Run.initial [] [])).
  destruct H as (it & Htable & _).
  - vm_compute. reflexivity.
  - vm_compute. reflexivity.
  - vm_compute. discriminate.
  - vm_compute in Htable. discriminate.
Qed.

(** The record of the end-to-end scenario, with the SDK unavailable and
    every request answered. *)
Lemma handler_record_persists_pending_witness :
  let L := Run.lib [Run.input_u1; Run.the_secret] in
  let E := Run.env (Run.local_config Run.queue_url false) Run.no_fault
                   Run.no_reply Run.no_signal in
  @persists_one_pending_record L E Run.record_u1
     (u "I'm overwhelmed but hopeful") (Run.initial [] []).
Proof.
  intros L E.
  pose (w := Run.initial [] []).
  pose (r1 := @get_secrets L E (@at_get_secrets E w)).
  pose (r2 := @call_gemini_api L E (JStr (u "I'm overwhelmed but hopeful"))
                               (JStr (u "key-1")) (snd r1)).
  pose (r3 := @save_to_dynamodb L E (JStr (u "u1")) (JStr (@uuid4 E 0))
                                (JStr (u "I'm overwhelmed but hopeful"))
                                fallback_payload (snd r2)).
  apply (@handler_record_persists_pending L E Run.record_u1 Run.input_u1
           (JStr (u "u1")) (u "I'm overwhelmed but hopeful") w
           Run.the_secret (JStr (u "key-1")) fallback_payload
           (snd r1) (snd r2) (snd r3)).
  - vm_compute. reflexivity.
  - vm_compute. reflexivity.
  - vm_compute. reflexivity.
  - vm_compute. discriminate.
  - vm_compute. reflexivity.
  - vm_compute. reflexivity.
  - vm_compute. reflexivity.
  - vm_compute. reflexivity.
Defined.


(* ===================================================================== *)
(** * The dispatcher and the batch handler *)
(* ===================================================================== *)

(** C4. When the dispatch of a job meets a transport failure (the send
    request raises one of the two exception classes of the AWS client,
    [ClientError] or [BotoCoreError]), [push_to_sqs] returns [False] and
    raises nothing; the table, with the PlanRecord written before the
    dispatch, is as it was, so every lookup in it gives what it gave, and
    nothing has been put on the queue.  The caller, [handler], goes on and
    counts the record as processed. *)
Theorem push_to_sqs_transport_failure :
  forall (L : PyLib) (E : Env) (record_id emotion user_id : json) (w : World)
         (e : exn),
    fault (S (tick w)) = Some e ->
    is_boto_error e = true ->
    let r := push_to_sqs record_id emotion user_id w in
    fst r = Ret false
    /\ table (snd r) = table w
    /\ (forall uid rid,
           ddb_query uid rid (table (snd r)) = ddb_query uid rid (table w))
    /\ queue (snd r) = queue w
    /\ fst ((_ <- push_to_sqs record_id emotion user_id;;
             log INFO "Successfully processed record";;
             ret (Processed, record_id)) w)
       = Ret (Processed, record_id).
Proof.
  intros L E record_id emotion user_id w e Hfault Hboto r.
  assert (Htable : table (snd r) = table w) by apply push_to_sqs_table.
  assert (Hr : fst r = Ret false /\ queue (snd r) = queue w).
  { subst r. unfold push_to_sqs.
    destruct (negb (truthy (JStr (SQS_QUEUE_URL config)))); [split; reflexivity |].
    unfold_monad. simpl.
    destruct (if str_contains (u ".fifo") (SQS_QUEUE_URL config)
              then user_id else JNull);
      simpl; autorewrite with world; rewrite ?Hfault; simpl;
      rewrite ?Hboto; simpl; autorewrite with world; split; reflexivity. }
  destruct Hr as [Hvalue Hqueue].
  repeat split; try assumption.
  - intros uid rid. rewrite Htable. reflexivity.
  - unfold bind at 1. fold r. destruct r as [o w1]. simpl in Hvalue. subst o.
    reflexivity.
Qed.

(** The queue refuses the send request, the second tick of [push_to_sqs]. *)
Lemma push_to_sqs_transport_failure_witness :
  let L := Run.lib [] in
  let E := Run.env (Run.local_config Run.queue_url false)
                   (fun t => if Nat.eqb t 1 then Some ClientError else None)
                   Run.no_reply Run.no_signal in
  let stored := [(u "UserId", JStr (u "u1")); (u "RecordId", JStr (u "rec-0"))] in
  let w := Run.initial [stored] [] in
  let r := @push_to_sqs L E (JStr (u "rec-0")) (JStr (u "neutral")) (JStr (u "u1")) w in
  fst r = Ret false /\ table (snd r) = [stored].
Proof.
  intros L E stored w r.
  destruct (@push_to_sqs_transport_failure L E (JStr (u "rec-0"))
              (JStr (u "neutral")) (JStr (u "u1")) w ClientError)
    as (Hvalue & Htable & _).
  - vm_compute. reflexivity.
  - vm_compute. reflexivity.
  - split; [exact Hvalue | exact Htable].
Defined.

Section BatchHandler.
Context {L : PyLib} {E : Env}.

(** The body of the loop has a blanket handler: it never raises. *)
Lemma handler_record_returns (record : json) (w : World) :
  exists x, fst (handler_record record w) = Ret x.
Proof.
  unfold handler_record, touch, bind at 1, try_catch.
  match goal with
  | |- context [let (o, w') := ?m ?w0 in _] => destruct (m w0) as [[x | e] w1]
  end.
  - exists x. reflexivity.
  - eexists. reflexivity.
Qed.

Lemma handler_loop_returns (records : list json) :
  forall (p0 e0 : nat) (w : World),
  exists p e, fst (handler_loop records p0 e0 w) = Ret (p, e)
              /\ p + e <= p0 + e0 + List.length records.
Proof.
  induction records as [| record rest IH]; intros p0 e0 w.
  - exists p0, e0. split; [reflexivity | simpl; lia].
  - simpl. unfold bind.
    destruct (handler_record_returns record w) as [x Hx].
    destruct (handler_record record w) as [o w1]. simpl in Hx. subst o.
    destruct (fst x).
    + destruct (IH (S p0) e0 w1) as (p & e & Hrun & Hle).
      exists p, e. split; [exact Hrun | lia].
    + destruct (IH p0 e0 w1) as (p & e & Hrun & Hle).
      exists p, e. split; [exact Hrun | lia].
    + destruct (IH p0 (S e0) w1) as (p & e & Hrun & Hle).
      exists p, e. split; [exact Hrun | lia].
Qed.

(** A record whose secrets fetch raises ends in the [except] of the loop
    body. *)
Lemma handler_record_secrets_failure (record input : json) (text : pystr)
      (w w2 : World) (e : exn) :
  decode_record record = Ret input ->
  py_get input (u "text") (JStr (u "")) = Ret (JStr text) ->
  text <> [] ->
  get_secrets (at_get_secrets w) = (Raise e, w2) ->
  handler_record record w
  = (Ret (Failed, JStr (uuid4 (tick w))),
     snd (log ERROR "Failed to process record" w2)).
Proof.
  intros Hdec Htext Hne Hsec.
  assert (Huid : exists user_id,
             py_get input (u "userId") (JStr (u "anonymous")) = Ret user_id).
  { destruct input; try discriminate. eexists. reflexivity. }
  destruct Huid as [user_id Huid].
  rewrite (handler_record_run _ w Hdec Htext Huid Hne).
  unfold try_catch. fold (at_get_secrets w).
  rewrite (bind_run_raise _ Hsec). reflexivity.
Qed.

End BatchHandler.

(** C5, amended.  For every batch of stream records [handler] returns the
    success response, status 200 with the processed and error counts,
    whatever fails while a record is processed.  That includes the fetch of
    the secrets: an exception it raises is caught by the handler of the
    loop body like any other, the record is counted as an error, and the
    loop goes on with the next record; nothing propagates out of
    [handler]. *)
Theorem handler_reports_batch_success :
  forall (L : PyLib) (E : Env),
    (forall (records : list json) (other : list (pystr * json)) (w : World),
        exists processed errors,
          fst (handler (JDict ((u "Records", JList records) :: other)) w)
          = Ret (batch_response processed errors)
          /\ processed + errors <= List.length records)
    /\ (forall (record input : json) (text : pystr) (rest : list json)
               (w w2 : World) (e : exn) (processed_count error_count : nat),
           decode_record record = Ret input ->
           py_get input (u "text") (JStr (u "")) = Ret (JStr text) ->
           text <> [] ->
           get_secrets (at_get_secrets w) = (Raise e, w2) ->
           handler_loop (record :: rest) processed_count error_count w
           = handler_loop rest processed_count (S error_count)
                          (snd (log ERROR "Failed to process record" w2))).
Proof.
  intros L E. split.
  - intros records other w.
    unfold handler, py_get, assoc. rewrite pystr_eqb_refl.
    unfold_monad. simpl.
    match goal with
    | |- context [handler_loop records 0 0 ?w0] =>
        destruct (handler_loop_returns records 0 0 w0) as (p & e & Hrun & Hle);
        destruct (handler_loop records 0 0 w0) as [o w1]
    end.
    simpl in Hrun. subst o. exists p, e. split; [reflexivity | lia].
  - intros record input text rest w w2 e p0 e0 Hdec Htext Hne Hsec.
    simpl. unfold bind.
    rewrite (handler_record_secrets_failure _ w Hdec Htext Hne Hsec).
    reflexivity.
Qed.

(** The secrets store refuses the fetch (the second tick) for the first
    record of a batch: [handler] does not raise. *)
Lemma handler_secrets_failure_is_caught :
  ~ (forall (L : PyLib) (E : Env) (record input : json) (text : pystr)
            (rest : list json) (w w2 : World) (e : exn),
        decode_record record = Ret input ->
        py_get input (u "text") (JStr (u "")) = Ret (JStr text) ->
        text <> [] ->
        get_secrets (at_get_secrets (snd (log INFO "Processing Kinesis records" w)))
        = (Raise e, w2) ->
        fst (handler (JDict [(u "Records", JList (record :: rest))]) w) = Raise e).
Proof.
  intro H.
  pose (L := Run.lib [Run.input_u1; Run.the_secret]).
  pose (E := Run.env (Run.local_config Run.queue_url false)
                     (fun t => if Nat.eqb t 1 then Some ClientError else None)
                     Run.no_reply Run.no_signal).
  pose (w := Run.initial [] []).
  specialize (H L E Run.record_u1 Run.input_u1 (u "I'm overwhelmed but hopeful")
                [] w
                (snd (@get_secrets L E
                        (@at_get_secrets E
                           (snd (log INFO "Processing Kinesis records" w)))))
                ClientError).
  assert (Hraise : fst (@handler L E (JDict [(u "Records", JList [Run.record_u1])]) w)
                   = Raise ClientError).
  { apply H.
    - vm_compute. reflexivity.
    - vm_compute. reflexivity.
    - vm_compute. discriminate.
    - vm_compute. reflexivity. }
  vm_compute in Hraise. discriminate.
Qed.

(** The same refusal, seen from the loop: the record adds one to the error
    count and the loop goes on. *)
Lemma handler_reports_batch_success_witness :
  let L := Run.lib [Run.input_u1; Run.the_secret] in
  let E := Run.env (Run.local_config Run.queue_url false)
                   (fun t => if Nat.eqb t 1 then Some ClientError else None)
                   Run.no_reply Run.no_signal in
  let w := Run.initial [] [] in
  let w2 := snd (@get_secrets L E (@at_get_secrets E w)) in
  @handler_loop L E [Run.record_u1; Run.record_u1] 0 0 w
  = @handler_loop L E [Run.record_u1] 0 1
                  (snd (log ERROR "Failed to process record" w2)).
Proof.
  intros L E w w2.
  apply (proj2 (@handler_reports_batch_success L E)
               Run.record_u1 Run.input_u1 (u "I'm overwhelmed but hopeful")
               [Run.record_u1] w w2 ClientError 0 0).
  - vm_compute. reflexivity.
  - vm_compute. reflexivity.
  - vm_compute. discriminate.
  - vm_compute. reflexivity.
Defined.

(* ===================================================================== *)
(** * The canvas generator *)
(* ===================================================================== *)

Lemma str_assoc_In (k v : pystr) (d : list (pystr * pystr)) :
  str_assoc k d = Some v -> In (k, v) d.
Proof.
  induction d as [| [k' v'] d IH]; simpl; [discriminate |].
  destruct (pystr_eqb k k') eqn:Hk.
  - intro H. injection H as <-. apply pystr_eqb_eq in Hk. subst k'. left. reflexivity.
  - intro H. right. apply IH, H.
Qed.

Lemma neutral_template : str_assoc (u "neutral") EMOTION_ASCII_MAP = Some art_neutral.
Proof. vm_compute. reflexivity. Qed.

(** Every synonym is bound once in [emotion_mapping], to the name of a
    template; looking the synonym up gives that template. *)
Lemma emotion_mapping_checked :
  forallb (fun kv =>
             match str_assoc (snd kv) EMOTION_ASCII_MAP with
             | Some art =>
                 pystr_eqb
                   (str_get EMOTION_ASCII_MAP
                            (str_get emotion_mapping (fst kv) (fst kv)) art_neutral)
                   art
             | None => false
             end) emotion_mapping = true.
Proof. vm_compute. reflexivity. Qed.

Section Generator.
Context {L : PyLib} {E : Env}.

(** [generate] on two strings: one clock reading, no exception, and an
    output that is a function of the label, the identifier and the
    reading. *)
Lemma generate_run (emotion record_id : pystr) (w : World) :
  generate (JStr emotion) (JStr record_id) w
  = (Ret (template_of emotion ++ footer_of record_id (clock (tick w))), tock w).
Proof.
  unfold generate, py_lower_strip, py_slice_to.
  rewrite neutral_template.
  unfold now. unfold bind, lift, touch, ret. cbv beta iota.
  unfold template_of, footer_of, normalize. cbv beta iota zeta.
  reflexivity.
Qed.

Lemma template_of_In (emotion : pystr) :
  In (template_of emotion) (map snd EMOTION_ASCII_MAP).
Proof.
  unfold template_of, str_get at 1.
  destruct (str_assoc _ EMOTION_ASCII_MAP) as [art |] eqn:H.
  - apply str_assoc_In in H.
    change (In (snd (str_get emotion_mapping (normalize emotion) (normalize emotion), art))
               (map snd EMOTION_ASCII_MAP)).
    apply in_map, H.
  - change (In (snd (u "neutral", art_neutral)) (map snd EMOTION_ASCII_MAP)).
    apply in_map, str_assoc_In, neutral_template.
Qed.

End Generator.

(** C6. [generate] is total and deterministic on strings.  For every label
    and record identifier it returns, never raises, and its output is the
    template of the label followed by the footer, a function of the label,
    the identifier and the clock reading alone: two calls with the same
    arguments and the same reading give the same output.  The template is
    one of the ten of [EMOTION_ASCII_MAP]; a label that normalizes to a
    synonym gets the template of the canonical emotion the synonym stands
    for, a label that normalizes to a canonical emotion gets that emotion's
    template, and every other label gets the neutral template. *)
Theorem generate_total_deterministic :
  forall (L : PyLib) (E : Env) (emotion record_id : pystr) (w : World),
    generate (JStr emotion) (JStr record_id) w
    = (Ret (template_of emotion ++ footer_of record_id (clock (tick w))), tock w)
    /\ (forall w' : World,
           clock (tick w') = clock (tick w) ->
           fst (generate (JStr emotion) (JStr record_id) w')
           = fst (generate (JStr emotion) (JStr record_id) w))
    /\ In (template_of emotion) (map snd EMOTION_ASCII_MAP)
    /\ (forall alias canonical : pystr,
           In (alias, canonical) emotion_mapping ->
           normalize emotion = alias ->
           str_assoc canonical EMOTION_ASCII_MAP = Some (template_of emotion))
    /\ (forall art : pystr,
           str_assoc (normalize emotion) emotion_mapping = None ->
           str_assoc (normalize emotion) EMOTION_ASCII_MAP = Some art ->
           template_of emotion = art)
    /\ (str_assoc (normalize emotion) emotion_mapping = None ->
        str_assoc (normalize emotion) EMOTION_ASCII_MAP = None ->
        template_of emotion = art_neutral).
Proof.
  intros L E emotion record_id w.
  split; [apply generate_run |].
  split.
  { intros w' Hclock. rewrite !generate_run. simpl. rewrite Hclock. reflexivity. }
  split; [apply template_of_In |].
  split.
  { intros alias canonical Hin Hnorm.
    pose proof emotion_mapping_checked as Hall.
    rewrite forallb_forall in Hall. specialize (Hall _ Hin).
    cbv beta in Hall.
    change (snd (alias, canonical)) with canonical in Hall.
    change (fst (alias, canonical)) with alias in Hall.
    destruct (str_assoc canonical EMOTION_ASCII_MAP) as [art |]; [| discriminate].
    apply pystr_eqb_eq in Hall.
    unfold template_of. cbv zeta. rewrite Hnorm, Hall. reflexivity. }
  split.
  { intros art Halias Hmap. unfold template_of. cbv zeta.
    unfold str_get. rewrite Halias, Hmap. reflexivity. }
  intros Halias Hmap. unfold template_of. cbv zeta.
  unfold str_get. rewrite Halias, Hmap. reflexivity.
Qed.

(** The label " Joyful " normalizes to the synonym "joyful", which stands
    for "happy". *)
Lemma generate_total_deterministic_witness :
  let L := Run.lib [] in
  @normalize L (u " Joyful ") = u "joyful"
  /\ str_assoc (u "happy") EMOTION_ASCII_MAP
     = Some (@template_of L (u " Joyful ")).
Proof.
  intro L. split; [vm_compute; reflexivity |].
  pose (E := Run.env (Run.local_config Run.queue_url false) Run.no_fault
                     Run.no_reply Run.no_signal).
  apply (proj1 (proj2 (proj2 (proj2
           (@generate_total_deterministic L E (u " Joyful ") (u "rec-0")
                                          (Run.initial [] [])))))
               (u "joyful") (u "happy")).
  - simpl. left. reflexivity.
  - vm_compute. reflexivity.
Defined.

(* ===================================================================== *)
(** * The worker: one job *)
(* ===================================================================== *)

#[export] Hint Resolve preserves_modify : frame.

Section Job.
Context {L : PyLib} {E : Env}.

Lemma generate_preserves {X} (f : World -> X) (emotion record_id : json) :
  ignores_clock f -> preserves f (generate emotion record_id).
Proof. intro H. unfold generate. frame. Qed.

Lemma upload_to_s3_preserves {X} (f : World -> X) (ascii_art : pystr)
      (record_id user_id : json) :
  ignores_clock f ->
  (forall obj, ignores_request f (PutObject obj)) ->
  (forall w x, f (with_bucket w x) = f w) ->
  preserves f (upload_to_s3 ascii_art record_id user_id).
Proof. intros H Hr Hb. unfold upload_to_s3. frame. Qed.

Lemma update_dynamodb_preserves {X} (f : World -> X)
      (user_id timestamp record_id : json) (ascii_url : pystr) :
  ignores_clock f ->
  (forall uid rid, ignores_request f (Query uid rid)) ->
  (forall uid ts url at_, ignores_request f (UpdateItem uid ts url at_)) ->
  (forall w x, f (with_table w x) = f w) ->
  preserves f (update_dynamodb user_id timestamp record_id ascii_url).
Proof. intros H Hq Hu Ht. unfold update_dynamodb. frame. Qed.

(** Processing a job sends no delete request, and touches neither the
    queue nor the two counters of [main]. *)
Lemma process_message_preserves {X} (f : World -> X) (m : sqs_message) :
  ignores_clock f ->
  (forall r, delete_requests [r] = [] -> ignores_request f r) ->
  (forall w x, f (with_bucket w x) = f w) ->
  (forall w x, f (with_table w x) = f w) ->
  preserves f (process_message m).
Proof.
  intros H Hr Hb Ht. unfold process_message, process_message_body.
  frame.
Qed.

Lemma process_message_deleted (m : sqs_message) :
  preserves deleted (process_message m).
Proof.
  apply process_message_preserves; auto with frame.
  intros r Hr. apply ignores_request_deleted, Hr.
Qed.

Lemma process_message_queue (m : sqs_message) : preserves queue (process_message m).
Proof. apply process_message_preserves; auto with frame. Qed.

Lemma process_message_processed_count (m : sqs_message) :
  preserves processed_count (process_message m).
Proof. apply process_message_preserves; auto with frame. Qed.

Lemma process_message_error_count (m : sqs_message) :
  preserves error_count (process_message m).
Proof. apply process_message_preserves; auto with frame. Qed.

(** A complete run makes [process_message] return [True]. *)
Lemma process_message_completed (m : sqs_message) (w : World)
      body record_id emotion user_id timestamp ascii_art ascii_url w2 w3 w4 :
  job_run m w body record_id emotion user_id timestamp ascii_art ascii_url
          w2 w3 w4 ->
  process_message m w
  = (Ret true, snd (log INFO "Successfully processed message" w4)).
Proof.
  intros ((Hbody & Hrid & Hemo & Huid & Hts & Htruthy & Hgen & Hup) & Hupd).
  unfold process_message, process_message_body, try_catch.
  unfold bind at 1, lift at 1. rewrite Hbody.
  unfold bind at 1, lift at 1. rewrite Hrid.
  unfold bind at 1, lift at 1. rewrite Hemo.
  unfold bind at 1, lift at 1. rewrite Huid.
  unfold bind at 1, lift at 1. rewrite Hts.
  rewrite Htruthy. cbv beta iota. unfold negb.
  unfold bind at 1. unfold log at 1.
  unfold log at 1 in Hgen. simpl snd in Hgen.
  rewrite (bind_run _ Hgen), (bind_run _ Hup), (bind_run _ Hupd).
  reflexivity.
Qed.

(** [process_message] returns [True] only after a complete run. *)
Lemma process_message_true (m : sqs_message) (w : World) :
  fst (process_message m w) = Ret true -> upload_and_update_completed m w.
Proof.
  unfold upload_and_update_completed, job_run, job_until_update.
  unfold process_message, process_message_body, try_catch.
  unfold bind at 1, lift at 1.
  destruct (py_json_loads (JStr (Body m))) as [body | e] eqn:Hbody; [| discriminate].
  unfold bind at 1, lift at 1.
  destruct (py_get body (u "record_id") JNull) as [record_id | e] eqn:Hrid;
    [| discriminate].
  unfold bind at 1, lift at 1.
  destruct (py_get body (u "emotion") (JStr (u "neutral"))) as [emotion | e]
    eqn:Hemo; [| discriminate].
  unfold bind at 1, lift at 1.
  destruct (py_get body (u "user_id") (JStr (u "anonymous"))) as [user_id | e]
    eqn:Huid; [| discriminate].
  unfold bind at 1, lift at 1.
  destruct (py_get body (u "timestamp") JNull) as [timestamp | e] eqn:Hts;
    [| discriminate].
  destruct (truthy record_id) eqn:Htruthy; [| discriminate].
  cbv beta iota. unfold negb.
  unfold bind at 1. unfold log at 1.
  unfold bind at 1.
  destruct (generate emotion record_id _) as [[ascii_art | e] w2] eqn:Hgen;
    [| discriminate].
  unfold bind at 1.
  destruct (upload_to_s3 ascii_art record_id user_id w2) as [[ascii_url | e] w3]
    eqn:Hup; [| discriminate].
  unfold bind at 1.
  destruct (update_dynamodb user_id timestamp record_id ascii_url w3)
    as [[[] | e] w4] eqn:Hupd; [| discriminate].
  intros _.
  exists body, record_id, emotion, user_id, timestamp, ascii_art, ascii_url,
    w2, w3, w4.
  split; [| exact Hupd].
  split; [reflexivity |].
  split; [exact Hrid |]. split; [exact Hemo |].
  split; [exact Huid |]. split; [exact Hts |].
  split; [exact Htruthy |].
  split; [exact Hgen | exact Hup].
Qed.

End Job.

Section Artifact.
Context {L : PyLib} {E : Env}.

(** When [upload_to_s3] returns, the bucket has received one object: the
    canvas, under the key built from the user, the date read from the clock
    at the start of the upload, and the record identifier. *)
Lemma upload_to_s3_returns (ascii_art : pystr) (record_id user_id : json)
      (w w' : World) (url : pystr) :
  upload_to_s3 ascii_art record_id user_id w = (Ret url, w') ->
  exists obj,
    bucket w' = s3_put obj (bucket w)
    /\ Key obj = artifact_key user_id (clock (tick w)) record_id
    /\ ObjectBody obj = ascii_art
    /\ url = artifact_url (Key obj).
Proof.
  unfold upload_to_s3. unfold_monad. simpl. intro H.
  split_run H. inversion H; subst; clear H. simpl.
  autorewrite with world.
  eexists. split; [reflexivity |]. simpl. repeat split.
Qed.

Lemma In_s3_put (obj : s3_object) (b : list s3_object) : In obj (s3_put obj b).
Proof. unfold s3_put. apply in_or_app. right. left. reflexivity. Qed.

End Artifact.

Section GenerationDate.
Context {L : PyLib} {E : Env}.

(** [generate] reads the clock once. *)
Lemma generate_returns (emotion record_id : json) (w w2 : World)
      (ascii_art : pystr) :
  generate emotion record_id w = (Ret ascii_art, w2) -> w2 = tock w.
Proof.
  unfold generate. rewrite neutral_template.
  unfold now. unfold bind, lift, touch, ret. cbv beta iota.
  destruct (py_lower_strip emotion); [| discriminate].
  destruct (py_slice_to 8 record_id); [| discriminate].
  intro H. injection H as _ <-. reflexivity.
Qed.

End GenerationDate.

(** C9, amended.  For every successfully processed job the worker stores
    the blob artifact at a key of the form
    ascii-art/{userId}/{yyyy/mm/dd}/{recordId}.txt: the prefix "ascii-art",
    then the user, the date of generation and the record identifier.  The
    object stored under that key is the canvas generated for the job in
    this run, and the date is the one read from the clock when the upload
    starts, right after the canvas has been generated. *)
Theorem process_message_stores_artifact :
  forall (L : PyLib) (E : Env) (m : sqs_message) (w : World),
    fst (process_message m w) = Ret true ->
    stores_artifact_under (u "ascii-art/") m w.
Proof.
  intros L E m w Htrue.
  destruct (process_message_true _ _ Htrue)
    as (body & record_id & emotion & user_id & timestamp & ascii_art
        & ascii_url & w2 & w3 & w4 & Hrun).
  unfold stores_artifact_under.
  rewrite (process_message_completed Hrun).
  destruct Hrun
    as ((Hbody & Hrid & Hemo & Huid & Hts & Htruthy & Hgen & Hup) & Hupd).
  destruct (upload_to_s3_returns _ _ _ _ Hup) as (obj & Hbucket & Hkey & Hobj & _).
  pose proof (generate_returns _ _ _ Hgen) as Hw2.
  assert (Htick : tick w2 = S (tick w)).
  { rewrite Hw2. autorewrite with world. reflexivity. }
  exists body, user_id, record_id, emotion, ascii_art, w2, obj.
  repeat (split; [assumption |]).
  split.
  { intros label rid -> ->.
    rewrite generate_run in Hgen. injection Hgen as <- _. reflexivity. }
  split.
  { simpl.
    rewrite <- (snd_run Hupd).
    rewrite (update_dynamodb_preserves (f := bucket)); auto with frame.
    rewrite Hbucket. apply In_s3_put. }
  split; [exact Hobj |].
  cbv zeta. rewrite Hkey, Htick. unfold artifact_key, strftime_path.
  rewrite <- !app_assoc. reflexivity.
Qed.

(** A job for user "u1" and record "rec-0", processed with every request
    answered: the only object in the bucket has the key
    ascii-art/u1/2026/11/03/rec-0.txt. *)
Lemma process_message_key_is_not_artifacts :
  ~ (forall (L : PyLib) (E : Env) (m : sqs_message) (w : World),
        fst (process_message m w) = Ret true ->
        stores_artifact_under (u "artifacts/") m w).
Proof.
  intro H.
  pose (L := Run.lib [Run.job "rec-0" "neutral"]).
  pose (E := Run.worker_env Run.no_fault Run.no_signal).
  specialize (H L E (Run.message "rh-0" (Run.job "rec-0" "neutral"))
                (Run.initial [Run.stored_record "rec-0"] [])).
  destruct H as (body & user_id & record_id & emotion & ascii_art & w2 & obj
                 & Hbody & Huid & Hrid & _ & _ & _ & Hin & _ & Hkey).
  - vm_compute. reflexivity.
  - vm_compute in Hbody. injection Hbody as <-.
    vm_compute in Huid. injection Huid as <-.
    vm_compute in Hrid. injection Hrid as <-.
    vm_compute in Hin. destruct Hin as [<- | []].
    vm_compute in Hkey. discriminate.
Qed.

(** A job processed from the fifth tick of a clock that shows a new day
    every four ticks: the canvas is stamped on the second day at the fifth
    tick, and the key carries the date of the sixth, the second day too,
    not the date of the start of the run. *)
Lemma process_message_stores_artifact_witness :
  let L := Run.lib [Run.job "rec-0" "neutral"] in
  let E := Build_Env (Run.local_config Run.queue_url false)
                     (fun t => mkDatetime 2026 11 (1 + N.of_nat t / 4) 8 0
                                          (N.of_nat t) 0)
                     (fun _ => u "rec") Run.no_fault (fun _ => JNull)
                     Run.no_reply (fun _ => u "rh") (fun _ _ => true)
                     Run.no_signal in
  let m := Run.message "rh-0" (Run.job "rec-0" "neutral") in
  let w := with_tick (Run.initial [Run.stored_record "rec-0"] []) 4 in
  @stores_artifact_under L E (u "ascii-art/") m w
  /\ map Key (bucket (snd (@process_message L E m w)))
     = [u "ascii-art/u1/2026/11/02/rec-0.txt"]
  /\ map ObjectBody (bucket (snd (@process_message L E m w)))
     = [art_neutral ++ @footer_of L (u "rec-0")
                                  (mkDatetime 2026 11 2 8 0 4 0)].
Proof.
  intros L E m w. split.
  - apply (@process_message_stores_artifact L E).
    vm_compute. reflexivity.
  - split; vm_compute; reflexivity.
Defined.

(* ===================================================================== *)
(** * The worker: acknowledging a job *)
(* ===================================================================== *)

Section Acknowledge.
Context {L : PyLib} {E : Env}.

(** [process_message] has a blanket handler: it returns a boolean. *)
Lemma process_message_returns (m : sqs_message) (w : World) :
  exists b, fst (process_message m w) = Ret b.
Proof.
  unfold process_message, try_catch.
  destruct (process_message_body m w) as [[b | e] w1]; eexists; reflexivity.
Qed.

(** The [try] block raises: [process_message] logs and returns [False]. *)
Lemma process_message_raise (m : sqs_message) (w w1 : World) (e : exn) :
  process_message_body m w = (Raise e, w1) ->
  process_message m w
  = (Ret false, snd (log ERROR "Failed to process message" w1)).
Proof. intro H. unfold process_message, try_catch. rewrite H. reflexivity. Qed.

(** [delete_sqs_message] sends one delete request, whatever the queue
    answers, *)
Lemma delete_sqs_message_deleted (h : pystr) (w : World) :
  deleted (snd (delete_sqs_message h w)) = deleted w ++ [h].
Proof.
  unfold delete_sqs_message. unfold_monad. simpl.
  destruct (fault (tick w)) as [e |]; [destruct (is_boto_error e) |];
    unfold deleted; simpl; autorewrite with world;
    rewrite delete_requests_app; reflexivity.
Qed.

(** and an answered request removes the message from the queue. *)
Lemma delete_sqs_message_queue (h : pystr) (w : World) :
  queue (snd (delete_sqs_message h w))
  = match fault (tick w) with
    | None => sqs_delete h (queue w)
    | Some _ => queue w
    end.
Proof.
  unfold delete_sqs_message. unfold_monad. simpl.
  destruct (fault (tick w)) as [e |]; [destruct (is_boto_error e) |];
    simpl; autorewrite with world; reflexivity.
Qed.

Lemma delete_sqs_message_preserves {X} (f : World -> X) (h : pystr) :
  ignores_clock f ->
  ignores_request f (DeleteMessage h) ->
  (forall w x, f (with_queue w x) = f w) ->
  preserves f (delete_sqs_message h).
Proof. intros H Hr Hq. unfold delete_sqs_message. frame. Qed.

(** What [main] does after [process_message] has returned [True]: *)
Lemma handle_message_true_run (m : sqs_message) (w : World) :
  fst (process_message m w) = Ret true ->
  handle_message m w
  = (delete_sqs_message (ReceiptHandle m);;
     modify (fun w => with_processed_count w (S (processed_count w))))
      (snd (process_message m w)).
Proof.
  intro Htrue. unfold handle_message, bind at 1.
  destruct (process_message m w) as [o w1]. simpl in Htrue. subst o.
  reflexivity.
Qed.

(** The delete request after a completed job, case by case on what the
    queue answers. *)
Lemma handle_message_delete_outcome (m : sqs_message) (w : World) :
  fst (process_message m w) = Ret true ->
  let w1 := snd (process_message m w) in
  let w' := snd (handle_message m w) in
  match fault (tick w1) with
  | None =>
      fst (handle_message m w) = Ret tt
      /\ processed_count w' = S (processed_count w)
      /\ queue w' = sqs_delete (ReceiptHandle m) (queue w)
  | Some e =>
      queue w' = queue w
      /\ if is_boto_error e
         then fst (handle_message m w) = Ret tt
              /\ processed_count w' = S (processed_count w)
         else fst (handle_message m w) = Raise e
              /\ processed_count w' = processed_count w
  end.
Proof.
  intros Hb w1 w'. subst w1 w'.
  rewrite (handle_message_true_run _ _ Hb).
  pose proof (process_message_processed_count m w) as Hp.
  pose proof (process_message_queue m w) as Hq.
  revert Hp Hq. generalize (snd (process_message m w)). intros w1 Hp Hq.
  unfold delete_sqs_message. unfold_monad. simpl.
  destruct (fault (tick w1)) as [e |]; simpl.
  - destruct (is_boto_error e); simpl; autorewrite with world;
      rewrite ?Hp, ?Hq; repeat split.
  - autorewrite with world. rewrite Hp, Hq. repeat split.
Qed.

Lemma handle_message_ack (m : sqs_message) (w : World) :
  fst (process_message m w) = Ret true ->
  deleted (snd (handle_message m w)) = deleted w ++ [ReceiptHandle m]
  /\ error_count (snd (handle_message m w)) = error_count w.
Proof.
  intro Htrue. rewrite (handle_message_true_run _ _ Htrue).
  pose proof (process_message_deleted m w) as Hdel.
  pose proof (process_message_error_count m w) as Herr.
  set (w1 := snd (process_message m w)) in *.
  pose proof (delete_sqs_message_deleted (ReceiptHandle m) w1) as Hd.
  pose proof (delete_sqs_message_preserves (f := error_count)
                (h := ReceiptHandle m)
                ignores_clock_error_count
                (ignores_request_error_count _)
                (fun _ _ => eq_refl) w1) as He.
  unfold bind.
  destruct (delete_sqs_message (ReceiptHandle m) w1) as [[[] | e] w2];
    unfold deleted in *; simpl in *; rewrite Hd, He, Hdel, Herr; auto.
Qed.

(** and after it has returned [False]: *)
Lemma handle_message_nack (m : sqs_message) (w : World) :
  fst (process_message m w) = Ret false ->
  handle_message m w
  = (Ret tt,
     with_error_count (snd (process_message m w))
                      (S (error_count (snd (process_message m w))))).
Proof.
  intro Hfalse. unfold handle_message, bind.
  destruct (process_message m w) as [o w1]. simpl in Hfalse. subst o.
  reflexivity.
Qed.

Lemma handle_message_nack_effects (m : sqs_message) (w : World) :
  fst (process_message m w) = Ret false ->
  let w' := snd (handle_message m w) in
  fst (handle_message m w) = Ret tt
  /\ deleted w' = deleted w
  /\ queue w' = queue w
  /\ error_count w' = S (error_count w)
  /\ processed_count w' = processed_count w.
Proof.
  intros Hfalse w'. subst w'. rewrite (handle_message_nack _ _ Hfalse). simpl.
  rewrite (process_message_error_count m w).
  repeat split.
  - apply (process_message_deleted m w).
  - apply (process_message_queue m w).
  - apply (process_message_processed_count m w).
Qed.

End Acknowledge.

(** C3, amended.  For every job [main] sends the queue the delete request
    for the job exactly when, for that job, both the blob upload and the
    store update completed without raising.  The job leaves the queue only
    through that request: it is gone from the queue when the queue answers
    the request, and it stays on the queue, although completed, when the
    queue refuses it.  When any exception is raised while the job is
    processed (a forced upload failure is one), no delete request is sent
    and the queue keeps the job, the error counter goes up by one, the
    processed counter stays, and the loop goes on with the next job. *)
Theorem worker_deletes_iff_completed :
  forall (L : PyLib) (E : Env) (m : sqs_message) (w : World),
    let w' := snd (handle_message m w) in
    let answer := fault (tick (snd (process_message m w))) in
    (deleted w' = deleted w ++ [ReceiptHandle m]
     <-> upload_and_update_completed m w)
    /\ (upload_and_update_completed m w ->
        answer = None ->
        queue w' = sqs_delete (ReceiptHandle m) (queue w)
        /\ ~ In m (queue w')
        /\ processed_count w' = S (processed_count w))
    /\ (upload_and_update_completed m w ->
        answer <> None ->
        queue w' = queue w)
    /\ (In m (queue w) ->
        (~ In m (queue w')
         <-> upload_and_update_completed m w /\ answer = None))
    /\ (~ upload_and_update_completed m w ->
        deleted w' = deleted w /\ queue w' = queue w)
    /\ (forall (e : exn) (w1 : World),
           process_message_body m w = (Raise e, w1) ->
           deleted w' = deleted w
           /\ queue w' = queue w
           /\ error_count w' = S (error_count w)
           /\ processed_count w' = processed_count w
           /\ fst (handle_message m w) = Ret tt
           /\ forall (rest : list sqs_message) (w0 : World),
                read_shutdown_requested w0 = (Ret false, w) ->
                for_messages (m :: rest) w0 = for_messages rest w').
Proof.
  intros L E m w w' answer. subst w' answer.
  assert (Hgone : forall q, ~ In m (sqs_delete (ReceiptHandle m) q)).
  { intros q Hin. unfold sqs_delete in Hin. apply filter_In in Hin.
    destruct Hin as [_ Hin]. rewrite pystr_eqb_refl in Hin. discriminate. }
  destruct (process_message_returns m w) as [[|] Hb].
  - (* [process_message] returned [True] *)
    pose proof (process_message_true _ _ Hb) as Hdone.
    destruct (handle_message_ack _ _ Hb) as [Hack _].
    pose proof (handle_message_delete_outcome _ _ Hb) as Hout.
    cbv zeta in Hout.
    split; [split; intro; assumption |].
    split.
    { intros _ Hanswer. rewrite Hanswer in Hout.
      destruct Hout as (_ & Hcount & Hqueue).
      split; [exact Hqueue |]. split; [rewrite Hqueue; apply Hgone | exact Hcount]. }
    split.
    { intros _ Hanswer.
      destruct (fault (tick (snd (process_message m w)))) as [e |];
        [apply Hout | contradiction]. }
    split.
    { intro Hin. split.
      - intro Hleft. split; [exact Hdone |].
        destruct (fault (tick (snd (process_message m w)))) as [e |];
          [| reflexivity].
        destruct Hout as [Hqueue _]. rewrite Hqueue in Hleft. contradiction.
      - intros [_ Hanswer]. rewrite Hanswer in Hout.
        destruct Hout as (_ & _ & Hqueue). rewrite Hqueue. apply Hgone. }
    split; [intro Hnot; contradiction |].
    intros e w1 Hraise. rewrite (process_message_raise _ _ Hraise) in Hb.
    discriminate.
  - (* it returned [False] *)
    destruct (handle_message_nack_effects _ _ Hb)
      as (Hret & Hdel & Hqueue & Herr & Hproc).
    assert (Hnot : ~ upload_and_update_completed m w).
    { intros (body & record_id & emotion & user_id & timestamp & ascii_art
              & ascii_url & w2 & w3 & w4 & Hrun).
      rewrite (process_message_completed Hrun) in Hb. discriminate. }
    split.
    { split.
      - intro Hack. rewrite Hdel in Hack.
        apply (f_equal (@List.length _)) in Hack.
        rewrite length_app in Hack. simpl in Hack. lia.
      - intro H. contradiction. }
    split; [intro H; contradiction |].
    split; [intro H; contradiction |].
    split.
    { intro Hin. rewrite Hqueue. split; [intro H; contradiction |].
      intros [H _]. contradiction. }
    split; [intros _; split; [exact Hdel | exact Hqueue] |].
    intros e w1 _. repeat (split; [assumption |]).
    intros rest w0 Hread.
    simpl. rewrite (bind_run _ Hread). cbv beta iota.
    unfold bind at 1.
    destruct (handle_message m w) as [o w2]. simpl in Hret. subst o.
    reflexivity.
Qed.

(** The claim as the spec words it, with "deletes a job from the queue"
    read as the job leaving the queue, fails: a job whose upload and update
    completed stays on the queue when the queue refuses the delete request
    (the eighth tick of the job). *)
Lemma completed_job_survives_refused_delete :
  ~ (forall (L : PyLib) (E : Env) (m : sqs_message) (w : World),
        In m (queue w) ->
        (~ In m (queue (snd (handle_message m w)))
         <-> upload_and_update_completed m w)).
Proof.
  intro H.
  pose (L := Run.lib [Run.job "rec-0" "neutral"]).
  pose (E := Run.worker_env (fun t => if Nat.eqb t 7 then Some ClientError else None)
                            Run.no_signal).
  pose (m := Run.message "rh-0" (Run.job "rec-0" "neutral")).
  specialize (H L E m (Run.initial [Run.stored_record "rec-0"] [m])).
  destruct H as [_ H]; [left; reflexivity |].
  apply H.
  - apply process_message_true. vm_compute. reflexivity.
  - vm_compute. left. reflexivity.
Qed.

(** A job with every request answered: the delete request is sent and the
    job is gone from the queue.  The same job when the blob store refuses
    the upload (its put request is the fourth tick of the job): no delete
    request, and the job is still on the queue. *)
Lemma worker_deletes_iff_completed_witness :
  let L := Run.lib [Run.job "rec-0" "neutral"] in
  let m := Run.message "rh-0" (Run.job "rec-0" "neutral") in
  let w := Run.initial [Run.stored_record "rec-0"] [m] in
  let answered := Run.worker_env Run.no_fault Run.no_signal in
  let refused :=
    Run.worker_env (fun t => if Nat.eqb t 3 then Some ClientError else None)
                   Run.no_signal in
  (let w' := snd (@handle_message L answered m w) in
   @upload_and_update_completed L answered m w
   /\ deleted w' = [ReceiptHandle m]
   /\ queue w' = []
   /\ ~ In m (queue w')
   /\ processed_count w' = 1)
  /\ (let w' := snd (@handle_message L refused m w) in
      fst (@process_message_body L refused m w) = Raise ClientError
      /\ deleted w' = []
      /\ queue w' = [m]
      /\ error_count w' = 1
      /\ processed_count w' = 0).
Proof.
  intros L m w answered refused. split.
  - assert (Hdone : @upload_and_update_completed L answered m w).
    { apply process_message_true. vm_compute. reflexivity. }
    destruct (@worker_deletes_iff_completed L answered m w)
      as (Hack & Hanswered & _).
    destruct (Hanswered Hdone) as (Hqueue & Hgone & Hcount);
      [vm_compute; reflexivity |].
    split; [exact Hdone |].
    split; [exact (proj2 Hack Hdone) |].
    split; [rewrite Hqueue; vm_compute; reflexivity |].
    split; [exact Hgone | exact Hcount].
  - split; [vm_compute; reflexivity |].
    destruct (@worker_deletes_iff_completed L refused m w)
      as (_ & _ & _ & _ & _ & Hraise).
    destruct (Hraise ClientError (snd (@process_message_body L refused m w)))
      as (Hdel & Hqueue & Herr & Hproc & _).
    + vm_compute. reflexivity.
    + repeat split; assumption.
Defined.

Section LostRecord.
Context {L : PyLib} {E : Env}.

(** The lookup is answered and finds nothing: [update_dynamodb] logs a
    warning and returns; it sends no update request and the table is as it
    was. *)
Lemma update_dynamodb_not_found (user_id timestamp record_id : json)
      (ascii_url : pystr) (w : World) :
  fault (tick w) = None ->
  ddb_query user_id record_id (table w) = [] ->
  let r := update_dynamodb user_id timestamp record_id ascii_url w in
  fst r = Ret tt
  /\ table (snd r) = table w
  /\ trace (snd r) = trace w ++ [Query user_id record_id]
  /\ logs (snd r)
     = logs (tock w) ++ [(WARNING, "Record not found in DynamoDB"%string)].
Proof.
  intros Hfault Hquery r. subst r.
  unfold update_dynamodb. unfold_monad. simpl.
  rewrite Hfault. simpl. autorewrite with world.
  rewrite Hquery. simpl. autorewrite with world.
  repeat split.
Qed.

Lemma sqs_delete_not_In (m : sqs_message) (q : list sqs_message) :
  ~ In m (sqs_delete (ReceiptHandle m) q).
Proof.
  unfold sqs_delete. intro H. apply filter_In in H. destruct H as [_ H].
  rewrite pystr_eqb_refl in H. discriminate.
Qed.

End LostRecord.



(* ===================================================================== *)
(** * The worker: a job that cannot be processed *)
(* ===================================================================== *)

Lemma keeps_bind {A B} (P : World -> Prop) (c : M A) (k : A -> M B) :
  keeps P c -> (forall a, keeps P (k a)) -> keeps P (bind c k).
Proof.
  intros Hc Hk w HP. unfold bind. specialize (Hc w HP).
  destruct (c w) as [[a | e] w1]; simpl in *; [apply Hk, Hc | exact Hc].
Qed.

(** The same when the continuation relies on a fact about the value. *)
Lemma keeps_bind_value {A B} (P : World -> Prop) (R : A -> Prop)
      (c : M A) (k : A -> M B) :
  (forall w, P w -> P (snd (c w)) /\ forall a, fst (c w) = Ret a -> R a) ->
  (forall a, R a -> keeps P (k a)) ->
  keeps P (bind c k).
Proof.
  intros Hc Hk w HP. unfold bind. destruct (Hc w HP) as [HP1 HR].
  destruct (c w) as [[a | e] w1]; simpl in *; [| exact HP1].
  apply Hk; [apply HR; reflexivity | exact HP1].
Qed.

Lemma keeps_try_catch {A} (P : World -> Prop) (c : M A) (h : exn -> M A) :
  keeps P c -> (forall e, keeps P (h e)) -> keeps P (try_catch c h).
Proof.
  intros Hc Hh w HP. unfold try_catch. specialize (Hc w HP).
  destruct (c w) as [[a | e] w1]; simpl in *; [exact Hc | apply Hh, Hc].
Qed.

Lemma keeps_of_preserves {A X} (f : World -> X) (I : X -> Prop) (c : M A) :
  preserves f c -> keeps (fun w => I (f w)) c.
Proof. intros Hc w HI. rewrite Hc. exact HI. Qed.

Lemma NoDup_map_injective {A B} (f : A -> B) (l : list A) (x y : A) :
  NoDup (map f l) -> In x l -> In y l -> f x = f y -> x = y.
Proof.
  induction l as [| a l IH]; simpl; intros Hnd Hx Hy Hf; [contradiction |].
  inversion Hnd as [| ? ? Hnotin Hnd']; subst.
  destruct Hx as [-> | Hx], Hy as [-> | Hy].
  - reflexivity.
  - exfalso. apply Hnotin. rewrite Hf. apply in_map, Hy.
  - exfalso. apply Hnotin. rewrite <- Hf. apply in_map, Hx.
  - apply IH; assumption.
Qed.

Lemma In_firstn {A} (n : nat) (l : list A) (x : A) :
  In x (firstn n l) -> In x l.
Proof.
  revert l. induction n as [| n IH]; intros [| a l]; simpl; try contradiction.
  intros [-> | H]; [left; reflexivity | right; apply IH, H].
Qed.

Section PoisonJob.
Context {L : PyLib} {E : Env}.

(** A job whose body is an object without the field "record_id" takes the
    early [return False] of [process_message], in any world. *)
Lemma process_message_without_id (m : sqs_message) (d : list (pystr * json))
      (w : World) :
  py_json_loads (JStr (Body m)) = Ret (JDict d) ->
  assoc (u "record_id") d = None ->
  process_message m w
  = (Ret false, snd (log ERROR "Message missing record_id, skipping" w)).
Proof.
  intros Hbody Hnone.
  unfold process_message, process_message_body, try_catch.
  unfold bind at 1, lift at 1. rewrite Hbody.
  unfold bind at 1, lift at 1, py_get at 1. rewrite Hnone.
  reflexivity.
Qed.

Lemma poll_sqs_messages_queue (max_messages wait_time : Z) (w : World) :
  queue (snd (poll_sqs_messages max_messages wait_time w)) = queue w
  /\ forall messages,
       fst (poll_sqs_messages max_messages wait_time w) = Ret messages ->
       incl messages (queue w).
Proof.
  unfold poll_sqs_messages. unfold_monad. simpl.
  destruct (fault (tick w)) as [e |]; simpl.
  - destruct (is_boto_error e); simpl; autorewrite with world.
    + split; [reflexivity |]. intros messages H. injection H as <-.
      intros x [].
    + split; [reflexivity |]. intros messages H. discriminate.
  - autorewrite with world.
    match goal with
    | |- context [match ?l with [] => _ | _ :: _ => _ end] =>
        assert (Hincl : incl l (queue w));
        [| destruct l; simpl; autorewrite with world;
           (split; [reflexivity |]); intros messages H; injection H as <-;
           exact Hincl]
    end.
    intros x Hx. apply In_firstn in Hx. apply filter_In in Hx. apply Hx.
Qed.

Variable m : sqs_message.
Variable held : list sqs_message.
Hypothesis handles_distinct : NoDup (map ReceiptHandle held).
Hypothesis m_held : In m held.
Hypothesis m_fails : forall w, fst (process_message m w) = Ret false.

Local Abbreviation still_queued := (still_queued m held).

Lemma still_queued_frame {A} (c : M A) :
  preserves queue c -> keeps (fun w => still_queued (queue w)) c.
Proof. intros Hc w HI. rewrite Hc. exact HI. Qed.

Lemma still_queued_after_delete (m' : sqs_message) (q : list sqs_message) :
  In m' held -> m' <> m ->
  still_queued q -> still_queued (sqs_delete (ReceiptHandle m') q).
Proof.
  intros Hheld Hneq [Hin Hincl]. unfold sqs_delete. split.
  - apply filter_In. split; [exact Hin |].
    destruct (pystr_eqb (ReceiptHandle m) (ReceiptHandle m')) eqn:Heq;
      [| reflexivity].
    apply pystr_eqb_eq in Heq. exfalso. apply Hneq. symmetry.
    apply (NoDup_map_injective ReceiptHandle held); assumption.
  - intros x Hx. apply filter_In in Hx. apply Hincl, Hx.
Qed.

Lemma handle_message_still_queued (m' : sqs_message) :
  In m' held -> keeps (fun w => still_queued (queue w)) (handle_message m').
Proof.
  intros Hheld w HI.
  destruct (process_message_returns m' w) as [[|] Hb].
  - assert (Hneq : m' <> m).
    { intros ->. rewrite m_fails in Hb. discriminate. }
    rewrite (handle_message_true_run _ _ Hb). unfold bind.
    pose proof (delete_sqs_message_queue (ReceiptHandle m')
                  (snd (process_message m' w))) as Hd.
    rewrite (process_message_queue m' w) in Hd.
    assert (HI' : still_queued
                    (queue (snd (delete_sqs_message (ReceiptHandle m')
                                   (snd (process_message m' w)))))).
    { rewrite Hd. destruct (fault _); [exact HI |].
      apply still_queued_after_delete; assumption. }
    destruct (delete_sqs_message (ReceiptHandle m') (snd (process_message m' w)))
      as [[[] | e] w2]; simpl in *; exact HI'.
  - destruct (handle_message_nack_effects _ _ Hb) as (_ & _ & Hq & _).
    rewrite Hq. exact HI.
Qed.

Lemma for_messages_still_queued (messages : list sqs_message) :
  incl messages held ->
  keeps (fun w => still_queued (queue w)) (for_messages messages).
Proof.
  induction messages as [| m' rest IH]; intro Hincl; simpl.
  - intros w HI. exact HI.
  - apply keeps_bind.
    + apply still_queued_frame.
      unfold read_shutdown_requested. frame.
    + intros [|].
      * apply still_queued_frame. frame.
      * apply keeps_bind.
        -- apply handle_message_still_queued, Hincl. left. reflexivity.
        -- intros _. apply IH. intros x Hx. apply Hincl. right. exact Hx.
Qed.

Lemma poll_cycle_still_queued :
  keeps (fun w => still_queued (queue w)) poll_cycle.
Proof.
  unfold poll_cycle. apply keeps_try_catch.
  - apply (@keeps_bind_value _ _ _ (fun messages => incl messages held)).
    + intros w [Hin Hincl].
      destruct (poll_sqs_messages_queue 10 10 w) as [Hq Hmsgs].
      rewrite Hq. split; [split; assumption |].
      intros messages Hret x Hx. apply Hincl, (Hmsgs _ Hret), Hx.
    + intros messages Hmessages. apply keeps_bind.
      * apply for_messages_still_queued, Hmessages.
      * intros _. apply still_queued_frame.
        destruct messages; frame.
  - intro e. apply still_queued_frame. frame.
Qed.

Lemma worker_loop_still_queued (fuel : nat) :
  keeps (fun w => still_queued (queue w)) (worker_loop fuel).
Proof.
  induction fuel as [| fuel IH]; simpl.
  - intros w HI. exact HI.
  - apply keeps_bind.
    + apply still_queued_frame.
      unfold read_shutdown_requested. frame.
    + intros [|].
      * intros w HI. exact HI.
      * apply keeps_bind; [apply poll_cycle_still_queued | intros _; exact IH].
Qed.

End PoisonJob.

(** C10. A queue message whose body decodes to an object without a
    "record_id" is, on every delivery, counted as an error and never
    deleted: [process_message] logs the error and returns [False], [main]
    adds one to the error counter and sends no delete request, and the
    queue is as it was.  So the message stays on the queue for as long as
    the worker runs, to be delivered again, where a job for a lost record
    (C8) is deleted. *)
Theorem job_without_record_id_is_never_deleted :
  forall (L : PyLib) (E : Env) (m : sqs_message) (d : list (pystr * json)),
    py_json_loads (JStr (Body m)) = Ret (JDict d) ->
    assoc (u "record_id") d = None ->
    (forall w : World,
        let w' := snd (handle_message m w) in
        fst (process_message m w) = Ret false
        /\ fst (handle_message m w) = Ret tt
        /\ In (ERROR, "Message missing record_id, skipping"%string) (logs w')
        /\ error_count w' = S (error_count w)
        /\ processed_count w' = processed_count w
        /\ deleted w' = deleted w
        /\ queue w' = queue w)
    /\ (forall (fuel : nat) (w : World),
           NoDup (map ReceiptHandle (queue w)) ->
           In m (queue w) ->
           In m (queue (snd (worker_loop fuel w)))).
Proof.
  intros L E m d Hbody Hnone.
  assert (Hfalse : forall w, fst (process_message m w) = Ret false).
  { intro w. rewrite (process_message_without_id _ w Hbody Hnone). reflexivity. }
  split.
  - intros w w'. subst w'.
    destruct (handle_message_nack_effects _ _ (Hfalse w))
      as (Hret & Hdel & Hq & Herr & Hproc).
    split; [apply Hfalse |]. split; [exact Hret |].
    split; [| repeat split; assumption].
    rewrite (handle_message_nack _ _ (Hfalse w)).
    rewrite (process_message_without_id _ w Hbody Hnone). simpl.
    apply in_or_app. right. left. reflexivity.
  - intros fuel w Hnodup Hin.
    pose proof (worker_loop_still_queued (m := m) (held := queue w)
                  Hnodup Hin Hfalse fuel) as Hkeeps.
    destruct (Hkeeps w) as [Hstill _]; [| exact Hstill].
    split; [exact Hin | apply incl_refl].
Qed.

(** A message whose body has no "record_id", alone on the queue, seen by
    three poll cycles. *)
Lemma job_without_record_id_is_never_deleted_witness :
  let L := Run.lib [Run.job_without_id] in
  let E := Run.worker_env Run.no_fault Run.no_signal in
  let m := Run.message "rh-2" Run.job_without_id in
  let w := Run.initial [] [m] in
  In m (queue (snd (@worker_loop L E 3 w)))
  /\ error_count (snd (@handle_message L E m w)) = 1
  /\ deleted (snd (@handle_message L E m w)) = [].
Proof.
  intros L E m w.
  destruct (@job_without_record_id_is_never_deleted L E m
              [(u "user_id", JStr (u "u1")); (u "emotion", JStr (u "neutral"))])
    as [Hdelivery Hloop].
  - vm_compute. reflexivity.
  - vm_compute. reflexivity.
  - split.
    + apply Hloop.
      * simpl. constructor; [intros [] | constructor].
      * left. reflexivity.
    + destruct (Hdelivery w) as (_ & _ & _ & Herr & _ & Hdel & _).
      split; [exact Herr | exact Hdel].
Defined.

(* ===================================================================== *)
(** * The worker: shutdown *)
(* ===================================================================== *)

Section Shutdown.
Context {L : PyLib} {E : Env}.

(** A checkpoint: one tick, then the flag as it is now. *)
Lemma read_shutdown_requested_run (w : World) :
  read_shutdown_requested w = (Ret (shutdown_requested (tock w)), tock w).
Proof. reflexivity. Qed.

Lemma read_shutdown_requested_preserves {X} (f : World -> X) :
  ignores_clock f -> preserves f read_shutdown_requested.
Proof. intro H. unfold read_shutdown_requested. frame. Qed.

(** Once set, the flag is read set. *)
Lemma read_shutdown_requested_latched (w : World) :
  shutdown_requested w = true ->
  read_shutdown_requested w = (Ret true, tock w).
Proof.
  intro H. rewrite read_shutdown_requested_run.
  rewrite shutdown_requested_tock, H. reflexivity.
Qed.

(** The loop goes through the jobs it handles one after the other. *)
Lemma for_messages_app (done rest : list sqs_message) :
  forall w w1 : World,
    handled_all done w = Some w1 ->
    for_messages (done ++ rest) w = for_messages rest w1.
Proof.
  induction done as [| m done IH]; intros w w1 H; simpl in *.
  - injection H as <-. reflexivity.
  - rewrite (bind_run _ (read_shutdown_requested_run w)).
    destruct (shutdown_requested (tock w)); [discriminate |].
    unfold bind.
    destruct (handle_message m (tock w)) as [[[] | e] w2]; [| discriminate].
    apply IH, H.
Qed.

(** The flag is read set at the check before a job: [break]. *)
Lemma for_messages_break (next : sqs_message) (rest : list sqs_message)
      (w : World) :
  fst (read_shutdown_requested w) = Ret true ->
  for_messages (next :: rest) w
  = (Ret tt, snd (log INFO "Shutdown requested, stopping processing" (tock w))).
Proof.
  intro H. simpl. unfold bind.
  rewrite read_shutdown_requested_run in *. simpl in H.
  injection H as ->. reflexivity.
Qed.

Lemma handle_message_ack_count (m : sqs_message) (w : World) :
  fst (process_message m w) = Ret true ->
  fst (handle_message m w) = Ret tt ->
  processed_count (snd (handle_message m w)) = S (processed_count w).
Proof.
  intros Htrue. rewrite (handle_message_true_run _ _ Htrue).
  pose proof (process_message_processed_count m w) as Hproc.
  set (w1 := snd (process_message m w)) in *.
  pose proof (delete_sqs_message_preserves (f := processed_count)
                (h := ReceiptHandle m)
                ignores_clock_processed_count
                (ignores_request_processed_count _)
                (fun _ _ => eq_refl) w1) as Hp.
  unfold bind.
  destruct (delete_sqs_message (ReceiptHandle m) w1) as [[[] | e] w2];
    simpl in *; [| discriminate].
  intros _. rewrite Hp, Hproc. reflexivity.
Qed.

(** What the handled jobs have done to the delete requests and to the two
    counters. *)
Lemma handled_all_effects (done : list sqs_message) :
  forall w w1 : World,
    handled_all done w = Some w1 ->
    deleted w1 = deleted w ++ map ReceiptHandle (completed_jobs done w)
    /\ processed_count w1
       = processed_count w + List.length (completed_jobs done w)
    /\ error_count w1 + List.length (completed_jobs done w)
       = error_count w + List.length done.
Proof.
  induction done as [| m done IH]; intros w w1 H; simpl in *.
  - injection H as <-. rewrite app_nil_r. repeat split; lia.
  - pose proof (read_shutdown_requested_preserves ignores_clock_deleted w) as Hd.
    pose proof (read_shutdown_requested_preserves ignores_clock_processed_count w)
      as Hp.
    pose proof (read_shutdown_requested_preserves ignores_clock_error_count w)
      as He.
    rewrite read_shutdown_requested_run in Hd, Hp, He. simpl in Hd, Hp, He.
    destruct (shutdown_requested (tock w)); [discriminate |].
    set (wr := tock w) in *.
    destruct (process_message_returns m wr) as [[|] Hb]; rewrite Hb.
    + destruct (handle_message_ack _ _ Hb) as [Hack Herr].
      pose proof (handle_message_ack_count _ _ Hb) as Hcount.
      destruct (handle_message m wr) as [[[] | e] w2]; try discriminate.
      simpl in *. specialize (Hcount eq_refl).
      destruct (IH _ _ H) as (IHd & IHp & IHe).
      rewrite IHd, IHp, Hack, Hcount, Hd, Hp. rewrite <- app_assoc. simpl.
      repeat split; lia.
    + destruct (handle_message_nack_effects _ _ Hb)
        as (_ & Hdel & _ & Herr & Hproc).
      destruct (handle_message m wr) as [[[] | e] w2]; try discriminate.
      simpl in *.
      destruct (IH _ _ H) as (IHd & IHp & IHe).
      rewrite IHd, IHp, Hdel, Hproc, Hd, Hp.
      repeat split; lia.
Qed.

(** The [while] loop ends only right after a checkpoint at the top of a
    cycle has read the flag set. *)
Lemma worker_loop_ends_at_checkpoint (fuel : nat) :
  forall w w' : World,
    worker_loop fuel w = (Ret true, w') ->
    exists w0, read_shutdown_requested w0 = (Ret true, w').
Proof.
  induction fuel as [| fuel IH]; intros w w' H; simpl in H.
  - discriminate.
  - unfold bind at 1 in H.
    destruct (read_shutdown_requested w) as [[[|] | e] wr] eqn:Hread;
      try discriminate.
    + injection H as <-. exists w. exact Hread.
    + unfold bind at 1 in H.
      destruct (poll_cycle wr) as [[[] | e] wc]; try discriminate.
      apply (IH _ _ H).
Qed.

End Shutdown.

(** ** Nothing but the two checkpoints looks at the flag *)

Section FlagBlind.

Lemma flag_blind_ret {A} (a : A) : flag_blind (ret a).
Proof. intro w. reflexivity. Qed.

Lemma flag_blind_raise {A} (e : exn) : flag_blind (@raise A e).
Proof. intro w. reflexivity. Qed.

Lemma flag_blind_lift {A} (o : outcome A) : flag_blind (lift o).
Proof. intro w. reflexivity. Qed.

Lemma flag_blind_log (l : level) (msg : string) : flag_blind (log l msg).
Proof. intro w. reflexivity. Qed.

Lemma flag_blind_gets {A} (g : World -> A) :
  (forall w, g (with_shutdown_requested w true) = g w) -> flag_blind (gets g).
Proof. intros Hg w. unfold gets. rewrite Hg. reflexivity. Qed.

Lemma flag_blind_modify (g : World -> World) :
  (forall w, g (with_shutdown_requested w true)
             = with_shutdown_requested (g w) true) ->
  flag_blind (modify g).
Proof. intros Hg w. unfold modify. rewrite Hg. reflexivity. Qed.

Lemma flag_blind_bind {A B} (c : M A) (k : A -> M B) :
  flag_blind c -> (forall a, flag_blind (k a)) -> flag_blind (bind c k).
Proof.
  intros Hc Hk w. unfold bind. rewrite Hc.
  destruct (c w) as [[a | e] w1]; simpl; [apply Hk | reflexivity].
Qed.

Lemma flag_blind_try_catch {A} (c : M A) (h : exn -> M A) :
  flag_blind c -> (forall e, flag_blind (h e)) -> flag_blind (try_catch c h).
Proof.
  intros Hc Hh w. unfold try_catch. rewrite Hc.
  destruct (c w) as [[a | e] w1]; simpl; [reflexivity | apply Hh].
Qed.

Lemma flag_blind_try_except {A} (c : M A) (cl : exn -> bool) (h : exn -> M A) :
  flag_blind c -> (forall e, flag_blind (h e)) -> flag_blind (try_except c cl h).
Proof.
  intros Hc Hh. apply flag_blind_try_catch; [exact Hc |].
  intro e. destruct (cl e); [apply Hh | apply flag_blind_raise].
Qed.

Context {E : Env}.

Lemma flag_blind_touch : flag_blind touch.
Proof.
  intro w. unfold touch, tock. simpl.
  destruct (signal (tick w)); reflexivity.
Qed.

Lemma flag_blind_now : flag_blind now.
Proof.
  apply flag_blind_bind; [apply flag_blind_touch | intro t; apply flag_blind_ret].
Qed.

Lemma flag_blind_step (r : request) : flag_blind (step r).
Proof.
  unfold step. apply flag_blind_bind; [apply flag_blind_touch | intro t].
  apply flag_blind_bind; [| intros _; apply flag_blind_ret].
  apply flag_blind_modify. intro w. reflexivity.
Qed.

Lemma flag_blind_call (r : request) : flag_blind (call r).
Proof.
  unfold call. apply flag_blind_bind; [apply flag_blind_step | intro t].
  destruct (fault t); [apply flag_blind_raise | apply flag_blind_ret].
Qed.

End FlagBlind.

Create HintDb blind.
#[export] Hint Resolve flag_blind_ret flag_blind_raise flag_blind_lift
  flag_blind_log flag_blind_touch flag_blind_now flag_blind_step
  flag_blind_call : blind.
#[export] Hint Extern 1 (flag_blind (modify _)) =>
  apply flag_blind_modify; intro; reflexivity : blind.
#[export] Hint Extern 1 (flag_blind (gets _)) =>
  apply flag_blind_gets; intro; reflexivity : blind.

Ltac blind :=
  repeat first
    [ solve [auto with blind]
    | apply flag_blind_bind; [| intro]
    | apply flag_blind_try_except; [| intro]
    | apply flag_blind_try_catch; [| intro]
    | match goal with
      | |- flag_blind (match ?x with _ => _ end) => destruct x
      | |- flag_blind (if ?b then _ else _) => destruct b
      end ].

Section Checkpoints.
Context {L : PyLib} {E : Env}.

(** A job runs to its end whether or not shutdown has been requested. *)
Lemma handle_message_flag_blind (m : sqs_message) : flag_blind (handle_message m).
Proof.
  unfold handle_message, process_message, process_message_body, generate,
    upload_to_s3, update_dynamodb, delete_sqs_message.
  blind.
Qed.

Lemma completed_jobs_incl (done : list sqs_message) :
  forall w, incl (completed_jobs done w) done.
Proof.
  induction done as [| m done IH]; intro w; simpl.
  - apply incl_refl.
  - destruct (fst (process_message m (tock w))) as [[|] | e].
    + apply incl_cons; [left; reflexivity | apply incl_tl, IH].
    + apply incl_tl, IH.
    + apply incl_tl, IH.
Qed.

Lemma handle_message_queue (m : sqs_message) (w : World) :
  queue (snd (handle_message m w)) = queue w
  \/ queue (snd (handle_message m w)) = sqs_delete (ReceiptHandle m) (queue w).
Proof.
  destruct (process_message_returns m w) as [[|] Hb].
  - rewrite (handle_message_true_run _ _ Hb). unfold bind.
    pose proof (delete_sqs_message_queue (ReceiptHandle m)
                  (snd (process_message m w))) as Hd.
    rewrite (process_message_queue m w) in Hd.
    destruct (delete_sqs_message (ReceiptHandle m) (snd (process_message m w)))
      as [[[] | e] w2]; simpl in *; rewrite Hd; destruct (fault _); auto.
  - left. apply (handle_message_nack_effects _ _ Hb).
Qed.

(** A job whose receipt handle is none of those of the handled jobs is
    still on the queue. *)
Lemma handled_all_queue (done : list sqs_message) (x : sqs_message) :
  ~ In (ReceiptHandle x) (map ReceiptHandle done) ->
  forall w w1 : World,
    handled_all done w = Some w1 -> In x (queue w) -> In x (queue w1).
Proof.
  induction done as [| m done IH]; intros Hx w w1 H Hin; simpl in *.
  - injection H as <-. exact Hin.
  - destruct (shutdown_requested (tock w)); [discriminate |].
    pose proof (handle_message_queue m (tock w)) as Hq.
    destruct (handle_message m (tock w)) as [[[] | e] w2]; [| discriminate].
    simpl in Hq. apply (IH (fun H' => Hx (or_intror H')) _ _ H).
    destruct Hq as [-> | ->].
    + rewrite queue_tock. exact Hin.
    + rewrite queue_tock. unfold sqs_delete. apply filter_In.
      split; [exact Hin |].
      destruct (pystr_eqb (ReceiptHandle x) (ReceiptHandle m)) eqn:Heq;
        [| reflexivity].
      apply pystr_eqb_eq in Heq. exfalso. apply Hx. left. symmetry. exact Heq.
Qed.

End Checkpoints.



(* ===================================================================== *)
(** * The two stages, end to end *)
(* ===================================================================== *)

(** The input of user "u1" arrives while the inference SDK is unavailable.
    The stream consumer stores the fallback analysis and enqueues a job
    with the emotion "neutral"; the worker processes the job, uploads the
    canvas, completes the record and deletes the job; a signal then ends
    its loop. *)
Example end_to_end_with_inference_unavailable :
  let L := Run.lib [Run.input_u1; Run.the_secret; Run.job "rec-0" "neutral"] in
  let E := Run.env (Run.local_config Run.queue_url false) Run.no_fault
                   Run.no_reply (fun t => Nat.eqb t 20) in
  let stored := snd (@handler L E (Run.event_of [Run.record_u1]) (Run.initial [] [])) in
  let done := @main L E 3 stored in
  map Body (queue stored) = [Run.dumps (Run.job "rec-0" "neutral")]
  /\ map (fun it => (assoc (u "Emotion") it, assoc (u "SentimentScore") it,
                     assoc (u "IsFallback") it, assoc (u "AsciiStatus") it))
         (table stored)
     = [(Some (JStr (u "neutral")), Some (JInt 50), Some (JBool true),
         Some (JStr (u "pending")))]
  /\ fst done = Ret Returned
  /\ queue (snd done) = []
  /\ processed_count (snd done) = 1
  /\ map Key (bucket (snd done)) = [u "ascii-art/u1/2026/11/03/rec-0.txt"]
  /\ map (fun it => (assoc (u "AsciiStatus") it, assoc (u "AsciiUrl") it))
         (table (snd done))
     = [(Some (JStr (u "completed")),
         Some (JStr (u "http://localhost:4566/sentient-planner-bucket/ascii-art/u1/2026/11/03/rec-0.txt")))].
Proof.
  vm_compute. repeat split.
Qed.

(* ===================================================================== *)
(** * Further properties of the stream consumer *)
(* ===================================================================== *)

Section SecretsCache.
Context {L : PyLib} {E : Env}.

(** When [get_secrets] returns, the cache holds what it returned. *)
Lemma get_secrets_returns_cache (w w' : World) (secrets : json) :
  get_secrets w = (Ret secrets, w') -> secrets_cache w' = secrets.
Proof.
  unfold get_secrets. unfold_monad. simpl. intro H.
  destruct (secrets_cache w) eqn:Hc;
    try (inversion H; subst; exact Hc).
  split_run H; inversion H; subst; reflexivity.
Qed.

(** With a cache that is not [None] nothing is done. *)
Lemma get_secrets_cache_hit (w : World) :
  secrets_cache w <> JNull -> get_secrets w = (Ret (secrets_cache w), w).
Proof.
  intro H. unfold get_secrets, gets, bind.
  destruct (secrets_cache w); [contradiction | reflexivity ..].
Qed.

(** With an empty cache the request is sent. *)
Lemma get_secrets_cache_miss (w : World) :
  secrets_cache w = JNull ->
  trace (snd (get_secrets w)) = trace w ++ [GetSecretValue (SECRETS_NAME config)].
Proof.
  intro H. unfold get_secrets. unfold_monad. simpl. rewrite H.
  repeat (match goal with
          | |- context [match ?o with Ret _ => _ | Raise _ => _ end] => destruct o
          | |- context [match ?o with Some _ => _ | None => _ end] => destruct o
          | |- context [if ?b then _ else _] => destruct b
          end; simpl);
    autorewrite with world; reflexivity.
Qed.

Lemma get_secrets_raises_cache (w w' : World) (e : exn) :
  get_secrets w = (Raise e, w') -> secrets_cache w' = JNull.
Proof.
  unfold get_secrets. unfold_monad. simpl. intro H.
  destruct (secrets_cache w) eqn:Hc; try discriminate.
  split_run H; inversion H; subst; simpl;
    autorewrite with world; exact Hc.
Qed.

End SecretsCache.

(** X1.  Once [get_secrets] has returned a value other than [None], a
    later call in any state that holds this cache returns the same value
    and does nothing else: no request, no log record, no tick. *)
Theorem get_secrets_fetches_once :
  forall (L : PyLib) (E : Env) (w w' : World) (secrets : json),
    get_secrets w = (Ret secrets, w') ->
    secrets <> JNull ->
    forall w2 : World,
      secrets_cache w2 = secrets_cache w' ->
      get_secrets w2 = (Ret secrets, w2).
Proof.
  intros L E w w' secrets Hrun Hne w2 Hcache.
  rewrite (get_secrets_returns_cache _ Hrun) in Hcache.
  rewrite <- Hcache. apply get_secrets_cache_hit.
  rewrite Hcache. exact Hne.
Qed.

Lemma get_secrets_fetches_once_witness :
  let L := Run.lib [Run.the_secret] in
  let E := Run.env (Run.local_config Run.queue_url false) Run.no_fault
                   Run.no_reply Run.no_signal in
  let w' := snd (@get_secrets L E (Run.initial [] [])) in
  @get_secrets L E w' = (Ret Run.the_secret, w').
Proof.
  intros L E w'.
  apply (@get_secrets_fetches_once L E (Run.initial [] []) w' Run.the_secret).
  - vm_compute. reflexivity.
  - discriminate.
  - reflexivity.
Defined.

(** X2.  A fetch that raises leaves the cache empty, so the next call sends
    the request to the secrets store again. *)
Theorem get_secrets_failure_is_not_cached :
  forall (L : PyLib) (E : Env) (w w' : World) (e : exn),
    get_secrets w = (Raise e, w') ->
    secrets_cache w' = JNull
    /\ trace (snd (get_secrets w'))
       = trace w' ++ [GetSecretValue (SECRETS_NAME config)].
Proof.
  intros L E w w' e Hrun.
  pose proof (get_secrets_raises_cache _ Hrun) as Hc.
  split; [exact Hc | apply get_secrets_cache_miss; exact Hc].
Qed.

Lemma get_secrets_failure_is_not_cached_witness :
  let L := Run.lib [Run.the_secret] in
  let E := Run.env (Run.local_config Run.queue_url false)
                   (fun t => if Nat.eqb t 0 then Some ClientError else None)
                   Run.no_reply Run.no_signal in
  let w' := snd (@get_secrets L E (Run.initial [] [])) in
  secrets_cache w' = JNull
  /\ trace (snd (@get_secrets L E w'))
     = trace w' ++ [GetSecretValue (SECRETS_NAME (@config E))].
Proof.
  intros L E w'.
  apply (@get_secrets_failure_is_not_cached L E (Run.initial [] []) w' ClientError).
  vm_compute. reflexivity.
Defined.

Section Analysis.
Context {L : PyLib} {E : Env}.

Lemma fallback_payload_has_required_fields :
  has_required_fields fallback_payload = true.
Proof. vm_compute. reflexivity. Qed.

Lemma call_gemini_api_returns (user_text api_key : json) (w : World) :
  exists result,
    fst (call_gemini_api user_text api_key w) = Ret result
    /\ has_required_fields result = true.
Proof.
  rewrite call_gemini_api_value. eexists. split; [reflexivity |].
  destruct (inference_reply_at w) as [| e | e | text | result];
    try apply fallback_payload_has_required_fields.
  destruct (has_required_fields result) eqn:H;
    [exact H | apply fallback_payload_has_required_fields].
Qed.

Lemma has_required_fields_emotion (result : json) :
  has_required_fields result = true ->
  exists d emotion score plan,
    result = JDict d
    /\ assoc (u "emotion") d = Some emotion
    /\ assoc (u "sentiment_score") d = Some score
    /\ assoc (u "weekly_plan") d = Some plan.
Proof.
  destruct result as [| b | z | f | s | l | d]; try discriminate.
  unfold has_required_fields, required_fields. simpl. intro H.
  destruct (assoc (u "emotion") d) as [emotion |] eqn:He; [| discriminate].
  destruct (assoc (u "sentiment_score") d) as [score |] eqn:Hs; [| discriminate].
  destruct (assoc (u "weekly_plan") d) as [plan |] eqn:Hp; [| discriminate].
  exists d, emotion, score, plan. auto.
Qed.

End Analysis.

(** X3.  [call_gemini_api] never raises, and what it returns is always an
    object that has the fields emotion, sentiment_score and weekly_plan:
    the reply of the model when it is such an object, the fallback payload
    otherwise. *)
Theorem call_gemini_api_always_returns_an_analysis :
  forall (L : PyLib) (E : Env) (user_text api_key : json) (w : World),
  exists (d : list (pystr * json)) (emotion score plan : json),
    fst (call_gemini_api user_text api_key w) = Ret (JDict d)
    /\ assoc (u "emotion") d = Some emotion
    /\ assoc (u "sentiment_score") d = Some score
    /\ assoc (u "weekly_plan") d = Some plan.
Proof.
  intros L E user_text api_key w.
  destruct (call_gemini_api_returns user_text api_key w) as (result & Hrun & Hreq).
  destruct (has_required_fields_emotion _ Hreq)
    as (d & emotion & score & plan & -> & He & Hs & Hp).
  exists d, emotion, score, plan. auto.
Qed.

Section RecordExits.
Context {L : PyLib} {E : Env}.

(** A skipped record leaves at the [continue] before anything is sent. *)
Lemma handler_record_skipped_run (record : json) (w : World) :
  is_skipped record = true ->
  fst (handler_record record w) = Ret (Skipped, JStr (uuid4 (tick w)))
  /\ trace (snd (handler_record record w)) = trace w
  /\ table (snd (handler_record record w)) = table w
  /\ queue (snd (handler_record record w)) = queue w.
Proof.
  unfold is_skipped. intro H.
  destruct (decode_record record) as [input | e] eqn:Hdec; [| discriminate].
  destruct input as [| b | z | f | s | l | d]; try discriminate.
  simpl in H.
  unfold handler_record, parse_kinesis_record.
  unfold_monad. simpl. rewrite Hdec. simpl.
  destruct (truthy match assoc (u "text") d with
                   | Some x => x
                   | None => JStr (u "")
                   end); [discriminate |].
  simpl. autorewrite with world. auto.
Qed.

(** The loop body never raises, and it leaves at the [continue] exactly for
    the records that [is_skipped] describes. *)
Lemma handler_record_exit (record : json) (w : World) :
  exists x,
    fst (handler_record record w) = Ret (x, JStr (uuid4 (tick w)))
    /\ (x = Skipped <-> is_skipped record = true).
Proof.
  destruct (is_skipped record) eqn:Hskip.
  - exists Skipped. split; [apply handler_record_skipped_run; exact Hskip | tauto].
  - assert (Hgoal : exists x,
               fst (handler_record record w) = Ret (x, JStr (uuid4 (tick w)))
               /\ x <> Skipped).
    { unfold is_skipped in Hskip.
      unfold handler_record, parse_kinesis_record.
      unfold_monad. simpl.
      destruct (decode_record record) as [input | e].
      - destruct input as [| b | z | f | s | l | d];
          try (exists Failed; split; [reflexivity | discriminate]).
        simpl in *.
        destruct (truthy match assoc (u "text") d with
                         | Some x => x
                         | None => JStr (u "")
                         end); [| discriminate].
        simpl.
        repeat (match goal with
                | |- context [match ?o with Ret _ => _ | Raise _ => _ end] =>
                    destruct o
                | |- context [get_secrets ?w0] =>
                    destruct (get_secrets w0) as [[? | ?] ?]
                | |- context [call_gemini_api ?a ?b ?w0] =>
                    destruct (call_gemini_api a b w0) as [[? | ?] ?]
                | |- context [save_to_dynamodb ?a ?b ?c ?d0 ?w0] =>
                    destruct (save_to_dynamodb a b c d0 w0) as [[? | ?] ?]
                | |- context [push_to_sqs ?a ?b ?c ?w0] =>
                    destruct (push_to_sqs a b c w0) as [[? | ?] ?]
                end; simpl);
          first [ exists Processed; split; [reflexivity | discriminate]
                | exists Failed; split; [reflexivity | discriminate] ].
      - destruct (is_key_or_json_error e); simpl;
          exists Failed; (split; [reflexivity | discriminate]). }
    destruct Hgoal as (x & Hrun & Hx).
    exists x. split; [exact Hrun |]. split; [contradiction | discriminate].
Qed.

(** The two counters of the loop count the records that are not skipped. *)
Lemma handler_loop_counts (records : list json) :
  forall (p0 e0 : nat) (w : World),
  exists p e,
    fst (handler_loop records p0 e0 w) = Ret (p, e)
    /\ p + e = p0 + e0
               + List.length (filter (fun r => negb (is_skipped r)) records).
Proof.
  induction records as [| record rest IH]; intros p0 e0 w.
  - exists p0, e0. split; [reflexivity | simpl; lia].
  - simpl. unfold bind.
    destruct (handler_record_exit record w) as (x & Hx & Hskip).
    destruct (handler_record record w) as [o w1]. simpl in Hx. subst o.
    simpl.
    destruct x.
    + destruct (is_skipped record) eqn:Hs;
        [destruct Hskip as [_ Hk]; discriminate (Hk eq_refl) |].
      destruct (IH (S p0) e0 w1) as (p & e & Hrun & Hsum).
      exists p, e. split; [exact Hrun | simpl; lia].
    + destruct Hskip as [Hk _]. rewrite (Hk eq_refl).
      destruct (IH p0 e0 w1) as (p & e & Hrun & Hsum).
      exists p, e. split; [exact Hrun | simpl; lia].
    + destruct (is_skipped record) eqn:Hs;
        [destruct Hskip as [_ Hk]; discriminate (Hk eq_refl) |].
      destruct (IH p0 (S e0) w1) as (p & e & Hrun & Hsum).
      exists p, e. split; [exact Hrun | simpl; lia].
Qed.

End RecordExits.

(** X4.  A stream record that does not decode (no "kinesis" or "data"
    field, data that is not Base64 text, text that is not JSON) is counted
    as an error for that record, and nothing has been sent for it: no
    request, no item stored, no job enqueued. *)
Theorem handler_record_undecodable :
  forall (L : PyLib) (E : Env) (record : json) (w : World) (e : exn),
    decode_record record = Raise e ->
    fst (handler_record record w) = Ret (Failed, JStr (uuid4 (tick w)))
    /\ trace (snd (handler_record record w)) = trace w
    /\ table (snd (handler_record record w)) = table w
    /\ queue (snd (handler_record record w)) = queue w.
Proof.
  intros L E record w e H. unfold handler_record, parse_kinesis_record.
  unfold_monad. simpl. rewrite H.
  destruct (is_key_or_json_error e); simpl;
    autorewrite with world; auto.
Qed.

(** A record without the field "kinesis" ([KeyError]), and one whose data
    is the Base64 text of [not json] ([JSONDecodeError]). *)
Lemma handler_record_undecodable_witness :
  let L := Run.lib [Run.input_u1] in
  let E := Run.env (Run.local_config Run.queue_url false) Run.no_fault
                   Run.no_reply Run.no_signal in
  let no_kinesis := JDict [(u "eventID", JStr (u "1"))] in
  let not_json :=
    JDict [(u "kinesis", JDict [(u "data", JStr (u "bm90IGpzb24="))])] in
  let w := Run.initial [] [] in
  (fst (@handler_record L E no_kinesis w) = Ret (Failed, JStr (@uuid4 E (tick w)))
   /\ trace (snd (@handler_record L E no_kinesis w)) = trace w
   /\ table (snd (@handler_record L E no_kinesis w)) = table w
   /\ queue (snd (@handler_record L E no_kinesis w)) = queue w)
  /\ (fst (@handler_record L E not_json w) = Ret (Failed, JStr (@uuid4 E (tick w)))
      /\ trace (snd (@handler_record L E not_json w)) = trace w
      /\ table (snd (@handler_record L E not_json w)) = table w
      /\ queue (snd (@handler_record L E not_json w)) = queue w).
Proof.
  intros L E no_kinesis not_json w. split.
  - apply (@handler_record_undecodable L E no_kinesis w KeyError).
    vm_compute. reflexivity.
  - apply (@handler_record_undecodable L E not_json w JSONDecodeError).
    vm_compute. reflexivity.
Defined.

(** X5.  [handler] leaves the loop body at the [continue] exactly for the
    records that decode to an object whose "text" is missing, empty or any
    other false value; for such a record nothing is sent, stored or
    enqueued. *)
Theorem handler_record_skips_empty_text :
  forall (L : PyLib) (E : Env) (record : json) (w : World),
    (fst (handler_record record w) = Ret (Skipped, JStr (uuid4 (tick w)))
     <-> is_skipped record = true)
    /\ (is_skipped record = true ->
        trace (snd (handler_record record w)) = trace w
        /\ table (snd (handler_record record w)) = table w
        /\ queue (snd (handler_record record w)) = queue w).
Proof.
  intros L E record w. split; [split |].
  - intro H. destruct (handler_record_exit record w) as (x & Hx & Hskip).
    rewrite Hx in H. inversion H; subst. apply Hskip. reflexivity.
  - intro H. apply handler_record_skipped_run. exact H.
  - intro H. apply handler_record_skipped_run. exact H.
Qed.

Lemma handler_record_skips_empty_text_witness :
  let L := Run.lib [JDict [(u "userId", JStr (u "u1"))]] in
  let E := Run.env (Run.local_config Run.queue_url false) Run.no_fault
                   Run.no_reply Run.no_signal in
  let record :=
    JDict [(u "kinesis", JDict [(u "data", JStr (u "eyJ1c2VySWQiOiAidTEifQ=="))])] in
  let w := Run.initial [] [] in
  @is_skipped L record = true
  /\ fst (@handler_record L E record w) = Ret (Skipped, JStr (@uuid4 E (tick w)))
  /\ trace (snd (@handler_record L E record w)) = trace w.
Proof.
  intros L E record w.
  assert (Hskip : @is_skipped L record = true) by (vm_compute; reflexivity).
  destruct (@handler_record_skips_empty_text L E record w) as [[_ Hrun] Heff].
  split; [exact Hskip |].
  split; [exact (Hrun Hskip) | exact (proj1 (Heff Hskip))].
Defined.

(** X6.  The counts in the response of [handler] account for every record
    of the batch that is not skipped: processed + errors is the number of
    records that are not skipped for empty text. *)
Theorem handler_counts_every_record :
  forall (L : PyLib) (E : Env) (event : json) (records : list json) (w : World),
    py_get event (u "Records") (JList []) = Ret (JList records) ->
    exists processed errors,
      fst (handler event w) = Ret (batch_response processed errors)
      /\ processed + errors
         = List.length (filter (fun r => negb (is_skipped r)) records).
Proof.
  intros L E event records w Hget.
  unfold handler. unfold_monad. rewrite Hget. simpl.
  match goal with
  | |- context [handler_loop records 0 0 ?w0] =>
      destruct (handler_loop_counts records 0 0 w0) as (p & e & Hrun & Hsum);
      destruct (handler_loop records 0 0 w0) as [o w1]
  end.
  simpl in Hrun. subst o.
  exists p, e. split; [reflexivity | exact Hsum].
Qed.

Lemma handler_counts_every_record_witness :
  let L := Run.lib [Run.input_u1; Run.the_secret; JDict [(u "userId", JStr (u "u1"))]] in
  let E := Run.env (Run.local_config Run.queue_url false) Run.no_fault
                   Run.no_reply Run.no_signal in
  let skipped :=
    JDict [(u "kinesis", JDict [(u "data", JStr (u "eyJ1c2VySWQiOiAidTEifQ=="))])] in
  let records := [Run.record_u1; skipped; JNull] in
  exists processed errors,
    fst (@handler L E (Run.event_of records) (Run.initial [] []))
    = Ret (@batch_response L processed errors)
    /\ processed + errors
       = List.length (filter (fun r => negb (@is_skipped L r)) records).
Proof.
  intros L E skipped records.
  apply (@handler_counts_every_record L E (Run.event_of records) records
           (Run.initial [] [])).
  reflexivity.
Defined.

Section OneWrite.
Context {L : PyLib} {E : Env}.
Variable rid : json.

Lemma writes_once_of_preserves {A} (c : M A) :
  preserves table c -> writes_once rid c.
Proof. intros H w. left. apply H. Qed.

Lemma writes_once_bind_l {A B} (m : M A) (k : A -> M B) :
  preserves table m -> (forall a, writes_once rid (k a)) ->
  writes_once rid (bind m k).
Proof.
  intros Hm Hk w. unfold bind. specialize (Hm w).
  destruct (m w) as [[a | e] w1]; simpl in Hm.
  - rewrite <- Hm. apply Hk.
  - left. exact Hm.
Qed.

Lemma writes_once_bind_r {A B} (m : M A) (k : A -> M B) :
  writes_once rid m -> (forall a, preserves table (k a)) ->
  writes_once rid (bind m k).
Proof.
  intros Hm Hk w. unfold bind. specialize (Hm w).
  destruct (m w) as [[a | e] w1]; simpl in Hm.
  - rewrite (Hk a w1). exact Hm.
  - exact Hm.
Qed.

Lemma writes_once_try_catch {A} (m : M A) (h : exn -> M A) :
  writes_once rid m -> (forall e, preserves table (h e)) ->
  writes_once rid (try_catch m h).
Proof.
  intros Hm Hh w. unfold try_catch. specialize (Hm w).
  destruct (m w) as [[a | e] w1]; simpl in Hm.
  - exact Hm.
  - rewrite (Hh e w1). exact Hm.
Qed.

Lemma save_to_dynamodb_writes_once (user_id user_text analysis : json) :
  writes_once rid (save_to_dynamodb user_id rid user_text analysis).
Proof.
  intro w.
  destruct (save_to_dynamodb user_id rid user_text analysis w)
    as [[[] | e] w'] eqn:H; simpl.
  - destruct (save_to_dynamodb_returns _ _ _ _ _ H)
      as (text & emotion & score & plan & fb & _ & Ht).
    right. eexists. split; [exact Ht |]. repeat split; reflexivity.
  - left. apply (save_to_dynamodb_raises _ _ _ _ _ H).
Qed.

End OneWrite.

Section OneRecord.
Context {L : PyLib} {E : Env}.

Lemma handler_record_writes_once (record : json) (w : World) :
  one_pending_write (JStr (uuid4 (tick w))) (table w)
                    (table (snd (handler_record record w))).
Proof.
  unfold handler_record, touch, bind at 1.
  set (rid := JStr (uuid4 (tick w))).
  rewrite <- (table_tock w). generalize (tock w).
  apply writes_once_try_catch; [| intro; frame].
  apply writes_once_bind_l; [frame | intro input].
  apply writes_once_bind_l; [frame | intro user_text].
  apply writes_once_bind_l; [frame | intro user_id].
  destruct (negb (truthy user_text)).
  - apply writes_once_of_preserves. frame.
  - apply writes_once_bind_l; [frame | intro].
    apply writes_once_bind_l; [frame | intro].
    apply writes_once_bind_l; [frame | intro secrets].
    apply writes_once_bind_l; [frame | intro key].
    apply writes_once_bind_l; [frame | intro analysis].
    apply writes_once_bind_r; [apply save_to_dynamodb_writes_once |].
    intro. frame.
Qed.

Lemma py_int_raises (v : json) (e : exn) :
  py_int v = Raise e -> is_boto_error e = false.
Proof.
  destruct v as [| b | z | f | s | l | d]; simpl; intro H;
    try discriminate; try (inversion H; reflexivity).
  - destruct f; simpl in H; try discriminate; inversion H; reflexivity.
  - destruct (int_of_str s); [discriminate | inversion H; reflexivity].
Qed.

(** The conversion of the score comes before the request: when it raises,
    [save_to_dynamodb] raises the same exception and has sent nothing. *)
Lemma save_to_dynamodb_score (user_id record_id : json) (text : pystr)
      (d : list (pystr * json)) (raw : json) (e : exn) (w : World) :
  assoc (u "sentiment_score") d = Some raw ->
  py_int raw = Raise e ->
  save_to_dynamodb user_id record_id (JStr text) (JDict d) w = (Raise e, tock w).
Proof.
  intros Hraw Hint. pose proof (py_int_raises _ Hint) as Hboto.
  unfold save_to_dynamodb. unfold_monad. simpl.
  rewrite Hraw, Hint, Hboto. reflexivity.
Qed.

Lemma get_secrets_queue : preserves queue get_secrets.
Proof. unfold get_secrets. frame. Qed.

Lemma call_gemini_api_queue (user_text api_key : json) :
  preserves queue (call_gemini_api user_text api_key).
Proof.
  unfold call_gemini_api, get_fallback_response.
  frame; apply check_required_preserves.
Qed.

Lemma save_to_dynamodb_queue (user_id record_id user_text analysis : json) :
  preserves queue (save_to_dynamodb user_id record_id user_text analysis).
Proof. unfold save_to_dynamodb. frame. Qed.

Lemma queue_at_get_secrets (w : World) : queue (at_get_secrets w) = queue w.
Proof. unfold at_get_secrets. simpl. apply queue_tock. Qed.

Lemma fifo_url_not_empty (url : pystr) :
  str_contains (u ".fifo") url = true -> url <> [].
Proof. intros H ->. vm_compute in H. discriminate. Qed.

(** [push_to_sqs] on a FIFO queue, for a user that is text, with the send
    request answered. *)
Lemma push_to_sqs_sent (record_id emotion : json) (uid : pystr) (w : World) :
  str_contains (u ".fifo") (SQS_QUEUE_URL config) = true ->
  fault (S (tick w)) = None ->
  let user_id := JStr uid in
  let body := json_dumps (job_message record_id emotion user_id (clock (tick w))) in
  fst (push_to_sqs record_id emotion user_id w) = Ret true
  /\ queue (snd (push_to_sqs record_id emotion user_id w))
     = queue w ++ [mkMessage (new_handle (S (tick w))) body]
  /\ trace (snd (push_to_sqs record_id emotion user_id w))
     = trace w ++ [SendMessage body user_id]
  /\ table (snd (push_to_sqs record_id emotion user_id w)) = table w.
Proof.
  intros Hfifo Hfault user_id body. unfold push_to_sqs.
  pose proof (fifo_url_not_empty Hfifo) as Hurl.
  rewrite Hfifo.
  destruct (SQS_QUEUE_URL config) as [| c url] eqn:Hq; [contradiction |].
  simpl negb. cbv iota.
  unfold_monad. simpl. autorewrite with world. rewrite Hfault. simpl.
  autorewrite with world. repeat split; reflexivity.
Qed.

(** The group that [send_message] is given is text only for a user that is
    text, on a FIFO queue. *)
Lemma message_group_is_text (user_id : json) :
  (exists g, (if str_contains (u ".fifo") (SQS_QUEUE_URL config)
              then user_id else JNull) = JStr g)
  <-> str_contains (u ".fifo") (SQS_QUEUE_URL config) = true
      /\ exists uid, user_id = JStr uid.
Proof.
  destruct (str_contains (u ".fifo") (SQS_QUEUE_URL config)); split.
  - intros [g ->]. split; [reflexivity | exists g; reflexivity].
  - intros [_ [uid ->]]. exists uid. reflexivity.
  - intros [g H]. discriminate.
  - intros [H _]. discriminate.
Qed.

(** A send that the client refuses before sending: [push_to_sqs] returns
    [False] and no request has left the process. *)
Lemma push_to_sqs_refused_by_client (record_id emotion user_id : json) (w : World) :
  ~ (str_contains (u ".fifo") (SQS_QUEUE_URL config) = true
     /\ exists uid, user_id = JStr uid) ->
  fst (push_to_sqs record_id emotion user_id w) = Ret false
  /\ queue (snd (push_to_sqs record_id emotion user_id w)) = queue w
  /\ trace (snd (push_to_sqs record_id emotion user_id w)) = trace w
  /\ table (snd (push_to_sqs record_id emotion user_id w)) = table w.
Proof.
  intro Hnot. unfold push_to_sqs.
  destruct (negb (truthy (JStr (SQS_QUEUE_URL config))));
    [repeat split; reflexivity |].
  assert (Hgroup : forall g,
             (if str_contains (u ".fifo") (SQS_QUEUE_URL config)
              then user_id else JNull) <> JStr g).
  { intros g Hg. apply Hnot. apply message_group_is_text. exists g. exact Hg. }
  unfold_monad. simpl.
  destruct (if str_contains (u ".fifo") (SQS_QUEUE_URL config)
            then user_id else JNull) as [| b | z | f | g | l | d];
    try (simpl; autorewrite with world; repeat split; reflexivity).
  exfalso. apply (Hgroup g). reflexivity.
Qed.

End OneRecord.

(** X7.  Whatever the record and whatever fails, one pass through the loop
    body of [handler] writes the table at most once: the table is as it
    was, or it has received one item, with status "pending", no URL, and
    the record identifier drawn for this pass. *)
Theorem handler_record_writes_at_most_one_record :
  forall (L : PyLib) (E : Env) (record : json) (w : World),
    let after := table (snd (handler_record record w)) in
    after = table w
    \/ exists it : item,
         after = ddb_put it (table w)
         /\ assoc (u "AsciiStatus") it = Some (JStr (u "pending"))
         /\ assoc (u "AsciiUrl") it = Some JNull
         /\ assoc (u "RecordId") it = Some (JStr (uuid4 (tick w))).
Proof.
  intros L E record w. apply (handler_record_writes_once record w).
Qed.

Section SaveFailure.
Context {L : PyLib} {E : Env}.

(** A record whose store write raises ends in the [except] of the loop
    body. *)
Lemma handler_record_save_raises (record input user_id : json) (text : pystr)
      (w : World) (secrets gemini_key analysis : json) (e : exn)
      (w2 w3 w4 : World) :
  decode_record record = Ret input ->
  py_get input (u "text") (JStr (u "")) = Ret (JStr text) ->
  py_get input (u "userId") (JStr (u "anonymous")) = Ret user_id ->
  text <> [] ->
  get_secrets (at_get_secrets w) = (Ret secrets, w2) ->
  py_get secrets (u "GEMINI_KEY") (JStr (u "")) = Ret gemini_key ->
  call_gemini_api (JStr text) gemini_key w2 = (Ret analysis, w3) ->
  save_to_dynamodb user_id (JStr (uuid4 (tick w))) (JStr text) analysis w3
  = (Raise e, w4) ->
  handler_record record w
  = (Ret (Failed, JStr (uuid4 (tick w))),
     snd (log ERROR "Failed to process record" w4)).
Proof.
  intros Hdec Htext Huid Hne Hsec Hkey Hgem Hsave.
  rewrite (handler_record_run _ w Hdec Htext Huid Hne).
  unfold try_catch. fold (at_get_secrets w).
  rewrite (bind_run _ Hsec). unfold lift at 1. rewrite Hkey.
  rewrite (bind_run (m := fun w0 => (Ret gemini_key, w0)) _ (w := w2) eq_refl).
  rewrite (bind_run _ Hgem).
  rewrite (bind_run_raise _ Hsave).
  reflexivity.
Qed.

End SaveFailure.

(** X8.  A reply of the model that has the three required fields is not
    replaced by the fallback when its sentiment_score is a value that
    [int()] cannot convert (null, a list, text that is not a number, NaN):
    [save_to_dynamodb] raises before the write, the record is counted as an
    error, and nothing is stored or enqueued for it. *)
Theorem handler_record_unconvertible_score :
  forall (L : PyLib) (E : Env) (record input user_id : json) (text : pystr)
         (w : World) (secrets gemini_key : json) (d : list (pystr * json))
         (raw : json) (e : exn) (w2 w3 : World),
    decode_record record = Ret input ->
    py_get input (u "text") (JStr (u "")) = Ret (JStr text) ->
    py_get input (u "userId") (JStr (u "anonymous")) = Ret user_id ->
    text <> [] ->
    get_secrets (at_get_secrets w) = (Ret secrets, w2) ->
    py_get secrets (u "GEMINI_KEY") (JStr (u "")) = Ret gemini_key ->
    call_gemini_api (JStr text) gemini_key w2 = (Ret (JDict d), w3) ->
    assoc (u "sentiment_score") d = Some raw ->
    py_int raw = Raise e ->
    fst (handler_record record w) = Ret (Failed, JStr (uuid4 (tick w)))
    /\ table (snd (handler_record record w)) = table w
    /\ queue (snd (handler_record record w)) = queue w.
Proof.
  intros L E record input user_id text w secrets gemini_key d raw e w2 w3
         Hdec Htext Huid Hne Hsec Hkey Hgem Hraw Hint.
  rewrite (handler_record_save_raises _ w Hdec Htext Huid Hne Hsec Hkey Hgem
             (save_to_dynamodb_score _ _ _ _ w3 Hraw Hint)).
  simpl. autorewrite with world.
  split; [reflexivity |]. split.
  - rewrite <- (snd_run Hgem), call_gemini_api_table.
    rewrite <- (snd_run Hsec), get_secrets_table.
    apply table_at_get_secrets.
  - rewrite <- (snd_run Hgem), call_gemini_api_queue.
    rewrite <- (snd_run Hsec), get_secrets_queue.
    apply queue_at_get_secrets.
Qed.

Lemma handler_record_unconvertible_score_witness :
  let reply := [(u "emotion", JStr (u "sad"));
                (u "sentiment_score", JStr (u "high"));
                (u "weekly_plan", JList [])] in
  let L := Run.lib [Run.input_u1; Run.the_secret; JDict reply] in
  let E := Run.env (Run.local_config Run.queue_url true) Run.no_fault
                   (fun _ => Ret (Run.dumps (JDict reply))) Run.no_signal in
  let w := Run.initial [] [] in
  fst (@handler_record L E Run.record_u1 w) = Ret (Failed, JStr (@uuid4 E (tick w)))
  /\ table (snd (@handler_record L E Run.record_u1 w)) = table w
  /\ queue (snd (@handler_record L E Run.record_u1 w)) = queue w.
Proof.
  intros reply L E w.
  pose (r1 := @get_secrets L E (@at_get_secrets E w)).
  pose (r2 := @call_gemini_api L E (JStr (u "I'm overwhelmed but hopeful"))
                               (JStr (u "key-1")) (snd r1)).
  apply (@handler_record_unconvertible_score L E Run.record_u1 Run.input_u1
           (JStr (u "u1")) (u "I'm overwhelmed but hopeful") w
           Run.the_secret (JStr (u "key-1")) reply (JStr (u "high")) ValueError
           (snd r1) (snd r2)).
  - vm_compute. reflexivity.
  - vm_compute. reflexivity.
  - vm_compute. reflexivity.
  - vm_compute. discriminate.
  - vm_compute. reflexivity.
  - vm_compute. reflexivity.
  - vm_compute. reflexivity.
  - vm_compute. reflexivity.
  - vm_compute. reflexivity.
Defined.

Section Dispatch.
Context {L : PyLib} {E : Env}.

(** The three ways in which nothing is enqueued. *)
Lemma push_to_sqs_not_sent (record_id emotion user_id : json) (w : World) :
  ~ (str_contains (u ".fifo") (SQS_QUEUE_URL config) = true
     /\ (exists uid, user_id = JStr uid)
     /\ fault (S (tick w)) = None) ->
  fst (push_to_sqs record_id emotion user_id w) <> Ret true
  /\ queue (snd (push_to_sqs record_id emotion user_id w)) = queue w.
Proof.
  intro Hnot.
  assert (Htext : (exists uid, user_id = JStr uid)
                  \/ ~ (exists uid, user_id = JStr uid)).
  { destruct user_id; try (right; intros [uid H]; discriminate).
    left. eexists. reflexivity. }
  destruct (str_contains (u ".fifo") (SQS_QUEUE_URL config)) eqn:Hfifo.
  - destruct Htext as [[uid ->] | Hnotext].
    + unfold push_to_sqs. rewrite Hfifo.
      pose proof (fifo_url_not_empty Hfifo) as Hurl.
      destruct (SQS_QUEUE_URL config) as [| c url]; [contradiction |].
      simpl negb. cbv iota.
      unfold_monad. simpl. autorewrite with world.
      destruct (fault (S (tick w))) as [e |].
      * simpl. destruct (is_boto_error e); simpl; autorewrite with world;
          (split; [discriminate | reflexivity]).
      * exfalso. apply Hnot. split; [reflexivity |].
        split; [exists uid; reflexivity | reflexivity].
    + destruct (@push_to_sqs_refused_by_client L E record_id emotion user_id w)
        as (Hrun & Hq & _).
      * intros [_ H]. contradiction.
      * rewrite Hrun. split; [discriminate | exact Hq].
  - destruct (@push_to_sqs_refused_by_client L E record_id emotion user_id w)
      as (Hrun & Hq & _).
    + rewrite Hfifo. intros [H _]. discriminate.
    + rewrite Hrun. split; [discriminate | exact Hq].
Qed.

End Dispatch.

(** X9.  [push_to_sqs] returns [True] exactly when the queue URL contains
    ".fifo", the user is text and the send request is answered; the queue
    has then received one message, whose body is [json.dumps] of the record
    identifier, the user, the emotion and the time of the call, sent with
    the user as its group.  In every other case the queue is as it was.  On
    a queue whose URL does not contain ".fifo" the call passes
    [MessageGroupId=None], which the client refuses before it sends
    anything: [push_to_sqs] returns [False] and no request is sent. *)
Theorem push_to_sqs_enqueues_one_job :
  forall (L : PyLib) (E : Env) (record_id emotion user_id : json) (w : World),
    let r := push_to_sqs record_id emotion user_id w in
    let body := json_dumps (job_message record_id emotion user_id (clock (tick w))) in
    let fifo := str_contains (u ".fifo") (SQS_QUEUE_URL config) in
    (fst r = Ret true
     <-> fifo = true /\ (exists uid, user_id = JStr uid)
         /\ fault (S (tick w)) = None)
    /\ (fst r = Ret true ->
        queue (snd r) = queue w ++ [mkMessage (new_handle (S (tick w))) body]
        /\ trace (snd r) = trace w ++ [SendMessage body user_id])
    /\ (fst r <> Ret true -> queue (snd r) = queue w)
    /\ (fifo = false -> fst r = Ret false /\ trace (snd r) = trace w).
Proof.
  intros L E record_id emotion user_id w r body fifo. subst r body fifo.
  assert (Hcases :
            (str_contains (u ".fifo") (SQS_QUEUE_URL config) = true
             /\ (exists uid, user_id = JStr uid)
             /\ fault (S (tick w)) = None)
            \/ ~ (str_contains (u ".fifo") (SQS_QUEUE_URL config) = true
                  /\ (exists uid, user_id = JStr uid)
                  /\ fault (S (tick w)) = None)).
  { destruct (str_contains (u ".fifo") (SQS_QUEUE_URL config));
      [| right; intros [H _]; discriminate].
    destruct (fault (S (tick w)));
      [right; intros (_ & _ & H); discriminate |].
    destruct user_id; try (right; intros (_ & [uid H] & _); discriminate).
    left. split; [reflexivity |]. split; [eexists |]; reflexivity. }
  assert (Hstandard :
            str_contains (u ".fifo") (SQS_QUEUE_URL config) = false ->
            fst (push_to_sqs record_id emotion user_id w) = Ret false
            /\ trace (snd (push_to_sqs record_id emotion user_id w)) = trace w).
  { intro Hfifo.
    destruct (@push_to_sqs_refused_by_client L E record_id emotion user_id w)
      as (Hrun & _ & Htrace & _).
    - rewrite Hfifo. intros [H _]. discriminate.
    - split; assumption. }
  destruct Hcases as [(Hfifo & [uid ->] & Hf) | Hnot].
  - destruct (push_to_sqs_sent record_id emotion uid w Hfifo Hf)
      as (Hrun & Hqueue & Htrace & _).
    split; [split; [intros _ | intros _; exact Hrun] |].
    { split; [exact Hfifo |]. split; [exists uid; reflexivity | exact Hf]. }
    split; [intros _; split; [exact Hqueue | exact Htrace] |].
    split; [intro H; contradiction | exact Hstandard].
  - destruct (@push_to_sqs_not_sent L E record_id emotion user_id w Hnot)
      as [Hne Hqueue].
    split; [split; [intro H; contradiction | intro H; contradiction] |].
    split; [intro H; contradiction |].
    split; [intros _; exact Hqueue | exact Hstandard].
Qed.

(** On a FIFO queue the job is enqueued; on a standard queue, with every
    request answered, nothing is sent. *)
Lemma push_to_sqs_enqueues_one_job_witness :
  let L := Run.lib [] in
  let fifo := Run.env (Run.local_config Run.queue_url false) Run.no_fault
                      Run.no_reply Run.no_signal in
  let standard :=
    Run.env (Run.local_config (u "http://localhost:4566/000000000000/ascii-jobs")
                              false)
            Run.no_fault Run.no_reply Run.no_signal in
  let w := Run.initial [] [] in
  let sent := @push_to_sqs L fifo (JStr (u "rec-0")) (JStr (u "sad"))
                           (JStr (u "u1")) w in
  let refused := @push_to_sqs L standard (JStr (u "rec-0")) (JStr (u "sad"))
                              (JStr (u "u1")) w in
  (fst sent = Ret true
   /\ queue (snd sent)
      = [mkMessage (u "rh-1")
           (Run.dumps (JDict [(u "record_id", JStr (u "rec-0"));
                              (u "user_id", JStr (u "u1"));
                              (u "emotion", JStr (u "sad"));
                              (u "timestamp",
                               JStr (u "2026-11-03T08:00:00+00:00"))]))])
  /\ (fst refused = Ret false /\ trace (snd refused) = []).
Proof.
  intros L fifo standard w sent refused. split.
  - destruct (@push_to_sqs_enqueues_one_job L fifo (JStr (u "rec-0"))
                (JStr (u "sad")) (JStr (u "u1")) w) as [[_ Htrue] [Hqueue _]].
    assert (Hrun : fst sent = Ret true).
    { apply Htrue. split; [vm_compute; reflexivity |].
      split; [exists (u "u1"); reflexivity | reflexivity]. }
    split; [exact Hrun |].
    unfold sent in *. rewrite (proj1 (Hqueue Hrun)). vm_compute. reflexivity.
  - destruct (@push_to_sqs_enqueues_one_job L standard (JStr (u "rec-0"))
                (JStr (u "sad")) (JStr (u "u1")) w) as (_ & _ & _ & Hstandard).
    apply Hstandard. vm_compute. reflexivity.
Defined.

Section Correlation.
Context {L : PyLib} {E : Env}.

(** The item that [save_to_dynamodb] has written when it returns, attribute
    by attribute. *)
Lemma save_to_dynamodb_record (user_id record_id : json) (text : pystr)
      (d : list (pystr * json)) (w w' : World) :
  save_to_dynamodb user_id record_id (JStr text) (JDict d) w = (Ret tt, w') ->
  let get k default := match assoc k d with Some x => x | None => default end in
  exists score,
    py_int (get (u "sentiment_score") (JInt 50)) = Ret score
    /\ table w'
       = ddb_put (plan_record user_id (JStr (isoformat (clock (tick w)))) record_id
                              (JStr (slice_to 10000 text))
                              (get (u "emotion") (JStr (u "unknown"))) score
                              (get (u "weekly_plan") (JList []))
                              (get (u "_fallback") (JBool false)))
                 (table w).
Proof.
  unfold save_to_dynamodb. unfold_monad. simpl. intro H.
  split_run H; inversion H; subst; clear H; simpl;
    autorewrite with world; eauto.
Qed.

(** A record whose store write returned ends at the bottom of the [try]
    once the dispatch has returned, whatever it returned. *)
Lemma handler_record_processed_run (record input user_id : json) (text : pystr)
      (w : World) (secrets gemini_key : json) (d : list (pystr * json))
      (emotion : json) (sent : bool) (w2 w3 w4 w5 : World) :
  decode_record record = Ret input ->
  py_get input (u "text") (JStr (u "")) = Ret (JStr text) ->
  py_get input (u "userId") (JStr (u "anonymous")) = Ret user_id ->
  text <> [] ->
  get_secrets (at_get_secrets w) = (Ret secrets, w2) ->
  py_get secrets (u "GEMINI_KEY") (JStr (u "")) = Ret gemini_key ->
  call_gemini_api (JStr text) gemini_key w2 = (Ret (JDict d), w3) ->
  save_to_dynamodb user_id (JStr (uuid4 (tick w))) (JStr text) (JDict d) w3
  = (Ret tt, w4) ->
  assoc (u "emotion") d = Some emotion ->
  push_to_sqs (JStr (uuid4 (tick w))) emotion user_id w4 = (Ret sent, w5) ->
  handler_record record w
  = (Ret (Processed, JStr (uuid4 (tick w))),
     snd (log INFO "Successfully processed record" w5)).
Proof.
  intros Hdec Htext Huid Hne Hsec Hkey Hgem Hsave Hemo Hpush.
  rewrite (handler_record_run _ w Hdec Htext Huid Hne).
  unfold try_catch. fold (at_get_secrets w).
  rewrite (bind_run _ Hsec). unfold lift at 1. rewrite Hkey.
  rewrite (bind_run (m := fun w0 => (Ret gemini_key, w0)) _ (w := w2) eq_refl).
  rewrite (bind_run _ Hgem).
  rewrite (bind_run _ Hsave).
  unfold py_get. rewrite Hemo. unfold lift at 1.
  rewrite (bind_run (m := fun w0 => (Ret emotion, w0)) _ (w := w4) eq_refl).
  rewrite (bind_run _ Hpush).
  reflexivity.
Qed.

Lemma In_ddb_put (it : item) (tbl : list item) : In it (ddb_put it tbl).
Proof. unfold ddb_put. apply in_or_app. right. left. reflexivity. Qed.

Lemma item_has_str (it : item) (k s : pystr) :
  assoc k it = Some (JStr s) -> item_has it k (JStr s) = true.
Proof.
  intro H. unfold item_has. rewrite H. simpl. apply pystr_eqb_refl.
Qed.

End Correlation.

(** X10.  For a record that is stored and whose job is sent (the queue is
    a FIFO queue, the user is text, the send request is answered), the job
    on the queue names the record in the table: the same record identifier,
    the same user, and the emotion stored with the record. *)
Theorem handler_record_job_names_the_record :
  forall (L : PyLib) (E : Env) (record input : json) (text uid : pystr)
         (w : World) (secrets gemini_key analysis : json) (w2 w3 w4 : World),
    let user_id := JStr uid in
    decode_record record = Ret input ->
    py_get input (u "text") (JStr (u "")) = Ret (JStr text) ->
    py_get input (u "userId") (JStr (u "anonymous")) = Ret user_id ->
    text <> [] ->
    get_secrets (at_get_secrets w) = (Ret secrets, w2) ->
    py_get secrets (u "GEMINI_KEY") (JStr (u "")) = Ret gemini_key ->
    call_gemini_api (JStr text) gemini_key w2 = (Ret analysis, w3) ->
    save_to_dynamodb user_id (JStr (uuid4 (tick w))) (JStr text) analysis w3
    = (Ret tt, w4) ->
    str_contains (u ".fifo") (SQS_QUEUE_URL config) = true ->
    fault (S (tick w4)) = None ->
    let record_id := JStr (uuid4 (tick w)) in
    exists (it : item) (emotion : json),
      fst (handler_record record w) = Ret (Processed, record_id)
      /\ table (snd (handler_record record w)) = ddb_put it (table w)
      /\ assoc (u "RecordId") it = Some record_id
      /\ assoc (u "UserId") it = Some user_id
      /\ assoc (u "Emotion") it = Some emotion
      /\ queue (snd (handler_record record w))
         = queue w
           ++ [mkMessage (new_handle (S (tick w4)))
                 (json_dumps (job_message record_id emotion user_id
                                          (clock (tick w4))))].
Proof.
  intros L E record input text uid w secrets gemini_key analysis w2 w3 w4
         user_id Hdec Htext Huid Hne Hsec Hkey Hgem Hsave Hfifo Hfault record_id.
  destruct (call_gemini_api_returns (JStr text) gemini_key w2)
    as (result & Hres & Hreq).
  rewrite Hgem in Hres. simpl in Hres. injection Hres as <-.
  destruct (has_required_fields_emotion _ Hreq)
    as (d & emotion & score0 & plan & -> & Hemo & _ & _).
  destruct (save_to_dynamodb_record _ _ _ _ _ Hsave) as (score & _ & Htable).
  rewrite Hemo in Htable.
  destruct (push_to_sqs_sent record_id emotion uid w4 Hfifo Hfault)
    as (Hsent & Hqueue & _ & Hpt).
  fold user_id in Hsent, Hqueue, Hpt.
  destruct (push_to_sqs record_id emotion user_id w4) as [o w5] eqn:Hpush.
  simpl in Hsent, Hqueue, Hpt. subst o.
  assert (Htab : table w3 = table w).
  { rewrite <- (snd_run Hgem), call_gemini_api_table.
    rewrite <- (snd_run Hsec), get_secrets_table.
    apply table_at_get_secrets. }
  assert (Hq : queue w4 = queue w).
  { rewrite <- (snd_run Hsave), save_to_dynamodb_queue.
    rewrite <- (snd_run Hgem), call_gemini_api_queue.
    rewrite <- (snd_run Hsec), get_secrets_queue.
    apply queue_at_get_secrets. }
  rewrite (handler_record_processed_run _ w Hdec Htext Huid Hne Hsec Hkey Hgem
             Hsave Hemo Hpush).
  eexists. exists emotion. simpl.
  split; [reflexivity |].
  split; [rewrite Hpt, Htable, Htab; reflexivity |].
  split; [reflexivity |]. split; [reflexivity |]. split; [reflexivity |].
  rewrite Hqueue, Hq. reflexivity.
Qed.

Lemma handler_record_job_names_the_record_witness :
  let L := Run.lib [Run.input_u1; Run.the_secret] in
  let E := Run.env (Run.local_config Run.queue_url false) Run.no_fault
                   Run.no_reply Run.no_signal in
  let w := Run.initial [] [] in
  exists (it : item) (emotion : json),
    fst (@handler_record L E Run.record_u1 w) = Ret (Processed, JStr (@uuid4 E 0))
    /\ table (snd (@handler_record L E Run.record_u1 w)) = ddb_put it (table w)
    /\ assoc (u "RecordId") it = Some (JStr (@uuid4 E 0))
    /\ assoc (u "UserId") it = Some (JStr (u "u1"))
    /\ assoc (u "Emotion") it = Some emotion
    /\ queue (snd (@handler_record L E Run.record_u1 w))
       = queue w
         ++ [mkMessage (@new_handle E 5)
               (@json_dumps L (job_message (JStr (@uuid4 E 0)) emotion
                                           (JStr (u "u1")) (@clock E 4)))].
Proof.
  intros L E w.
  pose (r1 := @get_secrets L E (@at_get_secrets E w)).
  pose (r2 := @call_gemini_api L E (JStr (u "I'm overwhelmed but hopeful"))
                               (JStr (u "key-1")) (snd r1)).
  pose (r3 := @save_to_dynamodb L E (JStr (u "u1")) (JStr (@uuid4 E 0))
                                (JStr (u "I'm overwhelmed but hopeful"))
                                fallback_payload (snd r2)).
  apply (@handler_record_job_names_the_record L E Run.record_u1 Run.input_u1
           (u "I'm overwhelmed but hopeful") (u "u1") w
           Run.the_secret (JStr (u "key-1")) fallback_payload
           (snd r1) (snd r2) (snd r3)).
  - vm_compute. reflexivity.
  - vm_compute. reflexivity.
  - vm_compute. reflexivity.
  - vm_compute. discriminate.
  - vm_compute. reflexivity.
  - vm_compute. reflexivity.
  - vm_compute. reflexivity.
  - vm_compute. reflexivity.
  - vm_compute. reflexivity.
  - vm_compute. reflexivity.
Defined.

(** X11.  Store, then look up: the record that [save_to_dynamodb] has
    written for a user and a record identifier that are strings is among
    the items that the query of [update_dynamodb] (partition key UserId,
    filter RecordId) returns, and it is pending. *)
Theorem saved_record_is_found_by_query :
  forall (L : PyLib) (E : Env) (uid rid : pystr) (user_text analysis : json)
         (w w' : World),
    save_to_dynamodb (JStr uid) (JStr rid) user_text analysis w = (Ret tt, w') ->
    exists it : item,
      In it (ddb_query (JStr uid) (JStr rid) (table w'))
      /\ assoc (u "AsciiStatus") it = Some (JStr (u "pending"))
      /\ assoc (u "AsciiUrl") it = Some JNull.
Proof.
  intros L E uid rid user_text analysis w w' Hsave.
  destruct (save_to_dynamodb_returns _ _ _ _ _ Hsave)
    as (text & emotion & score & plan & fb & _ & Htable).
  exists (plan_record (JStr uid) (JStr (isoformat (clock (tick w)))) (JStr rid)
                      text emotion score plan fb).
  split; [| split; reflexivity].
  rewrite Htable. unfold ddb_query. apply filter_In.
  split; [apply In_ddb_put |].
  rewrite !item_has_str; reflexivity.
Qed.

Lemma saved_record_is_found_by_query_witness :
  let L := Run.lib [] in
  let E := Run.env (Run.local_config Run.queue_url false) Run.no_fault
                   Run.no_reply Run.no_signal in
  let w' := snd (@save_to_dynamodb L E (JStr (u "u1")) (JStr (u "rec-0"))
                   (JStr (u "hello")) fallback_payload (Run.initial [] [])) in
  exists it : item,
    In it (ddb_query (JStr (u "u1")) (JStr (u "rec-0")) (table w'))
    /\ assoc (u "AsciiStatus") it = Some (JStr (u "pending"))
    /\ assoc (u "AsciiUrl") it = Some JNull.
Proof.
  intros L E w'.
  apply (@saved_record_is_found_by_query L E (u "u1") (u "rec-0")
           (JStr (u "hello")) fallback_payload (Run.initial [] []) w').
  vm_compute. reflexivity.
Defined.

(* ===================================================================== *)
(** * Further properties of the artifact worker *)
(* ===================================================================== *)

Lemma assoc_set_attr_same (k : pystr) (v : json) (it : item) :
  assoc k (set_attr k v it) = Some v.
Proof.
  induction it as [| [k' v'] it IH]; simpl.
  - rewrite pystr_eqb_refl. reflexivity.
  - destruct (pystr_eqb k k') eqn:Hk; simpl.
    + rewrite pystr_eqb_refl. reflexivity.
    + rewrite Hk. exact IH.
Qed.

Lemma assoc_set_attr_other (k k0 : pystr) (v : json) (it : item) :
  pystr_eqb k0 k = false -> assoc k0 (set_attr k v it) = assoc k0 it.
Proof.
  intro Hne. induction it as [| [k' v'] it IH]; simpl.
  - rewrite Hne. reflexivity.
  - destruct (pystr_eqb k k') eqn:Hk; simpl.
    + apply pystr_eqb_eq in Hk. subst k'. rewrite Hne. reflexivity.
    + rewrite IH. reflexivity.
Qed.

Lemma backfill_status (url generated_at : pystr) (it : item) :
  assoc (u "AsciiStatus") (set_attrs (backfill url generated_at) it)
  = Some (JStr (u "completed")).
Proof.
  unfold set_attrs, backfill. simpl.
  rewrite assoc_set_attr_other by (vm_compute; reflexivity).
  apply assoc_set_attr_same.
Qed.

Lemma backfill_url (url generated_at : pystr) (it : item) :
  assoc (u "AsciiUrl") (set_attrs (backfill url generated_at) it)
  = Some (JStr url).
Proof.
  unfold set_attrs, backfill. simpl.
  rewrite !assoc_set_attr_other by (vm_compute; reflexivity).
  apply assoc_set_attr_same.
Qed.

(** The SET expression leaves every other attribute as it is. *)
Lemma backfill_other (k : pystr) (url generated_at : pystr) (it : item) :
  pystr_eqb k (u "AsciiUrl") = false ->
  pystr_eqb k (u "AsciiStatus") = false ->
  pystr_eqb k (u "AsciiGeneratedAt") = false ->
  assoc k (set_attrs (backfill url generated_at) it) = assoc k it.
Proof.
  intros H1 H2 H3. unfold set_attrs, backfill. simpl.
  rewrite !assoc_set_attr_other; auto.
Qed.

Lemma has_key_backfill (uid ts : json) (url generated_at : pystr) (it : item) :
  has_key uid ts (set_attrs (backfill url generated_at) it) = has_key uid ts it.
Proof.
  unfold has_key, item_has.
  rewrite !backfill_other by (vm_compute; reflexivity). reflexivity.
Qed.

Lemma has_key_str (su st : pystr) (it : item) :
  assoc (u "UserId") it = Some (JStr su) ->
  assoc (u "Timestamp") it = Some (JStr st) ->
  has_key (JStr su) (JStr st) it = true.
Proof.
  intros Hu Ht. unfold has_key.
  rewrite (item_has_str _ _ Hu), (item_has_str _ _ Ht). reflexivity.
Qed.

Section StoreUpdate.
Variables (uid ts : json) (url generated_at : pystr).

Local Abbreviation sets := (backfill url generated_at).

(** Every item with the key is marked after the update. *)
Lemma ddb_update_marks (tbl : list item) (x : item) :
  In x (ddb_update uid ts sets tbl) ->
  has_key uid ts x = true ->
  assoc (u "AsciiStatus") x = Some (JStr (u "completed"))
  /\ assoc (u "AsciiUrl") x = Some (JStr url).
Proof.
  unfold ddb_update. intros Hin Hkey.
  destruct (existsb (has_key uid ts) tbl) eqn:Hex.
  - apply in_map_iff in Hin. destruct Hin as (y & Hy & Hin).
    destruct (has_key uid ts y) eqn:Hky.
    + subst x. split; [apply backfill_status | apply backfill_url].
    + subst x. congruence.
  - apply in_app_or in Hin. destruct Hin as [Hin | [<- | []]].
    + assert (existsb (has_key uid ts) tbl = true)
        by (apply existsb_exists; exists x; auto).
      congruence.
    + split; [apply backfill_status | apply backfill_url].
Qed.

End StoreUpdate.

Section StoreUpdateStringKey.
Variables (su st url generated_at : pystr).

Local Abbreviation sets := (backfill url generated_at).
Local Abbreviation uid := (JStr su).
Local Abbreviation ts := (JStr st).

(** The items with another key are the ones there were. *)
Lemma ddb_update_others (tbl : list item) (x : item) :
  has_key uid ts x = false ->
  (In x (ddb_update uid ts sets tbl) <-> In x tbl).
Proof.
  unfold ddb_update. intro Hkey.
  destruct (existsb (has_key uid ts) tbl) eqn:Hex; split; intro Hin.
  - apply in_map_iff in Hin. destruct Hin as (y & Hy & Hin).
    destruct (has_key uid ts y) eqn:Hky.
    + subst x. rewrite has_key_backfill in Hkey. congruence.
    + subst x. exact Hin.
  - apply in_map_iff. exists x. rewrite Hkey. auto.
  - apply in_app_or in Hin. destruct Hin as [Hin | [<- | []]]; [exact Hin |].
    rewrite has_key_backfill in Hkey.
    rewrite has_key_str in Hkey by reflexivity. discriminate.
  - apply in_or_app. left. exact Hin.
Qed.

(** An item with the key is replaced by its marked version. *)
Lemma ddb_update_found (tbl : list item) (it : item) :
  In it tbl -> has_key uid ts it = true ->
  In (set_attrs sets it) (ddb_update uid ts sets tbl).
Proof.
  intros Hin Hkey. unfold ddb_update.
  assert (Hex : existsb (has_key uid ts) tbl = true)
    by (apply existsb_exists; exists it; auto).
  rewrite Hex. apply in_map_iff. exists it. rewrite Hkey. auto.
Qed.

Lemma ddb_update_length (tbl : list item) (it : item) :
  In it tbl -> has_key uid ts it = true ->
  List.length (ddb_update uid ts sets tbl) = List.length tbl.
Proof.
  intros Hin Hkey. unfold ddb_update.
  assert (Hex : existsb (has_key uid ts) tbl = true)
    by (apply existsb_exists; exists it; auto).
  rewrite Hex. apply length_map.
Qed.

End StoreUpdateStringKey.

Section Backfill.
Context {L : PyLib} {E : Env}.

(** The lookup is answered and finds an item, and the update request is
    answered: the update is the one for the key of the first item found. *)
Lemma update_dynamodb_found (user_id timestamp record_id : json)
      (ascii_url : pystr) (w : World) (it : item) (rest : list item)
      (uid ts : json) :
  fault (tick w) = None ->
  fault (S (S (tick w))) = None ->
  ddb_query user_id record_id (table w) = it :: rest ->
  assoc (u "UserId") it = Some uid ->
  assoc (u "Timestamp") it = Some ts ->
  let r := update_dynamodb user_id timestamp record_id ascii_url w in
  fst r = Ret tt
  /\ table (snd r)
     = ddb_update uid ts (backfill ascii_url (isoformat (clock (S (tick w)))))
                  (table w)
  /\ trace (snd r)
     = trace w ++ [Query user_id record_id;
                   UpdateItem uid ts ascii_url (isoformat (clock (S (tick w))))].
Proof.
  intros Hq Hu Hquery Huid Hts r. subst r.
  unfold update_dynamodb. unfold_monad. simpl.
  rewrite Hq. simpl. autorewrite with world.
  rewrite Hquery. simpl. rewrite Huid, Hts.
  repeat progress (simpl; autorewrite with world).
  rewrite Hu.
  repeat progress (simpl; autorewrite with world).
  rewrite <- app_assoc. repeat split.
Qed.

(** Whatever happens, [update_dynamodb] leaves the table as it was or
    applies one update with its SET expression. *)
Lemma update_dynamodb_table (user_id timestamp record_id : json)
      (ascii_url : pystr) (w : World) :
  table (snd (update_dynamodb user_id timestamp record_id ascii_url w)) = table w
  \/ exists uid ts generated_at,
       table (snd (update_dynamodb user_id timestamp record_id ascii_url w))
       = ddb_update uid ts (backfill ascii_url generated_at) (table w).
Proof.
  unfold update_dynamodb. unfold_monad. simpl.
  repeat (match goal with
          | |- context [match ?o with Ret _ => _ | Raise _ => _ end] => destruct o
          | |- context [match ?o with Some _ => _ | None => _ end] => destruct o
          | |- context [match ?l with [] => _ | _ :: _ => _ end] => destruct l
          | |- context [if ?b then _ else _] => destruct b
          end; simpl; autorewrite with world);
    repeat progress (simpl; autorewrite with world);
    first [left; reflexivity | right; eauto].
Qed.

Lemma completed_has_url_ddb_update (uid ts : json) (url generated_at : pystr)
      (tbl : list item) :
  url <> [] ->
  completed_has_url tbl ->
  completed_has_url (ddb_update uid ts (backfill url generated_at) tbl).
Proof.
  intros Hurl Hinv x Hin Hstatus.
  destruct (has_key uid ts x) eqn:Hkey.
  - exists url. split; [exact Hurl |].
    apply (ddb_update_marks _ _ _ _ _ _ Hin Hkey).
  - unfold ddb_update in Hin.
    destruct (existsb (has_key uid ts) tbl).
    + apply in_map_iff in Hin. destruct Hin as (y & Hy & Hin).
      destruct (has_key uid ts y) eqn:Hky.
      * subst x. exists url. split; [exact Hurl | apply backfill_url].
      * subst x. apply (Hinv y Hin Hstatus).
    + apply in_app_or in Hin. destruct Hin as [Hin | [<- | []]].
      * apply (Hinv x Hin Hstatus).
      * exists url. split; [exact Hurl | apply backfill_url].
Qed.

Lemma completed_has_url_ddb_put (it : item) (tbl : list item) :
  assoc (u "AsciiStatus") it = Some (JStr (u "pending")) ->
  completed_has_url tbl ->
  completed_has_url (ddb_put it tbl).
Proof.
  intros Hpending Hinv x Hin Hstatus. unfold ddb_put in Hin.
  apply in_app_or in Hin. destruct Hin as [Hin | [<- | []]].
  - apply filter_In in Hin. apply (Hinv x (proj1 Hin) Hstatus).
  - rewrite Hpending in Hstatus. exfalso.
    injection Hstatus as H. revert H. vm_compute. discriminate.
Qed.

Lemma artifact_url_not_empty (key : pystr) : artifact_url (u "ascii-art/" ++ key) <> [].
Proof.
  unfold artifact_url. destruct (IS_LOCAL config); intro H.
  - apply app_eq_nil in H. destruct H as [_ H].
    apply app_eq_nil in H. destruct H as [H _]. revert H. vm_compute. discriminate.
  - apply app_eq_nil in H. destruct H as [H _]. revert H. vm_compute. discriminate.
Qed.

End Backfill.

(** X12.  When the lookup of [update_dynamodb] finds the record and both
    requests are answered, the record found is marked: it has status
    "completed" and the URL, its record identifier and weekly plan are as
    they were, the items under another key are untouched and no item is
    added.  The timestamp that the job carries plays no part. *)
Theorem update_dynamodb_marks_the_record_found :
  forall (E : Env) (user_id timestamp record_id : json)
         (ascii_url : pystr) (w : World) (it : item) (rest : list item)
         (su st : pystr),
    fault (tick w) = None ->
    fault (S (S (tick w))) = None ->
    ddb_query user_id record_id (table w) = it :: rest ->
    assoc (u "UserId") it = Some (JStr su) ->
    assoc (u "Timestamp") it = Some (JStr st) ->
    let r := update_dynamodb user_id timestamp record_id ascii_url w in
    let marked := set_attrs (backfill ascii_url (isoformat (clock (S (tick w))))) it in
    fst r = Ret tt
    /\ In marked (table (snd r))
    /\ assoc (u "AsciiStatus") marked = Some (JStr (u "completed"))
    /\ assoc (u "AsciiUrl") marked = Some (JStr ascii_url)
    /\ assoc (u "RecordId") marked = assoc (u "RecordId") it
    /\ assoc (u "WeeklyPlan") marked = assoc (u "WeeklyPlan") it
    /\ (forall x, has_key (JStr su) (JStr st) x = false ->
                  (In x (table (snd r)) <-> In x (table w)))
    /\ List.length (table (snd r)) = List.length (table w).
Proof.
  intros E user_id timestamp record_id ascii_url w it rest su st
         Hq Hu Hquery Huid Hts r marked.
  destruct (update_dynamodb_found user_id timestamp record_id ascii_url w
              Hq Hu Hquery Huid Hts) as (Hrun & Htable & _).
  fold r in Hrun, Htable.
  assert (Hin : In it (table w)).
  { assert (H : In it (ddb_query user_id record_id (table w)))
      by (rewrite Hquery; left; reflexivity).
    unfold ddb_query in H. apply filter_In in H. apply H. }
  pose proof (has_key_str _ Huid Hts) as Hkey.
  split; [exact Hrun |].
  split; [rewrite Htable; apply ddb_update_found; assumption |].
  split; [apply backfill_status |].
  split; [apply backfill_url |].
  split; [apply backfill_other; vm_compute; reflexivity |].
  split; [apply backfill_other; vm_compute; reflexivity |].
  split.
  - intros x Hx. rewrite Htable. apply ddb_update_others. exact Hx.
  - rewrite Htable. apply (ddb_update_length _ _ _ _ _ _ Hin Hkey).
Qed.

Lemma update_dynamodb_marks_the_record_found_witness :
  let E := Run.worker_env Run.no_fault Run.no_signal in
  let it := Run.stored_record "rec-0" in
  let other := [(u "UserId", JStr (u "u1"));
                (u "Timestamp", JStr (u "2026-11-03T09:30:00+00:00"));
                (u "RecordId", JStr (u "rec-1"));
                (u "AsciiUrl", JNull);
                (u "AsciiStatus", JStr (u "pending"))] in
  let w := Run.initial [other; it] [] in
  let r := @update_dynamodb E (JStr (u "u1")) JNull (JStr (u "rec-0"))
                            (u "https://bucket/key") w in
  fst r = Ret tt
  /\ table (snd r)
     = [other;
        set_attrs (backfill (u "https://bucket/key") (isoformat (@clock E 1))) it].
Proof.
  intros E it other w r.
  destruct (@update_dynamodb_marks_the_record_found E (JStr (u "u1")) JNull
              (JStr (u "rec-0")) (u "https://bucket/key") w it []
              (u "u1") (u "2026-11-03T08:00:02+00:00"))
    as (Hrun & _).
  - reflexivity.
  - reflexivity.
  - vm_compute. reflexivity.
  - vm_compute. reflexivity.
  - vm_compute. reflexivity.
  - split; [exact Hrun | vm_compute; reflexivity].
Defined.

Section CompletedHasUrl.
Context {L : PyLib} {E : Env}.

Local Abbreviation consistent := (fun w : World => completed_has_url (table w)).

Lemma keeps_consistent {A} (c : M A) : preserves table c -> keeps consistent c.
Proof. apply (keeps_of_preserves (f := table) completed_has_url). Qed.

Lemma upload_to_s3_url_not_empty (ascii_art : pystr) (record_id user_id : json)
      (w : World) (url : pystr) :
  fst (upload_to_s3 ascii_art record_id user_id w) = Ret url -> url <> [].
Proof.
  destruct (upload_to_s3 ascii_art record_id user_id w) as [o w'] eqn:Hrun.
  simpl. intros ->.
  destruct (upload_to_s3_returns _ _ _ _ Hrun) as (obj & _ & Hkey & _ & ->).
  rewrite Hkey. unfold artifact_key. apply artifact_url_not_empty.
Qed.

Lemma update_dynamodb_keeps (user_id timestamp record_id : json) (url : pystr) :
  url <> [] ->
  keeps consistent (update_dynamodb user_id timestamp record_id url).
Proof.
  intros Hurl w Hinv.
  destruct (update_dynamodb_table user_id timestamp record_id url w)
    as [-> | (uid & ts & generated_at & ->)];
    [exact Hinv | apply completed_has_url_ddb_update; assumption].
Qed.

Lemma process_message_keeps (m : sqs_message) :
  keeps consistent (process_message m).
Proof.
  unfold process_message, process_message_body.
  apply keeps_try_catch; [| intro; apply keeps_consistent; frame].
  do 5 (apply keeps_bind; [apply keeps_consistent; frame | intro]).
  match goal with |- keeps _ (if ?b then _ else _) => destruct b end.
  - apply keeps_consistent. frame.
  - apply keeps_bind; [apply keeps_consistent; frame | intro].
    apply keeps_bind; [apply keeps_consistent; frame | intro art].
    apply (keeps_bind_value (P := consistent) (fun url : pystr => url <> [])).
    + intros w Hinv. split.
      * apply keeps_consistent; [| exact Hinv].
        apply upload_to_s3_preserves; auto with frame.
      * intro url. apply upload_to_s3_url_not_empty.
    + intros url Hurl.
      apply keeps_bind; [apply update_dynamodb_keeps; exact Hurl | intro].
      apply keeps_consistent. frame.
Qed.

Lemma handle_message_keeps (m : sqs_message) :
  keeps consistent (handle_message m).
Proof.
  unfold handle_message.
  apply keeps_bind; [apply process_message_keeps | intros []].
  - apply keeps_consistent.
    apply preserves_bind; [| intro; frame].
    apply delete_sqs_message_preserves; auto with frame.
  - apply keeps_consistent. frame.
Qed.

Lemma for_messages_keeps (messages : list sqs_message) :
  keeps consistent (for_messages messages).
Proof.
  induction messages as [| m rest IH]; simpl.
  - apply keeps_consistent. frame.
  - apply keeps_bind.
    + apply keeps_consistent, read_shutdown_requested_preserves. auto with frame.
    + intros []; [apply keeps_consistent; frame |].
      apply keeps_bind; [apply handle_message_keeps | intro; exact IH].
Qed.

Lemma poll_cycle_keeps : keeps consistent poll_cycle.
Proof.
  unfold poll_cycle.
  apply keeps_try_catch; [| intro; apply keeps_consistent; frame].
  apply keeps_bind.
  - apply keeps_consistent. unfold poll_sqs_messages. frame.
  - intro messages.
    apply keeps_bind; [apply for_messages_keeps | intro].
    apply keeps_consistent. frame.
Qed.

Lemma worker_loop_keeps (fuel : nat) : keeps consistent (worker_loop fuel).
Proof.
  induction fuel as [| fuel IH]; simpl.
  - apply keeps_consistent. frame.
  - apply keeps_bind.
    + apply keeps_consistent, read_shutdown_requested_preserves. auto with frame.
    + intros []; [apply keeps_consistent; frame |].
      apply keeps_bind; [apply poll_cycle_keeps | intro; exact IH].
Qed.

Lemma main_keeps (fuel : nat) : keeps consistent (main fuel).
Proof.
  unfold main.
  do 8 (apply keeps_bind; [apply keeps_consistent; frame | intro]).
  match goal with |- keeps _ (if ?b then _ else _) => destruct b end.
  - apply keeps_consistent. frame.
  - do 2 (apply keeps_bind; [apply keeps_consistent; frame | intro]).
    apply keeps_bind; [apply worker_loop_keeps | intros []];
      apply keeps_consistent; frame.
Qed.

Lemma handler_record_keeps (record : json) :
  keeps consistent (handler_record record).
Proof.
  intros w Hinv.
  destruct (handler_record_writes_once record w)
    as [-> | (it & -> & Hpending & _)];
    [exact Hinv | apply completed_has_url_ddb_put; assumption].
Qed.

Lemma handler_loop_keeps (records : list json) :
  forall p e, keeps consistent (handler_loop records p e).
Proof.
  induction records as [| record rest IH]; intros p e; simpl.
  - apply keeps_consistent. frame.
  - apply keeps_bind; [apply handler_record_keeps |].
    intro x. destruct (fst x); apply IH.
Qed.

Lemma handler_keeps (event : json) : keeps consistent (handler event).
Proof.
  unfold handler.
  do 5 (apply keeps_bind; [apply keeps_consistent; frame | intro]).
  apply keeps_bind; [apply handler_loop_keeps | intro].
  apply keeps_consistent. frame.
Qed.

End CompletedHasUrl.

(** X13.  Both programs keep the table consistent: if every record marked
    "completed" carries a URL that is not empty, this is still so after
    [handler] has processed any batch and after [main] has run for any
    number of poll cycles, whatever fails on the way. *)
Theorem completed_records_have_a_url :
  forall (L : PyLib) (E : Env) (event : json) (fuel : nat) (w : World),
    completed_has_url (table w) ->
    completed_has_url (table (snd (handler event w)))
    /\ completed_has_url (table (snd (main fuel w))).
Proof.
  intros L E event fuel w Hinv. split.
  - apply handler_keeps, Hinv.
  - apply main_keeps, Hinv.
Qed.

Lemma completed_records_have_a_url_witness :
  let L := Run.lib [Run.input_u1; Run.the_secret; Run.job "rec-0" "happy"] in
  let E := Run.worker_env Run.no_fault (fun t => Nat.eqb t 12) in
  let w := Run.initial [Run.stored_record "rec-0"]
                       [Run.message "rh-0" (Run.job "rec-0" "happy")] in
  completed_has_url (table (snd (@handler L E (Run.event_of [Run.record_u1]) w)))
  /\ completed_has_url (table (snd (@main L E 3 w))).
Proof.
  intros L E w.
  apply (@completed_records_have_a_url L E (Run.event_of [Run.record_u1]) 3 w).
  intros it [<- | []]. vm_compute. discriminate.
Defined.

Section Polling.
Context {E : Env}.

(** A poll that the queue refuses with a client error is an empty poll. *)
Lemma poll_sqs_messages_refused (max_messages wait_time : Z) (w : World) (e : exn) :
  fault (tick w) = Some e ->
  is_boto_error e = true ->
  poll_sqs_messages max_messages wait_time w
  = (Ret [],
     snd (log ERROR "Failed to poll SQS"
            (snd (step (ReceiveMessage max_messages wait_time) w)))).
Proof.
  intros Hf Hb. unfold poll_sqs_messages. unfold_monad. simpl.
  rewrite Hf. simpl. rewrite Hb. reflexivity.
Qed.

Lemma poll_sqs_messages_raises (max_messages wait_time : Z) (w : World) (e : exn) :
  fault (tick w) = Some e ->
  is_boto_error e = false ->
  poll_sqs_messages max_messages wait_time w
  = (Raise e, snd (step (ReceiveMessage max_messages wait_time) w)).
Proof.
  intros Hf Hb. unfold poll_sqs_messages. unfold_monad. simpl.
  rewrite Hf. simpl. rewrite Hb. reflexivity.
Qed.

Lemma poll_sqs_messages_length (max_messages wait_time : Z) (w : World)
      (messages : list sqs_message) :
  fst (poll_sqs_messages max_messages wait_time w) = Ret messages ->
  List.length messages <= Z.to_nat max_messages.
Proof.
  unfold poll_sqs_messages. unfold_monad. simpl.
  destruct (fault (tick w)) as [e |]; simpl.
  - destruct (is_boto_error e); simpl; intro H; [| discriminate].
    injection H as <-. simpl. lia.
  - autorewrite with world.
    match goal with
    | |- context [match ?l with [] => _ | _ :: _ => _ end] =>
        assert (Hlen : List.length l <= Z.to_nat max_messages)
          by apply firstn_le_length;
        destruct l; simpl; intro H; injection H as <-; exact Hlen
    end.
Qed.

End Polling.

(** X14.  [poll_sqs_messages] never changes the queue; what it returns are
    messages of the queue, at most [max_messages] of them; and a poll that
    fails with one of the two client exception classes returns the empty
    list instead of raising. *)
Theorem poll_sqs_messages_delivers_from_the_queue :
  forall (E : Env) (max_messages wait_time : Z) (w : World),
    let r := poll_sqs_messages max_messages wait_time w in
    queue (snd r) = queue w
    /\ (forall messages,
           fst r = Ret messages ->
           List.length messages <= Z.to_nat max_messages
           /\ incl messages (queue w))
    /\ (forall e, fault (tick w) = Some e -> is_boto_error e = true ->
                  fst r = Ret []).
Proof.
  intros E max_messages wait_time w r. subst r.
  destruct (poll_sqs_messages_queue max_messages wait_time w) as [Hq Hincl].
  split; [exact Hq |]. split.
  - intros messages H. split; [| apply Hincl, H].
    apply (poll_sqs_messages_length _ _ _ H).
  - intros e Hf Hb. rewrite (poll_sqs_messages_refused _ _ _ Hf Hb). reflexivity.
Qed.

Lemma poll_sqs_messages_delivers_from_the_queue_witness :
  let E := Run.worker_env (fun t => if Nat.eqb t 0 then Some ClientError else None)
                          Run.no_signal in
  let w := Run.initial [] Run.ten_messages in
  fst (@poll_sqs_messages E 10 10 w) = Ret []
  /\ queue (snd (@poll_sqs_messages E 10 10 w)) = Run.ten_messages.
Proof.
  intros E w.
  destruct (@poll_sqs_messages_delivers_from_the_queue E 10 10 w)
    as (Hq & _ & Hrefused).
  split; [apply (Hrefused ClientError); reflexivity | exact Hq].
Defined.

Section Cycle.
Context {L : PyLib} {E : Env}.

(** The handler of the cycle turns every exception into a pause. *)
Lemma poll_cycle_returns (w : World) : fst (poll_cycle w) = Ret tt.
Proof.
  unfold poll_cycle, try_catch.
  match goal with
  | |- context [let (o, w') := ?c in _] => destruct c as [[[] | e] w1]
  end; reflexivity.
Qed.

Lemma worker_loop_returns (fuel : nat) :
  forall w, exists ended, fst (worker_loop fuel w) = Ret ended.
Proof.
  induction fuel as [| fuel IH]; intro w; simpl.
  - exists false. reflexivity.
  - rewrite (bind_run _ (read_shutdown_requested_run w)).
    destruct (shutdown_requested (tock w)).
    + exists true. reflexivity.
    + unfold bind. pose proof (poll_cycle_returns (tock w)) as Hp.
      destruct (poll_cycle (tock w)) as [o w1]. simpl in Hp. subst o.
      apply IH.
Qed.

Lemma main_returns (fuel : nat) (w : World) :
  exists x, fst (main fuel w) = Ret x.
Proof.
  unfold main. unfold_monad. simpl.
  destruct (SQS_QUEUE_URL config); simpl; [eexists; reflexivity |].
  match goal with
  | |- context [worker_loop fuel ?w0] =>
      destruct (worker_loop_returns fuel w0) as [ended Hrun];
      destruct (worker_loop fuel w0) as [o w1]
  end.
  simpl in Hrun. subst o. destruct ended; eexists; reflexivity.
Qed.

(** A cycle whose poll fails: the pause is one second for a client error,
    which [poll_sqs_messages] has turned into an empty poll, and five for
    any other exception. *)
Lemma poll_cycle_poll_failure (w : World) (e : exn) :
  fault (tick w) = Some e ->
  trace (snd (poll_cycle w))
  = trace w ++ [ReceiveMessage 10 10; Sleep (if is_boto_error e then 1 else 5)]
  /\ processed_count (snd (poll_cycle w)) = processed_count w
  /\ error_count (snd (poll_cycle w)) = error_count w
  /\ queue (snd (poll_cycle w)) = queue w.
Proof.
  intro Hf. unfold poll_cycle, try_catch.
  destruct (is_boto_error e) eqn:Hb.
  - rewrite (bind_run _ (poll_sqs_messages_refused 10 10 w Hf Hb)).
    simpl. unfold_monad. repeat progress (simpl; autorewrite with world).
    rewrite <- app_assoc. repeat split.
  - rewrite (bind_run_raise _ (poll_sqs_messages_raises 10 10 w Hf Hb)).
    simpl. unfold_monad. repeat progress (simpl; autorewrite with world).
    rewrite <- app_assoc. repeat split.
Qed.

End Cycle.

(** X15.  Nothing escapes the loop of [main]: a poll cycle always returns,
    and so does [main] after any number of cycles.  When the poll itself
    fails the cycle sends nothing but the pause: one second after a client
    error (an empty poll for [main]), five seconds after any other
    exception; no job is counted and the queue is as it was. *)
Theorem poll_cycle_survives_every_failure :
  forall (L : PyLib) (E : Env) (fuel : nat) (w : World),
    fst (poll_cycle w) = Ret tt
    /\ (exists x, fst (main fuel w) = Ret x)
    /\ (forall e, fault (tick w) = Some e ->
          trace (snd (poll_cycle w))
          = trace w ++ [ReceiveMessage 10 10;
                        Sleep (if is_boto_error e then 1 else 5)]
          /\ processed_count (snd (poll_cycle w)) = processed_count w
          /\ error_count (snd (poll_cycle w)) = error_count w
          /\ queue (snd (poll_cycle w)) = queue w).
Proof.
  intros L E fuel w.
  split; [apply poll_cycle_returns |].
  split; [apply main_returns |].
  intros e Hf. apply (poll_cycle_poll_failure w Hf).
Qed.

Lemma poll_cycle_survives_every_failure_witness :
  let L := Run.lib [] in
  let E := Run.worker_env (fun t => if Nat.eqb t 0 then Some (OtherException 7)
                                    else None)
                          Run.no_signal in
  let w := Run.initial [] Run.ten_messages in
  trace (snd (@poll_cycle L E w)) = [ReceiveMessage 10 10; Sleep 5]
  /\ queue (snd (@poll_cycle L E w)) = Run.ten_messages.
Proof.
  intros L E w.
  destruct (@poll_cycle_survives_every_failure L E 0 w) as (_ & _ & H).
  destruct (H (OtherException 7) eq_refl) as (Htrace & _ & _ & Hq).
  split; [exact Htrace | exact Hq].
Defined.

Section Acknowledgement.
Context {L : PyLib} {E : Env}.

(** Each pass of the loop body counts at most as many processed jobs as it
    sends delete requests. *)
Lemma handle_message_counts (m : sqs_message) (w : World) :
  processed_count (snd (handle_message m w)) + List.length (deleted w)
  <= processed_count w + List.length (deleted (snd (handle_message m w))).
Proof.
  destruct (process_message_returns m w) as [[|] Hb].
  - destruct (handle_message_ack _ _ Hb) as [Hdel _]. rewrite Hdel.
    rewrite length_app. simpl.
    pose proof (handle_message_delete_outcome _ _ Hb) as H. simpl in H.
    destruct (fault (tick (snd (process_message m w)))) as [e |].
    + destruct H as [_ H]. destruct (is_boto_error e); destruct H as [_ ->]; lia.
    + destruct H as (_ & -> & _). lia.
  - destruct (handle_message_nack_effects _ _ Hb) as (_ & -> & _ & _ & ->). lia.
Qed.

Lemma counts_within_frame {A} (a b : nat) (c : M A) :
  preserves processed_count c -> preserves deleted c ->
  keeps (counts_within a b) c.
Proof.
  intros Hp Hd w H. unfold counts_within in *. rewrite Hp, Hd. exact H.
Qed.

Lemma handle_message_counts_within (a b : nat) (m : sqs_message) :
  keeps (counts_within a b) (handle_message m).
Proof.
  intros w H. unfold counts_within in *.
  pose proof (handle_message_counts m w). lia.
Qed.

Lemma for_messages_counts_within (a b : nat) (messages : list sqs_message) :
  keeps (counts_within a b) (for_messages messages).
Proof.
  induction messages as [| m rest IH]; simpl.
  - apply counts_within_frame; frame.
  - apply keeps_bind.
    + apply counts_within_frame;
        apply read_shutdown_requested_preserves; auto with frame.
    + intros []; [apply counts_within_frame; frame |].
      apply keeps_bind; [apply handle_message_counts_within | intro; exact IH].
Qed.

Lemma poll_cycle_counts_within (a b : nat) : keeps (counts_within a b) poll_cycle.
Proof.
  unfold poll_cycle.
  apply keeps_try_catch; [| intro; apply counts_within_frame; frame].
  apply keeps_bind.
  - apply counts_within_frame; unfold poll_sqs_messages; frame.
  - intro messages.
    apply keeps_bind; [apply for_messages_counts_within | intro].
    apply counts_within_frame; frame.
Qed.

Lemma worker_loop_counts_within (a b : nat) (fuel : nat) :
  keeps (counts_within a b) (worker_loop fuel).
Proof.
  induction fuel as [| fuel IH]; simpl.
  - apply counts_within_frame; frame.
  - apply keeps_bind.
    + apply counts_within_frame;
        apply read_shutdown_requested_preserves; auto with frame.
    + intros []; [apply counts_within_frame; frame |].
      apply keeps_bind; [apply poll_cycle_counts_within | intro; exact IH].
Qed.

End Acknowledgement.

(** X16.  The delete request that follows a completed job can be refused.
    With one of the two client exception classes [delete_sqs_message] only
    logs it: the job is counted as processed although it is still on the
    queue, so it will be delivered and processed again.  With any other
    exception the job is counted neither as processed nor as an error. *)
Theorem refused_delete_is_still_counted :
  forall (L : PyLib) (E : Env) (m : sqs_message) (w : World) (e : exn),
    fst (process_message m w) = Ret true ->
    fault (tick (snd (process_message m w))) = Some e ->
    let w' := snd (handle_message m w) in
    queue w' = queue w
    /\ deleted w' = deleted w ++ [ReceiptHandle m]
    /\ error_count w' = error_count w
    /\ if is_boto_error e
       then fst (handle_message m w) = Ret tt
            /\ processed_count w' = S (processed_count w)
       else fst (handle_message m w) = Raise e
            /\ processed_count w' = processed_count w.
Proof.
  intros L E m w e Hb Hf w'. subst w'.
  pose proof (handle_message_delete_outcome _ _ Hb) as H. simpl in H.
  rewrite Hf in H. destruct H as [Hq H].
  destruct (handle_message_ack _ _ Hb) as [Hdel Herr].
  auto.
Qed.

Lemma refused_delete_is_still_counted_witness :
  let L := Run.lib [Run.job "rec-0" "happy"] in
  let E := Run.worker_env (fun t => if Nat.eqb t 5 then Some ClientError else None)
                          Run.no_signal in
  let m := Run.message "rh-0" (Run.job "rec-0" "happy") in
  let w := Run.initial [] [m] in
  fst (@handle_message L E m w) = Ret tt
  /\ processed_count (snd (@handle_message L E m w)) = 1
  /\ queue (snd (@handle_message L E m w)) = [m].
Proof.
  intros L E m w.
  destruct (@refused_delete_is_still_counted L E m w ClientError)
    as (Hq & _ & _ & Hrun & Hcount).
  - vm_compute. reflexivity.
  - vm_compute. reflexivity.
  - split; [exact Hrun |]. split; [exact Hcount | exact Hq].
Defined.

(** X17.  The processed counter of [main] never runs ahead of the delete
    requests: over any number of poll cycles it grows by at most the number
    of delete requests sent, so the total that [main] reports at shutdown
    is at most the number of jobs it has acknowledged. *)
Theorem processed_count_within_delete_requests :
  forall (L : PyLib) (E : Env) (fuel : nat) (w : World),
    (processed_count (snd (worker_loop fuel w)) + List.length (deleted w)
     <= processed_count w + List.length (deleted (snd (worker_loop fuel w))))
    /\ (SQS_QUEUE_URL config <> [] ->
        processed_count (snd (main fuel w)) + List.length (deleted w)
        <= List.length (deleted (snd (main fuel w)))).
Proof.
  intros L E fuel w. split.
  - pose proof (@worker_loop_counts_within L E (List.length (deleted w))
                  (processed_count w) fuel w) as H.
    unfold counts_within in H. lia.
  - intro Hurl. unfold main. unfold_monad. simpl.
    destruct (SQS_QUEUE_URL config) as [| c url]; [contradiction |]. simpl.
    match goal with
    | |- context [worker_loop fuel ?w0] => set (W0 := w0)
    end.
    assert (H0 : counts_within (List.length (deleted w)) 0 W0).
    { unfold counts_within, deleted. subst W0. simpl. lia. }
    pose proof (@worker_loop_counts_within L E (List.length (deleted w)) 0
                  fuel W0 H0) as H.
    clearbody W0.
    destruct (worker_loop fuel W0) as [[[|] | e] w1];
      unfold counts_within, deleted in *; simpl in *; lia.
Qed.

Lemma processed_count_within_delete_requests_witness :
  let L := Run.lib Run.ten_jobs in
  let E := Run.worker_env Run.no_fault (fun t => Nat.eqb t 40) in
  let w := Run.initial [] Run.ten_messages in
  processed_count (snd (@main L E 3 w)) + List.length (deleted w)
  <= List.length (deleted (snd (@main L E 3 w))).
Proof.
  intros L E w.
  apply (@processed_count_within_delete_requests L E 3 w).
  vm_compute. discriminate.
Defined.

Section EmotionNotText.
Context {L : PyLib} {E : Env}.

(** A job whose emotion is not text makes [generate] raise before anything
    is sent; [process_message] catches it and returns [False]. *)
Lemma process_message_emotion_not_text (m : sqs_message) (d : list (pystr * json))
      (record_id emotion : json) (w : World) :
  py_json_loads (JStr (Body m)) = Ret (JDict d) ->
  assoc (u "record_id") d = Some record_id ->
  truthy record_id = true ->
  assoc (u "emotion") d = Some emotion ->
  (forall s, emotion <> JStr s) ->
  process_message m w
  = (Ret false,
     snd (log ERROR "Failed to process message" (snd (log INFO "Processing" w)))).
Proof.
  intros Hbody Hrid Htruthy Hemo Hnot.
  unfold process_message, process_message_body, try_catch.
  unfold bind at 1, lift at 1. rewrite Hbody.
  unfold bind at 1, lift at 1, py_get at 1. rewrite Hrid.
  unfold bind at 1, lift at 1, py_get at 1. rewrite Hemo.
  unfold bind at 1, lift at 1, py_get at 1.
  unfold bind at 1, lift at 1, py_get at 1.
  rewrite Htruthy. cbv beta iota. unfold negb.
  unfold bind at 1, log at 1.
  unfold bind at 1, generate at 1, bind at 1, lift at 1, py_lower_strip.
  destruct emotion as [| b | z | f | s | l | d']; try reflexivity.
  exfalso. apply (Hnot s). reflexivity.
Qed.

End EmotionNotText.

(** X18.  A job whose "emotion" is present but is not text (null, a number,
    a list) can never be completed: [generate] raises on it before the
    upload, so on every delivery nothing is sent, the job is counted as an
    error and not deleted, and it stays on the queue for as long as the
    worker runs. *)
Theorem job_with_emotion_not_text_is_never_completed :
  forall (L : PyLib) (E : Env) (m : sqs_message) (d : list (pystr * json))
         (record_id emotion : json),
    py_json_loads (JStr (Body m)) = Ret (JDict d) ->
    assoc (u "record_id") d = Some record_id ->
    truthy record_id = true ->
    assoc (u "emotion") d = Some emotion ->
    (forall s, emotion <> JStr s) ->
    (forall w : World,
        let w' := snd (handle_message m w) in
        fst (process_message m w) = Ret false
        /\ trace w' = trace w
        /\ bucket w' = bucket w
        /\ table w' = table w
        /\ queue w' = queue w
        /\ error_count w' = S (error_count w)
        /\ processed_count w' = processed_count w)
    /\ (forall (fuel : nat) (w : World),
           NoDup (map ReceiptHandle (queue w)) ->
           In m (queue w) ->
           In m (queue (snd (worker_loop fuel w)))).
Proof.
  intros L E m d record_id emotion Hbody Hrid Htruthy Hemo Hnot.
  pose proof (fun w => process_message_emotion_not_text m w Hbody Hrid Htruthy
                         Hemo Hnot) as Hrun.
  assert (Hfalse : forall w, fst (process_message m w) = Ret false).
  { intro w. rewrite Hrun. reflexivity. }
  split.
  - intros w w'. subst w'.
    rewrite (handle_message_nack _ _ (Hfalse w)). rewrite Hrun. simpl.
    repeat split.
  - intros fuel w Hnd Hin.
    apply (@worker_loop_still_queued L E m (queue w) Hnd Hin Hfalse fuel w).
    split; [exact Hin | apply incl_refl].
Qed.

Lemma job_with_emotion_not_text_is_never_completed_witness :
  let body := [(u "record_id", JStr (u "rec-0"));
               (u "user_id", JStr (u "u1"));
               (u "emotion", JNull)] in
  let L := Run.lib [JDict body] in
  let E := Run.worker_env Run.no_fault Run.no_signal in
  let m := Run.message "rh-0" (JDict body) in
  let w := Run.initial [] [m] in
  fst (@process_message L E m w) = Ret false
  /\ In m (queue (snd (@worker_loop L E 3 w))).
Proof.
  intros body L E m w.
  destruct (@job_with_emotion_not_text_is_never_completed L E m body
              (JStr (u "rec-0")) JNull) as [Hone Hloop].
  - vm_compute. reflexivity.
  - vm_compute. reflexivity.
  - vm_compute. reflexivity.
  - vm_compute. reflexivity.
  - intros s. discriminate.
  - split; [apply (Hone w) |].
    apply (Hloop 3 w).
    + vm_compute. repeat constructor. intros [].
    + left. reflexivity.
Defined.

Section Startup.
Context {L : PyLib} {E : Env}.

Lemma worker_loop_ended_flag (fuel : nat) (w w' : World) :
  worker_loop fuel w = (Ret true, w') -> shutdown_requested w' = true.
Proof.
  intro H. destruct (@worker_loop_ends_at_checkpoint L E fuel w w' H) as [w0 Hread].
  rewrite read_shutdown_requested_run in Hread.
  injection Hread as Hflag Hw. rewrite <- Hw. exact Hflag.
Qed.

End Startup.

(** X19.  Without a queue URL [main] leaves with exit status 1 before it
    sends anything; with one it never leaves that way, and it returns only
    once the shutdown flag is set. *)
Theorem main_needs_a_queue_url :
  forall (L : PyLib) (E : Env) (fuel : nat) (w : World),
    (SQS_QUEUE_URL config = [] ->
     fst (main fuel w) = Ret (SysExit 1)
     /\ trace (snd (main fuel w)) = trace w
     /\ tick (snd (main fuel w)) = tick w)
    /\ (SQS_QUEUE_URL config <> [] ->
        forall status, fst (main fuel w) <> Ret (SysExit status))
    /\ (fst (main fuel w) = Ret Returned ->
        shutdown_requested (snd (main fuel w)) = true).
Proof.
  intros L E fuel w. unfold main. unfold_monad. simpl.
  destruct (SQS_QUEUE_URL config) as [| c url]; simpl.
  - split; [intros _; repeat split |].
    split; [intro H; contradiction | discriminate].
  - split; [discriminate |].
    match goal with
    | |- context [worker_loop fuel ?w0] =>
        pose proof (@worker_loop_ended_flag L E fuel w0) as Hflag;
        destruct (worker_loop fuel w0) as [[[|] | e] w1]
    end; simpl.
    + split; [intros _ status; discriminate |].
      intros _. apply (Hflag w1). reflexivity.
    + split; [intros _ status; discriminate | discriminate].
    + split; [intros _ status; discriminate | discriminate].
Qed.

Lemma main_needs_a_queue_url_witness :
  let L := Run.lib [] in
  let E := Run.env (Run.local_config [] false) Run.no_fault Run.no_reply
                   Run.no_signal in
  let w := Run.initial [] Run.ten_messages in
  fst (@main L E 5 w) = Ret (SysExit 1)
  /\ trace (snd (@main L E 5 w)) = trace w
  /\ tick (snd (@main L E 5 w)) = tick w.
Proof.
  intros L E w.
  apply (@main_needs_a_queue_url L E 5 w).
  reflexivity.
Defined.

Section Completion.
Context {L : PyLib} {E : Env}.

(** [upload_to_s3] with the store request answered. *)
Lemma upload_to_s3_run (ascii_art : pystr) (record_id user_id : json) (w : World) :
  fault (S (S (tick w))) = None ->
  let key := artifact_key user_id (clock (tick w)) record_id in
  exists (obj : s3_object) (w' : World),
    upload_to_s3 ascii_art record_id user_id w = (Ret (artifact_url key), w')
    /\ Key obj = key
    /\ ObjectBody obj = ascii_art
    /\ bucket w' = s3_put obj (bucket w)
    /\ table w' = table w
    /\ tick w' = S (S (S (tick w))).
Proof.
  intros Hf key. subst key.
  unfold upload_to_s3. unfold_monad.
  repeat progress (simpl; autorewrite with world).
  rewrite Hf.
  repeat progress (simpl; autorewrite with world).
  eexists (mkObject _ _ _ _), _. split; [reflexivity |].
  repeat progress (simpl; autorewrite with world).
  repeat split.
Qed.

Lemma json_eqb_str (x : json) (s : pystr) : json_eqb x (JStr s) = true -> x = JStr s.
Proof.
  destruct x; simpl; try discriminate.
  intro H. apply pystr_eqb_eq in H. congruence.
Qed.

Lemma ddb_query_first (uid rid : pystr) (tbl : list item) (it : item)
      (rest : list item) :
  ddb_query (JStr uid) (JStr rid) tbl = it :: rest ->
  In it tbl
  /\ assoc (u "UserId") it = Some (JStr uid)
  /\ assoc (u "RecordId") it = Some (JStr rid).
Proof.
  intro H.
  assert (Hin : In it (ddb_query (JStr uid) (JStr rid) tbl))
    by (rewrite H; left; reflexivity).
  unfold ddb_query in Hin. apply filter_In in Hin. destruct Hin as [Hin Hhas].
  apply andb_prop in Hhas. destruct Hhas as [Hu Hr].
  unfold item_has in Hu, Hr.
  destruct (assoc (u "UserId") it) as [x |]; [| discriminate].
  destruct (assoc (u "RecordId") it) as [y |]; [| discriminate].
  apply json_eqb_str in Hu, Hr. subst. auto.
Qed.

End Completion.

(** X20.  The success path of the worker, end to end.  For a job as
    [push_to_sqs] writes it, whose record is in the table, with the three
    requests answered: [process_message] returns [True]; the bucket holds
    an object whose body is the canvas of the job's emotion; and the record
    found is marked "completed" with the URL of that object. *)
Theorem process_message_completes_the_record :
  forall (L : PyLib) (E : Env) (m : sqs_message) (w : World)
         (rid emo uid st : pystr) (d : datetime) (it : item) (rest : list item),
    py_json_loads (JStr (Body m))
    = Ret (job_message (JStr rid) (JStr emo) (JStr uid) d) ->
    rid <> [] ->
    fault (3 + tick w) = None ->
    fault (4 + tick w) = None ->
    fault (6 + tick w) = None ->
    ddb_query (JStr uid) (JStr rid) (table w) = it :: rest ->
    assoc (u "Timestamp") it = Some (JStr st) ->
    let w' := snd (process_message m w) in
    exists (obj : s3_object) (marked : item),
      fst (process_message m w) = Ret true
      /\ In obj (bucket w')
      /\ ObjectBody obj = template_of emo ++ footer_of rid (clock (tick w))
      /\ In marked (table w')
      /\ assoc (u "RecordId") marked = Some (JStr rid)
      /\ assoc (u "AsciiStatus") marked = Some (JStr (u "completed"))
      /\ assoc (u "AsciiUrl") marked = Some (JStr (artifact_url (Key obj))).
Proof.
  intros L E m w rid emo uid st d it rest Hbody Hrid Hput Hquery Hupdate
         Hfound Hts w'.
  destruct (ddb_query_first _ _ _ Hfound) as (Hin & Huid & Hrec).
  pose (w1 := snd (log INFO "Processing" w)).
  pose proof (generate_run emo rid w1) as Hgen.
  destruct (upload_to_s3_run (template_of emo ++ footer_of rid (clock (tick w1)))
              (JStr rid) (JStr uid) (tock w1))
    as (obj & w3 & Hup & Hkey & Hobj & Hbucket & Htable & Htick).
  { autorewrite with world. exact Hput. }
  autorewrite with world in Htable, Htick.
  change (table w1) with (table w) in Htable.
  change (tick w1) with (tick w) in Htick, Hobj, Hgen.
  rewrite <- Hkey in Hup.
  destruct (update_dynamodb_found (JStr uid) (JStr (isoformat d)) (JStr rid)
              (artifact_url (Key obj)) w3 (it := it) (rest := rest)
              (uid := JStr uid) (ts := JStr st))
    as (Hrun & Htable4 & _); try assumption.
  { rewrite Htick. exact Hquery. }
  { rewrite Htick. exact Hupdate. }
  { rewrite Htable. exact Hfound. }
  destruct (update_dynamodb (JStr uid) (JStr (isoformat d)) (JStr rid)
              (artifact_url (Key obj)) w3) as [o w4] eqn:Hupd.
  simpl in Hrun, Htable4. subst o.
  assert (Hb4 : bucket w4 = bucket w3).
  { rewrite <- (snd_run Hupd).
    apply update_dynamodb_preserves; auto with frame. }
  assert (Hjob : job_run m w (job_message (JStr rid) (JStr emo) (JStr uid) d)
                         (JStr rid) (JStr emo) (JStr uid) (JStr (isoformat d))
                         (template_of emo ++ footer_of rid (clock (tick w)))
                         (artifact_url (Key obj)) (tock w1) w3 w4).
  { split; [| exact Hupd].
    split; [exact Hbody |].
    split; [reflexivity |]. split; [reflexivity |].
    split; [reflexivity |]. split; [reflexivity |].
    split; [destruct rid; [contradiction | reflexivity] |].
    split; [exact Hgen | exact Hup]. }
  subst w'. rewrite (process_message_completed Hjob). simpl.
  exists obj, (set_attrs (backfill (artifact_url (Key obj))
                                   (isoformat (clock (S (tick w3))))) it).
  split; [reflexivity |].
  split; [rewrite Hb4, Hbucket; apply In_s3_put |].
  split; [exact Hobj |].
  split.
  - rewrite Htable4, Htable. apply ddb_update_found; [exact Hin |].
    apply has_key_str; assumption.
  - split; [rewrite backfill_other by (vm_compute; reflexivity); exact Hrec |].
    split; [apply backfill_status | apply backfill_url].
Qed.

Lemma process_message_completes_the_record_witness :
  let L := Run.lib [Run.job "rec-0" "happy"] in
  let E := Run.worker_env Run.no_fault Run.no_signal in
  let m := Run.message "rh-0" (Run.job "rec-0" "happy") in
  let w := Run.initial [Run.stored_record "rec-0"] [m] in
  exists (obj : s3_object) (marked : item),
    fst (@process_message L E m w) = Ret true
    /\ In obj (bucket (snd (@process_message L E m w)))
    /\ ObjectBody obj
       = @template_of L (u "happy") ++ @footer_of L (u "rec-0") (@clock E 0)
    /\ In marked (table (snd (@process_message L E m w)))
    /\ assoc (u "RecordId") marked = Some (JStr (u "rec-0"))
    /\ assoc (u "AsciiStatus") marked = Some (JStr (u "completed"))
    /\ assoc (u "AsciiUrl") marked = Some (JStr (@artifact_url E (Key obj))).
Proof.
  intros L E m w.
  apply (@process_message_completes_the_record L E m w (u "rec-0") (u "happy")
           (u "u1") (u "2026-11-03T08:00:02+00:00")
           (mkDatetime 2026 11 3 8 0 4 0) (Run.stored_record "rec-0") []).
  - vm_compute. reflexivity.
  - vm_compute. discriminate.
  - reflexivity.
  - reflexivity.
  - reflexivity.
  - vm_compute. reflexivity.
  - vm_compute. reflexivity.
Defined.

(* ===================================================================== *)
(** * Further properties: what the plan reader shows (plan_api.py) *)
(* ===================================================================== *)

(** X21.  What [format_plan_response] shows of a record follows the two
    writers.  The record as [save_to_dynamodb] writes it is shown with
    status "pending", no URL and the warning; once [update_dynamodb] has
    marked it with a URL that is not empty it is shown with status
    "completed", that URL and no warning.  The record identifier and the
    weekly plan are shown unchanged both times. *)
Theorem plan_is_shown_pending_then_completed :
  forall (user_id timestamp record_id user_text emotion : json) (score : Z)
         (weekly_plan is_fallback : json) (url generated_at : pystr),
    let stored := plan_record user_id timestamp record_id user_text emotion
                              score weekly_plan is_fallback in
    let marked := set_attrs (backfill url generated_at) stored in
    (exists shown,
        format_plan_response (JDict stored) = Ret shown
        /\ py_getitem shown (u "ascii")
           = Ret (JDict [(u "status", JStr (u "pending"));
                         (u "url", JNull);
                         (u "warning",
                          JStr (u "Visual generation pending. Your plan is ready below."))])
        /\ py_getitem shown (u "recordId") = Ret record_id
        /\ py_getitem shown (u "weeklyPlan") = Ret weekly_plan)
    /\ (url <> [] ->
        exists shown,
          format_plan_response (JDict marked) = Ret shown
          /\ py_getitem shown (u "ascii")
             = Ret (JDict [(u "status", JStr (u "completed"));
                           (u "url", JStr url);
                           (u "warning", JNull)])
          /\ py_getitem shown (u "recordId") = Ret record_id
          /\ py_getitem shown (u "weeklyPlan") = Ret weekly_plan).
Proof.
  intros user_id timestamp record_id user_text emotion score weekly_plan
         is_fallback url generated_at stored marked.
  split.
  - eexists. split; [reflexivity |]. repeat split; reflexivity.
  - intro Hurl. subst marked.
    unfold format_plan_response.
    rewrite backfill_status, backfill_url.
    rewrite !backfill_other by (vm_compute; reflexivity).
    eexists. split; [reflexivity |].
    destruct url as [| c url]; [contradiction |].
    repeat split; reflexivity.
Qed.

Lemma plan_is_shown_pending_then_completed_witness :
  let stored := plan_record (JStr (u "u1")) (JStr (u "2026-11-03T08:00:02+00:00"))
                            (JStr (u "rec-0")) (JStr (u "hello"))
                            (JStr (u "neutral")) 50 (JList []) (JBool true) in
  exists shown,
    format_plan_response
      (JDict (set_attrs (backfill (u "https://bucket/key") (u "now")) stored))
    = Ret shown
    /\ py_getitem shown (u "ascii")
       = Ret (JDict [(u "status", JStr (u "completed"));
                     (u "url", JStr (u "https://bucket/key"));
                     (u "warning", JNull)]).
Proof.
  intros stored.
  destruct (plan_is_shown_pending_then_completed
              (JStr (u "u1")) (JStr (u "2026-11-03T08:00:02+00:00"))
              (JStr (u "rec-0")) (JStr (u "hello")) (JStr (u "neutral")) 50
              (JList []) (JBool true) (u "https://bucket/key") (u "now"))
    as [_ H].
  destruct H as (shown & Hrun & Hascii & _).
  - vm_compute. discriminate.
  - exists shown. split; [exact Hrun | exact Hascii].
Defined.

(* ===================================================================== *)
(** * Further properties: the bearer token (auth.py) *)
(* ===================================================================== *)

Lemma split_on_no_sep (sep : codepoint) (s : pystr) :
  ~ In sep s -> split_on sep s = [s].
Proof.
  induction s as [| c s IH]; simpl; intro H; [reflexivity |].
  destruct (N.eqb_spec c sep) as [-> | Hne]; [exfalso; apply H; left; reflexivity |].
  rewrite IH by (intro Hin; apply H; right; exact Hin). reflexivity.
Qed.

Lemma split_on_app (sep : codepoint) (a b : pystr) :
  ~ In sep a -> split_on sep (a ++ sep :: b) = a :: split_on sep b.
Proof.
  induction a as [| c a IH]; simpl; intro H.
  - rewrite N.eqb_refl. reflexivity.
  - destruct (N.eqb_spec c sep) as [-> | Hne]; [exfalso; apply H; left; reflexivity |].
    rewrite IH by (intro Hin; apply H; right; exact Hin). reflexivity.
Qed.

Lemma split_on_not_nil (sep : codepoint) (s : pystr) : split_on sep s <> [].
Proof.
  destruct s as [| c s]; simpl; [discriminate |].
  destruct (N.eqb c sep); [discriminate |].
  destruct (split_on sep s); discriminate.
Qed.

(** A text that splits in two is the two parts around one separator. *)
Lemma split_on_two (sep : codepoint) (s a b : pystr) :
  split_on sep s = [a; b] ->
  s = a ++ sep :: b /\ ~ In sep a /\ ~ In sep b.
Proof.
  revert a. induction s as [| c s IH]; simpl; intros a H; [discriminate |].
  destruct (N.eqb_spec c sep) as [-> | Hne].
  - injection H as <- Hs.
    assert (Hb : s = b /\ ~ In sep b).
    { clear IH. revert b Hs. induction s as [| c s IH]; simpl; intros b Hs.
      - injection Hs as <-. split; [reflexivity | intros []].
      - destruct (N.eqb_spec c sep) as [-> | Hne].
        { injection Hs as _ Hs. destruct (split_on_not_nil _ _ Hs). }
        destruct (split_on sep s) as [| part parts] eqn:Hsp;
          [destruct (split_on_not_nil _ _ Hsp) |].
        injection Hs as <- ->.
        destruct (IH part eq_refl) as [-> Hnot].
        split; [reflexivity |].
        intros [Hc | Hin]; [apply Hne; exact Hc | apply Hnot; exact Hin]. }
    destruct Hb as [-> Hb]. split; [reflexivity |]. split; [intros [] | exact Hb].
  - destruct (split_on sep s) as [| part parts] eqn:Hsp; [discriminate |].
    injection H as <- ->.
    destruct (IH part eq_refl) as (-> & Ha & Hb).
    split; [reflexivity |]. split; [| exact Hb].
    intros [Hc | Hin]; [apply Hne; exact Hc | apply Ha; exact Hin].
Qed.

(** X22.  [extract_token] returns a token exactly for a header made of a
    scheme that reads "bearer" in lower case, one space, and a token
    without a space; it then returns that token.  Every other header,
    the empty one included, raises [ValueError]. *)
Theorem extract_token_accepts_bearer_only :
  forall (L : PyLib) (auth_header token : pystr),
    (extract_token auth_header = Ret token
     <-> exists scheme,
           auth_header = scheme ++ 32%N :: token
           /\ ~ In 32%N scheme /\ ~ In 32%N token
           /\ str_lower scheme = u "bearer")
    /\ (forall e, extract_token auth_header = Raise e -> e = ValueError).
Proof.
  intros L auth_header token. split; [split |].
  - unfold extract_token.
    destruct auth_header as [| c0 h0] eqn:Hh; [discriminate |]. rewrite <- Hh.
    destruct (split_on 32%N auth_header) as [| scheme [| tok [| x parts]]] eqn:Hsp;
      try discriminate.
    destruct (pystr_eqb (str_lower scheme) (u "bearer")) eqn:Hb; [| discriminate].
    intro H. injection H as <-.
    destruct (@split_on_two 32%N auth_header scheme tok Hsp) as (Heq & Hs & Ht).
    exists scheme. apply pystr_eqb_eq in Hb. rewrite Hh in Heq. rewrite Hh. auto.
  - intros (scheme & -> & Hs & Ht & Hb).
    unfold extract_token.
    pose proof (@split_on_app 32%N scheme token Hs) as H1.
    pose proof (@split_on_no_sep 32%N token Ht) as H2.
    unfold pystr, codepoint in *.
    rewrite H1, H2, Hb, pystr_eqb_refl.
    destruct scheme; reflexivity.
  - unfold extract_token. intros e.
    destruct auth_header as [| c0 h0]; [congruence |].
    destruct (split_on 32%N (c0 :: h0)) as [| scheme [| tok [| x parts]]];
      try congruence.
    destruct (pystr_eqb (str_lower scheme) (u "bearer")); congruence.
Qed.

Lemma extract_token_accepts_bearer_only_witness :
  @extract_token (Run.lib []) (u "Bearer abc.def.ghi") = Ret (u "abc.def.ghi").
Proof.
  apply (@extract_token_accepts_bearer_only (Run.lib []) (u "Bearer abc.def.ghi")
           (u "abc.def.ghi")).
  exists (u "Bearer"). repeat split; vm_compute; try reflexivity;
    intro H; repeat (destruct H as [H | H]; [discriminate |]); exact H.
Defined.

Section NoJobWithoutRecord.
Context {L : PyLib} {E : Env}.
Variable rid : json.

Local Abbreviation dispatches_stored c :=
  (forall w, job_only_if_stored rid w (snd (c w))).

Lemma job_only_if_stored_frame {A} (c : M A) :
  preserves queue c -> dispatches_stored c.
Proof. intros H w. left. apply H. Qed.

Lemma job_only_if_stored_bind {A B} (m : M A) (k : A -> M B) :
  preserves table m -> preserves queue m ->
  (forall a, dispatches_stored (k a)) ->
  dispatches_stored (bind m k).
Proof.
  intros Ht Hq Hk w. unfold bind. specialize (Ht w). specialize (Hq w).
  destruct (m w) as [[a | e] w1]; simpl in Ht, Hq.
  - specialize (Hk a w1). unfold job_only_if_stored in *.
    rewrite Ht, Hq in Hk. exact Hk.
  - left. exact Hq.
Qed.

Lemma job_only_if_stored_try_catch {A} (m : M A) (h : exn -> M A) :
  dispatches_stored m ->
  (forall e, preserves table (h e)) -> (forall e, preserves queue (h e)) ->
  dispatches_stored (try_catch m h).
Proof.
  intros Hm Ht Hq w. unfold try_catch. specialize (Hm w).
  destruct (m w) as [[a | e] w1]; simpl in Hm; [exact Hm |].
  unfold job_only_if_stored in *. rewrite (Ht e w1), (Hq e w1). exact Hm.
Qed.

(** What [push_to_sqs] does to the queue, in every case. *)
Lemma push_to_sqs_queue (emotion user_id : json) (w : World) :
  queue (snd (push_to_sqs rid emotion user_id w)) = queue w
  \/ queue (snd (push_to_sqs rid emotion user_id w))
     = queue w ++ [mkMessage (new_handle (S (tick w)))
                     (json_dumps (job_message rid emotion user_id (clock (tick w))))].
Proof.
  destruct (str_contains (u ".fifo") (SQS_QUEUE_URL config)) eqn:Hfifo;
    [| left; apply push_to_sqs_not_sent; rewrite Hfifo; intros [H _];
       discriminate].
  destruct (fault (S (tick w))) as [e |] eqn:Hf;
    [left; apply push_to_sqs_not_sent; rewrite Hf; intros (_ & _ & H);
     discriminate |].
  destruct user_id as [| b | z | f | uid | l | d];
    try (left; apply push_to_sqs_not_sent; intros (_ & [uid H] & _);
         discriminate).
  right. apply (push_to_sqs_sent rid emotion uid w Hfifo Hf).
Qed.

(** The dispatch comes after the store write has returned. *)
Lemma save_then_push (user_id user_text analysis : json) :
  dispatches_stored
    (save_to_dynamodb user_id rid user_text analysis;;
     emotion <- lift (py_get analysis (u "emotion") (JStr (u "neutral")));;
     _ <- push_to_sqs rid emotion user_id;;
     log INFO "Successfully processed record";;
     ret (Processed, rid)).
Proof.
  intro w. unfold bind at 1.
  destruct (save_to_dynamodb user_id rid user_text analysis w)
    as [[[] | e] w1] eqn:Hsave.
  - destruct (save_to_dynamodb_returns _ _ _ _ _ Hsave)
      as (text & emo & score & plan & fb & _ & Htable).
    pose proof (save_to_dynamodb_queue user_id rid user_text analysis w) as Hq.
    rewrite Hsave in Hq. simpl in Hq.
    unfold bind at 1, lift at 1.
    destruct (py_get analysis (u "emotion") (JStr (u "neutral"))) as [emotion | e];
      [| left; exact Hq].
    unfold bind at 1.
    pose proof (push_to_sqs_queue emotion user_id w1) as Hpush.
    pose proof (push_to_sqs_table rid emotion user_id w1) as Hpt.
    destruct (push_to_sqs rid emotion user_id w1) as [[sent | e] w2];
      simpl in Hpush, Hpt; unfold job_only_if_stored; simpl.
    + destruct Hpush as [Hsame | Hsent]; [left; congruence |].
      right. eexists. eexists. exists emotion, user_id, (clock (tick w1)).
      split; [rewrite Hpt; exact Htable |].
      split; [reflexivity |]. split; [reflexivity |].
      split; [rewrite Hsent, Hq; reflexivity | reflexivity].
    + destruct Hpush as [Hsame | Hsent]; [left; congruence |].
      right. eexists. eexists. exists emotion, user_id, (clock (tick w1)).
      split; [rewrite Hpt; exact Htable |].
      split; [reflexivity |]. split; [reflexivity |].
      split; [rewrite Hsent, Hq; reflexivity | reflexivity].
  - left. pose proof (save_to_dynamodb_queue user_id rid user_text analysis w) as Hq.
    rewrite Hsave in Hq. exact Hq.
Qed.

End NoJobWithoutRecord.

Section NoJobWithoutRecordLoop.
Context {L : PyLib} {E : Env}.

Lemma parse_kinesis_record_queue (record : json) :
  preserves queue (parse_kinesis_record record).
Proof. unfold parse_kinesis_record. frame. Qed.

End NoJobWithoutRecordLoop.

(** X23.  [handler] never enqueues a job for a record that is not in the
    table: after one pass of the loop body, whatever happened, either the
    queue is as it was, or it has received one message and the table has
    received the pending record that the message names. *)
Theorem handler_record_never_enqueues_an_unstored_record :
  forall (L : PyLib) (E : Env) (record : json) (w : World),
    let w' := snd (handler_record record w) in
    let record_id := JStr (uuid4 (tick w)) in
    queue w' = queue w
    \/ exists (it : item) (m : sqs_message) (emotion user_id : json) (d : datetime),
         table w' = ddb_put it (table w)
         /\ assoc (u "RecordId") it = Some record_id
         /\ assoc (u "AsciiStatus") it = Some (JStr (u "pending"))
         /\ queue w' = queue w ++ [m]
         /\ Body m = json_dumps (job_message record_id emotion user_id d).
Proof.
  intros L E record w w' record_id. subst w' record_id.
  change (job_only_if_stored (JStr (uuid4 (tick w))) w
                             (snd (handler_record record w))).
  unfold handler_record, touch, bind at 1.
  set (rid := JStr (uuid4 (tick w))).
  assert (H : job_only_if_stored rid (tock w)
                (snd (try_catch
                        (input_data <- parse_kinesis_record record;;
                         user_text <- lift (py_get input_data (u "text") (JStr (u "")));;
                         user_id <- lift (py_get input_data (u "userId")
                                                 (JStr (u "anonymous")));;
                         if negb (truthy user_text) then
                           log WARNING "Empty text in record, skipping";;
                           ret (Skipped, rid)
                         else
                           _ <- lift (py_len user_text);;
                           log INFO "Processing record for user";;
                           secrets <- get_secrets;;
                           gemini_key <- lift (py_get secrets (u "GEMINI_KEY")
                                                      (JStr (u "")));;
                           analysis_result <- call_gemini_api user_text gemini_key;;
                           save_to_dynamodb user_id rid user_text analysis_result;;
                           emotion <- lift (py_get analysis_result (u "emotion")
                                                   (JStr (u "neutral")));;
                           _ <- push_to_sqs rid emotion user_id;;
                           log INFO "Successfully processed record";;
                           ret (Processed, rid))
                        (fun e => log ERROR "Failed to process record";;
                                  ret (Failed, rid))
                        (tock w)))).
  { generalize (tock w).
    apply job_only_if_stored_try_catch; [| intro; frame | intro; frame].
    apply job_only_if_stored_bind;
      [apply parse_kinesis_record_table | apply parse_kinesis_record_queue |].
    intro input.
    apply job_only_if_stored_bind; [frame | frame | intro user_text].
    apply job_only_if_stored_bind; [frame | frame | intro user_id].
    destruct (negb (truthy user_text)).
    - apply job_only_if_stored_frame. frame.
    - apply job_only_if_stored_bind; [frame | frame | intro].
      apply job_only_if_stored_bind; [frame | frame | intro].
      apply job_only_if_stored_bind;
        [apply get_secrets_table | apply get_secrets_queue | intro secrets].
      apply job_only_if_stored_bind; [frame | frame | intro key].
      apply job_only_if_stored_bind;
        [apply call_gemini_api_table | apply call_gemini_api_queue | intro analysis].
      apply save_then_push. }
  unfold job_only_if_stored in *.
  rewrite table_tock, queue_tock in H. exact H.
Qed.

Section NoMarkWithoutArtifact.
Context {L : PyLib} {E : Env}.

Local Abbreviation marks_uploaded c :=
  (forall w, marked_only_if_uploaded w (snd (c w))).

Lemma marked_only_if_uploaded_frame {A} (c : M A) :
  preserves table c -> marks_uploaded c.
Proof. intros H w. left. apply H. Qed.

Lemma marked_only_if_uploaded_bind {A B} (m : M A) (k : A -> M B) :
  preserves table m ->
  (forall a, marks_uploaded (k a)) ->
  marks_uploaded (bind m k).
Proof.
  intros Ht Hk w. unfold bind. specialize (Ht w).
  destruct (m w) as [[a | e] w1]; simpl in Ht.
  - specialize (Hk a w1). unfold marked_only_if_uploaded in *.
    rewrite Ht in Hk. exact Hk.
  - left. exact Ht.
Qed.

Lemma marked_only_if_uploaded_try_catch {A} (m : M A) (h : exn -> M A) :
  marks_uploaded m ->
  (forall e, preserves table (h e)) -> (forall e, preserves bucket (h e)) ->
  marks_uploaded (try_catch m h).
Proof.
  intros Hm Ht Hb w. unfold try_catch. specialize (Hm w).
  destruct (m w) as [[a | e] w1]; simpl in Hm; [exact Hm |].
  unfold marked_only_if_uploaded in *. rewrite (Ht e w1), (Hb e w1). exact Hm.
Qed.

(** The store update comes after the upload has returned. *)
Lemma upload_then_update (ascii_art : pystr) (record_id user_id timestamp : json) :
  marks_uploaded
    (ascii_url <- upload_to_s3 ascii_art record_id user_id;;
     update_dynamodb user_id timestamp record_id ascii_url;;
     log INFO "Successfully processed message";;
     ret true).
Proof.
  intro w. unfold bind at 1.
  pose proof (@upload_to_s3_preserves L E _ table ascii_art record_id user_id) as Hut.
  destruct (upload_to_s3 ascii_art record_id user_id w) as [[url | e] w1] eqn:Hup.
  - destruct (upload_to_s3_returns _ _ _ _ Hup) as (obj & Hbucket & _ & _ & ->).
    assert (Ht1 : table w1 = table w).
    { rewrite <- (snd_run Hup). apply Hut; auto with frame. }
    unfold bind at 1.
    pose proof (update_dynamodb_table user_id timestamp record_id
                  (artifact_url (Key obj)) w1) as Hcases.
    assert (Hb : bucket (snd (update_dynamodb user_id timestamp record_id
                                (artifact_url (Key obj)) w1)) = bucket w1).
    { apply update_dynamodb_preserves; auto with frame. }
    destruct (update_dynamodb user_id timestamp record_id
                (artifact_url (Key obj)) w1) as [[[] | e] w2];
      simpl in Hcases, Hb; unfold marked_only_if_uploaded; simpl;
      (destruct Hcases as [Hsame | (uid & ts & generated_at & Hmarked)];
       [left; congruence |]);
      right; exists obj, uid, ts, generated_at;
      (split; [rewrite Hb, Hbucket; apply In_s3_put | rewrite Hmarked, Ht1; reflexivity]).
  - left. simpl. rewrite <- (snd_run Hup). apply Hut; auto with frame.
Qed.

End NoMarkWithoutArtifact.

(** X24.  [process_message] never marks a record before its artifact is
    stored: whatever happens while a job is processed, either the table is
    as it was, or it has received the update that sets the URL of an object
    which the bucket now holds. *)
Theorem process_message_never_marks_without_artifact :
  forall (L : PyLib) (E : Env) (m : sqs_message) (w : World),
    let w' := snd (process_message m w) in
    table w' = table w
    \/ exists (obj : s3_object) (uid ts : json) (generated_at : pystr),
         In obj (bucket w')
         /\ table w'
            = ddb_update uid ts (backfill (artifact_url (Key obj)) generated_at)
                         (table w).
Proof.
  intros L E m w w'. subst w'.
  change (marked_only_if_uploaded w (snd (process_message m w))).
  revert w.
  unfold process_message, process_message_body.
  apply marked_only_if_uploaded_try_catch; [| intro; frame | intro; frame].
  do 5 (apply marked_only_if_uploaded_bind; [frame | intro]).
  match goal with |- forall w, marked_only_if_uploaded w (snd ((if ?b then _ else _) w)) =>
    destruct b
  end.
  - apply marked_only_if_uploaded_frame. frame.
  - apply marked_only_if_uploaded_bind; [frame | intro].
    apply marked_only_if_uploaded_bind;
      [apply generate_preserves; auto with frame | intro art].
    apply upload_then_update.
Qed.
